(** * firefly_server.py: the tool adapters of the Firefly III MCP server

    A shallow embedding of [src/firefly_server.py].  The server is a
    catalogue of tool functions that validate string parameters, acquire
    one shared API client, issue calls through it and render the answer as
    a string.  The embedding follows the source function by function:

    - a Python [str] is a Rocq [string] holding its UTF-8 bytes; the
      built-in string methods ([strip], [lower], [isdigit], ...) are
      transcribed for ASCII characters, and a byte above 127 is neither
      whitespace, nor a digit, nor cased;
    - dynamically typed values (JSON documents, request models, backend
      answers) are values of [pyval];
    - the module globals [_api_client] and [_configuration] live in a
      [state] record that every function threads, together with a log of
      the backend calls issued and counters of configuration reads and of
      clients built;
    - what the process does not own (the secrets file, the backend behind
      the generated client, [json], [int], [float], number formatting, the
      clock) is an [env] record the functions read;
    - a Python call either returns or raises: computations are functions
      [env -> state -> outcome A * state]. *)

From Stdlib Require Import String Ascii List ZArith Lia PrimFloat.
From stdpp Require Import gmap strings list fin_maps pretty.

Set Warnings "-register-all,-abstract-large-number".
Open Scope string_scope.

(** ** Python strings *)

Module Py.

(** [str.isspace] on one ASCII character: TAB..CR, FS..US and the space. *)
Definition isspace (c : ascii) : bool :=
  let n := nat_of_ascii c in
  ((9 <=? n)%nat && (n <=? 13)%nat) || ((28 <=? n)%nat && (n <=? 32)%nat).

Definition is_digit_char (c : ascii) : bool :=
  let n := nat_of_ascii c in (48 <=? n)%nat && (n <=? 57)%nat.

Definition is_slash (c : ascii) : bool := Ascii.eqb c "/".

Fixpoint all_chars (p : ascii -> bool) (s : string) : bool :=
  match s with
  | EmptyString => true
  | String c r => p c && all_chars p r
  end.

(** Truth value of a [str]: [if s:]. *)
Definition nonempty (s : string) : bool :=
  match s with EmptyString => false | String _ _ => true end.

Fixpoint lstrip_with (p : ascii -> bool) (s : string) : string :=
  match s with
  | EmptyString => EmptyString
  | String c r => if p c then lstrip_with p r else s
  end.

Fixpoint rstrip_with (p : ascii -> bool) (s : string) : string :=
  match s with
  | EmptyString => EmptyString
  | String c r =>
      match rstrip_with p r with
      | EmptyString => if p c then EmptyString else String c EmptyString
      | r' => String c r'
      end
  end.

(** [s.strip()] *)
Definition strip (s : string) : string :=
  lstrip_with isspace (rstrip_with isspace s).

(** [s.rstrip("/")] *)
Definition rstrip_slash (s : string) : string := rstrip_with is_slash s.

(** [s.endswith(suffix)] *)
Fixpoint endswith (s suffix : string) : bool :=
  String.eqb s suffix ||
  match s with
  | EmptyString => false
  | String _ r => endswith r suffix
  end.

Definition lower_char (c : ascii) : ascii :=
  let n := nat_of_ascii c in
  if (65 <=? n)%nat && (n <=? 90)%nat then ascii_of_nat (n + 32) else c.

Definition upper_char (c : ascii) : ascii :=
  let n := nat_of_ascii c in
  if (97 <=? n)%nat && (n <=? 122)%nat then ascii_of_nat (n - 32) else c.

Fixpoint map_chars (f : ascii -> ascii) (s : string) : string :=
  match s with
  | EmptyString => EmptyString
  | String c r => String (f c) (map_chars f r)
  end.

(** [s.lower()] *)
Definition lower (s : string) : string := map_chars lower_char s.

(** [s.capitalize()] *)
Definition capitalize (s : string) : string :=
  match s with
  | EmptyString => EmptyString
  | String c r => String (upper_char c) (lower r)
  end.

(** [s.isdigit()]: at least one character, and all of them digits. *)
Definition isdigit (s : string) : bool := nonempty s && all_chars is_digit_char s.

(** [s.split(",")]: never empty, one more piece than there are commas. *)
Fixpoint split_comma (s : string) : list string :=
  match s with
  | EmptyString => [EmptyString]
  | String c r =>
      if Ascii.eqb c "," then EmptyString :: split_comma r
      else match split_comma r with
           | [] => [String c EmptyString]
           | p :: ps => String c p :: ps
           end
  end.

(** [sub in s] *)
Fixpoint contains (s sub : string) : bool :=
  String.prefix sub s ||
  match s with
  | EmptyString => false
  | String _ r => contains r sub
  end.

(** [sep.join(parts)] *)
Fixpoint join (sep : string) (parts : list string) : string :=
  match parts with
  | [] => EmptyString
  | [p] => p
  | p :: ps => p ++ sep ++ join sep ps
  end.

(** A parameter is blank when it is empty or holds whitespace only. *)
Definition blank (s : string) : bool := all_chars isspace s.

End Py.

(** The line feed of the multi-line messages. *)
Definition nl : string := String (ascii_of_nat 10) EmptyString.

(** ** Dynamically typed values *)

Inductive pyval : Type :=
| VNone
| VBool (b : bool)
| VInt (z : Z)
| VFloat (f : float)
| VStr (s : string)
| VList (l : list pyval)
| VDict (d : gmap string pyval)
| VObj (cls : string) (fields : gmap string pyval).

(** Truth value of a Python object: [if v:] and [not v]. A float is false
    when it compares equal to zero. *)
Definition truthy (v : pyval) : bool :=
  match v with
  | VNone => false
  | VBool b => b
  | VInt z => negb (z =? 0)%Z
  | VFloat f => negb (PrimFloat.eqb f 0%float)
  | VStr s => Py.nonempty s
  | VList l => match l with [] => false | _ => true end
  | VDict d => negb (bool_decide (d = ∅))
  | VObj _ _ => true
  end.

(** ** Exceptions *)

(** Instances of [Exception]: the generated client's [ApiException], with
    the attributes [format_error] reads and its [str(e)], and any other
    exception, with its class name and its [str(e)]. *)
Inductive exn : Type :=
| ApiException (status reason body : pyval) (text : string)
| PyException (cls : string) (text : string).

Definition AttributeError (what : string) : exn := PyException "AttributeError" what.
Definition IndexError : exn := PyException "IndexError" "list index out of range".
Definition ValueError (text : string) : exn := PyException "ValueError" text.

Inductive outcome (A : Type) : Type :=
| Ret (a : A)
| Raise (e : exn).
Arguments Ret {A} a.
Arguments Raise {A} e.

(** ** The client handle and the backend calls *)

(** [firefly_iii_client.configuration.Configuration] as the server sets it
    up: the host and the bearer token. *)
Record Configuration : Type := {
  host : string;
  access_token : pyval
}.

Record ApiClient : Type := {
  configuration : Configuration
}.

(** One call of a method of a generated API class, e.g.
    [AccountsApi(client).delete_account(account_id)]: the class, the
    method, the positional and the keyword arguments. *)
Record call : Type := Call {
  call_client : ApiClient;
  call_api : string;
  call_method : string;
  call_args : list pyval;
  call_kwargs : gmap string pyval
}.

(** ** The environment and the process state *)

(** What opening and parsing the secrets file gives. *)
Inductive file_result : Type :=
| FileNotFound
| Unreadable (text : string)
| Loaded (secrets : pyval).

Record env : Type := {
  (** the secrets file as its n-th reading finds it *)
  secrets_file : nat -> file_result;
  (** the backend behind the generated client: the answer to a call,
      given the calls issued before it *)
  backend : list call -> call -> outcome pyval;
  (** [json.loads]; [None] when it raises *)
  json_loads : pyval -> option pyval;
  (** [json.dumps(v, indent=2)] *)
  json_dumps : pyval -> outcome string;
  (** [repr] of a container or an object *)
  py_repr : pyval -> string;
  (** [int(s)] *)
  py_int : string -> outcome Z;
  (** [float(v)] *)
  py_float : pyval -> outcome float;
  (** [f"{x:.<digits>f}"] *)
  format_float : nat -> float -> string;
  (** [datetime.now()]: year, month (1..12) and day *)
  now_year : nat;
  now_month : nat;
  now_day : nat
}.

Record state : Type := {
  _api_client : option ApiClient;
  _configuration : option Configuration;
  (** calls issued to the backend, oldest first *)
  calls : list call;
  (** how often the secrets file was opened *)
  config_reads : nat;
  (** how often an [ApiClient] was constructed *)
  clients_built : nat
}.

(** The state of a fresh process. *)
Definition initial_state : state :=
  {| _api_client := None; _configuration := None; calls := [];
     config_reads := 0; clients_built := 0 |}.

(** ** Computations *)

Definition M (A : Type) : Type := env -> state -> outcome A * state.

Definition ret {A} (a : A) : M A := fun _ st => (Ret a, st).

Definition raise {A} (e : exn) : M A := fun _ st => (Raise e, st).

Definition bind {A B} (m : M A) (k : A -> M B) : M B :=
  fun E st =>
    match m E st with
    | (Ret a, st') => k a E st'
    | (Raise e, st') => (Raise e, st')
    end.

Notation "'let*' x ':=' m 'in' k" := (bind m (fun x => k))
  (at level 10, x name, m at level 100, k at level 200).
Notation "m ';;' k" := (bind m (fun _ => k))
  (at level 100, k at level 200, right associativity).

(** [try: body except Exception as e: handler(e)] *)
Definition try_except {A} (body : M A) (handler : exn -> M A) : M A :=
  fun E st =>
    match body E st with
    | (Ret a, st') => (Ret a, st')
    | (Raise e, st') => handler e E st'
    end.

(** A computation that leaves the state alone, whatever it returns. *)
Definition stateless {A} (m : M A) : Prop :=
  forall E st, snd (m E st) = st.

(** Reading the environment. *)
Definition ask : M env := fun E st => (Ret E, st).

(** Issuing one call through the client: it is logged, then the backend
    answers or raises. *)
Definition issue (c : call) : M pyval :=
  fun E st =>
    (backend E (calls st) c,
     {| _api_client := _api_client st; _configuration := _configuration st;
        calls := calls st ++ [c];
        config_reads := config_reads st; clients_built := clients_built st |}).

(** A method call with positional arguments only. *)
Definition api_call (client : ApiClient) (api method : string) (args : list pyval) : M pyval :=
  issue (Call client api method args ∅).

(** ** Operations on values *)

(** [d.get(key, default)]; a value that is no [dict] has no [get]. *)
Definition dict_get (v : pyval) (key : string) (default : pyval) : M pyval :=
  match v with
  | VDict d => ret (match d !! key with Some x => x | None => default end)
  | _ => raise (AttributeError "object has no attribute 'get'")
  end.

(** [d[key]] on a dict. *)
Definition dict_item (v : pyval) (key : string) : M pyval :=
  match v with
  | VDict d => match d !! key with
               | Some x => ret x
               | None => raise (PyException "KeyError" key)
               end
  | _ => raise (PyException "TypeError" "object is not subscriptable")
  end.

(** [o.name] on a model object. *)
Definition getattr (v : pyval) (name : string) : M pyval :=
  match v with
  | VObj _ fields => match fields !! name with
                     | Some x => ret x
                     | None => raise (AttributeError name)
                     end
  | _ => raise (AttributeError name)
  end.

(** [hasattr(o, name)] *)
Definition hasattr (v : pyval) (name : string) : bool :=
  match v with
  | VObj _ fields => bool_decide (is_Some (fields !! name))
  | _ => false
  end.

(** [l[0]] *)
Definition first_item (v : pyval) : M pyval :=
  match v with
  | VList (x :: _) => ret x
  | VList [] => raise IndexError
  | VStr (String c _) => ret (VStr (String c EmptyString))
  | VStr EmptyString => raise (PyException "IndexError" "string index out of range")
  | _ => raise (PyException "TypeError" "object is not subscriptable")
  end.

(** Iterating a value with [for x in v]: the generated client types the
    [data] of an answer as a list. *)
Definition iterate (v : pyval) : M (list pyval) :=
  match v with
  | VList l => ret l
  | _ => raise (PyException "TypeError" "object is not iterable")
  end.

(** [str(v)], as an f-string renders a value. *)
Definition py_str (E : env) (v : pyval) : string :=
  match v with
  | VNone => "None"
  | VBool true => "True"
  | VBool false => "False"
  | VInt z => pretty z
  | VStr s => s
  | _ => py_repr E v
  end.

(** ** The client manager *)

Definition count_read (st : state) : state :=
  {| _api_client := _api_client st; _configuration := _configuration st;
     calls := calls st;
     config_reads := S (config_reads st); clients_built := clients_built st |}.

(** The assignments of [get_api_client] to the two globals, with the
    construction of the client counted. *)
Definition store_client (cfg : Configuration) (client : ApiClient) : M unit :=
  fun _ st =>
    (Ret tt,
     {| _api_client := Some client; _configuration := Some cfg;
        calls := calls st;
        config_reads := config_reads st; clients_built := S (clients_built st) |}).

(** [with open(SECRETS_FILE, 'r') as f: secrets = json.load(f)] *)
Definition read_secrets : M pyval :=
  fun E st =>
    (match secrets_file E (config_reads st) with
     | FileNotFound => Raise (PyException "FileNotFoundError" "No such file or directory")
     | Unreadable text => Raise (PyException "Exception" text)
     | Loaded secrets => Ret secrets
     end,
     count_read st).

(** [load_config]: the ["firefly"] section of the secrets file, and the
    empty dict when the file is missing or anything else goes wrong (both
    handlers log and return [{}]). *)
Definition load_config : M pyval :=
  try_except
    (let* secrets := read_secrets in
     dict_get secrets "firefly" (VDict ∅))
    (fun e => ret (VDict ∅)).

Definition missing_config : exn :=
  ValueError "Missing base_url or token in ~/.config/mcp-secrets.json".

(** [v.rstrip("/")]; only a [str] has the method. *)
Definition str_rstrip_slash (v : pyval) : M string :=
  match v with
  | VStr s => ret (Py.rstrip_slash s)
  | _ => raise (AttributeError "object has no attribute 'rstrip'")
  end.

(** The host the client is given: the base address without trailing
    slashes, with [/api] appended unless it already ends with it. *)
Definition api_host (base_url : string) : string :=
  let base_url := Py.rstrip_slash base_url in
  if negb (Py.endswith base_url "/api") then base_url ++ "/api" else base_url.

(** [get_api_client]: the global client, built on first use. *)
Definition get_api_client : M ApiClient :=
  fun E st =>
    match _api_client st with
    | Some client => (Ret client, st)
    | None =>
        (let* config := load_config in
         let* b := dict_get config "base_url" VNone in
         if negb (truthy b) then raise missing_config else
         let* t := dict_get config "token" VNone in
         if negb (truthy t) then raise missing_config else
         let* base_url := dict_item config "base_url" in
         let* base_url := str_rstrip_slash base_url in
         let base_url :=
           if negb (Py.endswith base_url "/api") then base_url ++ "/api" else base_url in
         let* token := dict_item config "token" in
         let cfg := {| host := base_url; access_token := token |} in
         let client := {| configuration := cfg |} in
         store_client cfg client ;;
         ret client) E st
    end.

(** ** Error rendering *)

(** [format_error] *)
Definition format_error (E : env) (e : exn) : string :=
  match e with
  | ApiException status reason body text =>
      match json_loads E body with
      | Some (VDict error_data) =>
          let msg := match error_data !! "message" with
                     | Some m => m
                     | None => VStr text
                     end in
          "❌ API Error (" ++ py_str E status ++ "): " ++ py_str E msg
      | _ => "❌ API Error (" ++ py_str E status ++ "): " ++ py_str E reason
      end
  | PyException _ text => "❌ Error: " ++ text
  end.

(** The handler of every tool: [except Exception as e: return format_error(e)]. *)
Definition on_error (e : exn) : M string :=
  fun E st => (Ret (format_error E e), st).

(** [format_amount]: two decimals, or the value as it is when [float]
    raises [ValueError] or [TypeError]. *)
Definition format_amount (amount : pyval) : M string :=
  fun E st =>
    match py_float E amount with
    | Ret f => (Ret (format_float E 2 f), st)
    | Raise (PyException cls text) =>
        if String.eqb cls "ValueError" || String.eqb cls "TypeError"
        then (Ret (py_str E amount), st)
        else (Raise (PyException cls text), st)
    | Raise e => (Raise e, st)
    end.

(** The marker every rendered error starts with. *)
Definition error_marker : string := "❌".

(** ** Helpers shared by the tools *)

(** A tool is called with keyword arguments, all of them strings; a
    parameter that is not passed takes its default. *)
Definition arg (kw : gmap string string) (name default : string) : string :=
  match kw !! name with
  | Some v => v
  | None => default
  end.

(** [o.a.b.c] *)
Fixpoint getattrs (v : pyval) (path : list string) : M pyval :=
  match path with
  | [] => ret v
  | name :: rest => let* x := getattr v name in getattrs x rest
  end.

(** [v or default] *)
Definition py_or (v default : pyval) : pyval := if truthy v then v else default.

(** [v.lower()]; only a [str] has the method. *)
Definition str_lower (v : pyval) : M string :=
  match v with
  | VStr s => ret (Py.lower s)
  | _ => raise (AttributeError "object has no attribute 'lower'")
  end.

(** [len(v)] *)
Definition py_len (v : pyval) : M nat :=
  match v with
  | VList l => ret (length l)
  | VStr s => ret (String.length s)
  | VDict d => ret (size d)
  | _ => raise (PyException "TypeError" "object has no len()")
  end.

(** [v[:n]] on a list. *)
Definition slice_to (n : nat) (v : pyval) : M (list pyval) :=
  match v with
  | VList l => ret (take n l)
  | _ => raise (PyException "TypeError" "object is not subscriptable")
  end.

(** A list comprehension with a condition that may raise. *)
Fixpoint filterM (p : pyval -> M bool) (l : list pyval) : M (list pyval) :=
  match l with
  | [] => ret []
  | x :: r =>
      let* keep := p x in
      let* r' := filterM p r in
      ret (if keep then x :: r' else r')
  end.

(** A [for] loop that appends to a string. *)
Fixpoint foldM {A} (f : A -> pyval -> M A) (acc : A) (l : list pyval) : M A :=
  match l with
  | [] => ret acc
  | x :: r => let* acc' := f acc x in foldM f acc' r
  end.

Definition pad2 (n : nat) : string :=
  if (n <? 10)%nat then "0" ++ pretty n else pretty n.

Definition pad4 (n : nat) : string :=
  if (n <? 10)%nat then "000" ++ pretty n
  else if (n <? 100)%nat then "00" ++ pretty n
  else if (n <? 1000)%nat then "0" ++ pretty n
  else pretty n.

(** [datetime.now().strftime("%Y-%m-%d")] *)
Definition today_string (E : env) : string :=
  pad4 (now_year E) ++ "-" ++ pad2 (now_month E) ++ "-" ++ pad2 (now_day E).

Definition today : M string :=
  fun E st => (Ret (today_string E), st).

(** [key in d: d[key] = value], as a step of building a request dict. *)
Definition set_if (cond : bool) (key : string) (value : pyval)
    (d : gmap string pyval) : gmap string pyval :=
  if cond then <[key := value]> d else d.

(** [[t.strip() for t in tags.split(",")]] *)
Definition tag_list (tags : string) : pyval :=
  VList (map (fun t => VStr (Py.strip t)) (Py.split_comma tags)).

(** ** Accounts *)

Definition list_accounts_body (account_type name_filter : string) : M string :=
  let* client := get_api_client in
  let params := set_if (Py.nonempty account_type) "type" (VStr account_type) ∅ in
  let* accounts := issue (Call client "AccountsApi" "list_account" [] params) in
  let* data := getattr accounts "data" in
  let* filtered :=
    if Py.nonempty name_filter then
      let* items := iterate data in
      let* kept :=
        filterM (fun acc =>
                   let* name := getattrs acc ["attributes"; "name"] in
                   let* name := str_lower name in
                   ret (Py.contains name (Py.lower name_filter)))
                items in
      ret (VList kept)
    else ret data in
  if negb (truthy filtered) then ret "📭 No accounts found matching criteria" else
  let* n := py_len filtered in
  let result := "💰 Found " ++ pretty n ++ " account(s):" ++ nl ++ nl in
  let result := result ++ "| ID | Name | Type | Balance | Currency |" ++ nl in
  let result := result ++ "|------|------|------|---------|----------|" ++ nl in
  let* rows := slice_to 50 filtered in
  foldM (fun result acc =>
           let* attrs := getattr acc "attributes" in
           let* balance :=
             if hasattr attrs "current_balance" then getattr attrs "current_balance"
             else ret (VStr "0") in
           let* currency :=
             if hasattr attrs "currency_code" then getattr attrs "currency_code"
             else ret (VStr "N/A") in
           let* id := getattr acc "id" in
           let* name := getattr attrs "name" in
           let* type := getattr attrs "type" in
           let* E := ask in
           ret (result ++ "| " ++ py_str E id ++ " | " ++ py_str E name ++ " | "
                  ++ py_str E type ++ " | " ++ py_str E balance ++ " | "
                  ++ py_str E currency ++ " |" ++ nl))
        result rows.

Definition list_accounts (account_type name_filter : string) : M string :=
  try_except (list_accounts_body account_type name_filter) on_error.

Definition get_account_details_body (account_id : string) : M string :=
  if negb (Py.nonempty (Py.strip account_id)) then ret "❌ Error: account_id is required" else
  let* client := get_api_client in
  let* account := api_call client "AccountsApi" "get_account" [VStr account_id] in
  let* attrs := getattrs account ["data"; "attributes"] in
  let* name := getattr attrs "name" in
  let* id := getattrs account ["data"; "id"] in
  let* type := getattr attrs "type" in
  let* account_number := getattr attrs "account_number" in
  let* iban := getattr attrs "iban" in
  let* currency_code := getattr attrs "currency_code" in
  let* current_balance := getattr attrs "current_balance" in
  let* active := getattr attrs "active" in
  let* account_role := getattr attrs "account_role" in
  let* notes := getattr attrs "notes" in
  let* E := ask in
  ret ("💳 Account Details: " ++ py_str E name ++ nl ++ nl
       ++ "**ID:** " ++ py_str E id ++ nl
       ++ "**Type:** " ++ py_str E type ++ nl
       ++ "**Account Number:** " ++ py_str E (py_or account_number (VStr "N/A")) ++ nl
       ++ "**IBAN:** " ++ py_str E (py_or iban (VStr "N/A")) ++ nl
       ++ "**Currency:** " ++ py_str E currency_code ++ nl
       ++ "**Current Balance:** " ++ py_str E current_balance ++ nl
       ++ "**Active:** " ++ (if truthy active then "Yes" else "No") ++ nl
       ++ "**Role:** " ++ py_str E (py_or account_role (VStr "N/A")) ++ nl ++ nl
       ++ "**Notes:** " ++ py_str E (py_or notes (VStr "None")) ++ nl).

Definition get_account_details (account_id : string) : M string :=
  try_except (get_account_details_body account_id) on_error.

(** The dict of the fields to change, in [update_account], [update_budget]
    and the like: [active] is sent as the boolean [active.lower() == "true"]. *)
Definition active_flag (active : string) : pyval :=
  VBool (String.eqb (Py.lower active) "true").

Definition no_update_fields : string := "❌ Error: At least one field to update is required".

Definition update_account_body (account_id name active notes : string) : M string :=
  if negb (Py.nonempty (Py.strip account_id)) then ret "❌ Error: account_id is required" else
  let* client := get_api_client in
  let update_data : gmap string pyval := ∅ in
  let update_data := set_if (Py.nonempty name) "name" (VStr name) update_data in
  let update_data := set_if (Py.nonempty active) "active" (active_flag active) update_data in
  let update_data := set_if (Py.nonempty notes) "notes" (VStr notes) update_data in
  if negb (truthy (VDict update_data)) then ret no_update_fields else
  let account_update := VObj "AccountUpdate" update_data in
  let* account :=
    api_call client "AccountsApi" "update_account" [VStr account_id; account_update] in
  let* name := getattrs account ["data"; "attributes"; "name"] in
  let* E := ask in
  ret ("✅ Updated account: " ++ py_str E name).

Definition update_account (account_id name active notes : string) : M string :=
  try_except (update_account_body account_id name active notes) on_error.

Definition delete_account_body (account_id confirm : string) : M string :=
  if negb (Py.nonempty (Py.strip account_id)) then ret "❌ Error: account_id is required" else
  if negb (String.eqb confirm "DELETE") then
    ret "⚠️ Warning: This will permanently delete the account. Set confirm='DELETE' to proceed."
  else
  let* client := get_api_client in
  api_call client "AccountsApi" "delete_account" [VStr account_id] ;;
  ret ("✅ Deleted account ID: " ++ account_id).

Definition delete_account (account_id confirm : string) : M string :=
  try_except (delete_account_body account_id confirm) on_error.

(** ** Transactions *)

(** The [TransactionStore] of the create tools: [error_if_duplicate_hash]
    false, [apply_rules] true, and the one [TransactionSplitStore] built
    from the split's dict. *)
Definition TransactionStore (transaction_split : gmap string pyval) : pyval :=
  VObj "TransactionStore"
    (<["error_if_duplicate_hash" := VBool false]>
       (<["apply_rules" := VBool true]>
          (<["transactions" := VList [VObj "TransactionSplitStore" transaction_split]]> ∅))).

(** Routing a reference to the ID-keyed or to the name-keyed field:
    [if ref.strip().isdigit(): d[id_key] = ref else: d[name_key] = ref]. *)
Definition route_reference (ref id_key name_key : string)
    (d : gmap string pyval) : gmap string pyval :=
  if Py.isdigit (Py.strip ref) then <[id_key := VStr ref]> d
  else <[name_key := VStr ref]> d.

(** [if budget: route the budget] *)
Definition route_budget (budget : string) (d : gmap string pyval) : gmap string pyval :=
  if Py.nonempty budget then route_reference budget "budget_id" "budget_name" d else d.

(** The split [create_withdrawal] sends. *)
Definition withdrawal_split (description amount source_account destination_account
    transaction_date category budget tags notes : string) : gmap string pyval :=
  let transaction_split : gmap string pyval :=
    <["type" := VStr "withdrawal"]>
      (<["date" := VStr transaction_date]>
         (<["amount" := VStr amount]>
            (<["description" := VStr description]>
               (<["source_id" := VStr source_account]> ∅)))) in
  let transaction_split :=
    route_reference destination_account "destination_id" "destination_name"
      transaction_split in
  let transaction_split :=
    set_if (Py.nonempty category) "category_name" (VStr category) transaction_split in
  let transaction_split := route_budget budget transaction_split in
  let transaction_split :=
    set_if (Py.nonempty tags) "tags" (tag_list tags) transaction_split in
  set_if (Py.nonempty notes) "notes" (VStr notes) transaction_split.

Definition create_withdrawal_body (description amount source_account destination_account
    date category budget tags notes : string) : M string :=
  if negb (Py.nonempty (Py.strip description) && Py.nonempty (Py.strip amount)
           && Py.nonempty (Py.strip source_account))
  then ret "❌ Error: description, amount, and source_account are required" else
  let destination_account :=
    if negb (Py.nonempty (Py.strip destination_account)) then "Cash account"
    else destination_account in
  let* client := get_api_client in
  let* transaction_date := if Py.nonempty date then ret date else today in
  let transaction_split :=
    withdrawal_split description amount source_account destination_account
      transaction_date category budget tags notes in
  let transaction_store := TransactionStore transaction_split in
  let* result :=
    api_call client "TransactionsApi" "store_transaction" [transaction_store] in
  let* transactions := getattrs result ["data"; "attributes"; "transactions"] in
  let* txn_data := first_item transactions in
  let* description := getattr txn_data "description" in
  let* amount := getattr txn_data "amount" in
  let* amount := format_amount amount in
  let* currency_code := getattr txn_data "currency_code" in
  let* id := getattrs result ["data"; "id"] in
  let* E := ask in
  ret ("✅ Created withdrawal: " ++ py_str E description ++ nl
       ++ "Amount: " ++ amount ++ " " ++ py_str E currency_code ++ nl
       ++ "ID: " ++ py_str E id).

Definition create_withdrawal (description amount source_account destination_account
    date category budget tags notes : string) : M string :=
  try_except
    (create_withdrawal_body description amount source_account destination_account
       date category budget tags notes)
    on_error.

(** The split [create_deposit] sends. *)
Definition deposit_split (description amount destination_account source_account
    transaction_date category budget tags notes : string) : gmap string pyval :=
  let transaction_split : gmap string pyval :=
    <["type" := VStr "deposit"]>
      (<["date" := VStr transaction_date]>
         (<["amount" := VStr amount]>
            (<["description" := VStr description]>
               (<["destination_id" := VStr destination_account]> ∅)))) in
  let transaction_split :=
    route_reference source_account "source_id" "source_name" transaction_split in
  let transaction_split :=
    set_if (Py.nonempty category) "category_name" (VStr category) transaction_split in
  let transaction_split := route_budget budget transaction_split in
  let transaction_split :=
    set_if (Py.nonempty tags) "tags" (tag_list tags) transaction_split in
  set_if (Py.nonempty notes) "notes" (VStr notes) transaction_split.

Definition create_deposit_body (description amount destination_account source_account
    date category budget tags notes : string) : M string :=
  if negb (Py.nonempty (Py.strip description) && Py.nonempty (Py.strip amount)
           && Py.nonempty (Py.strip destination_account))
  then ret "❌ Error: description, amount, and destination_account are required" else
  let source_account :=
    if negb (Py.nonempty (Py.strip source_account)) then "Cash account"
    else source_account in
  let* client := get_api_client in
  let* transaction_date := if Py.nonempty date then ret date else today in
  let transaction_split :=
    deposit_split description amount destination_account source_account
      transaction_date category budget tags notes in
  let transaction_store := TransactionStore transaction_split in
  let* result :=
    api_call client "TransactionsApi" "store_transaction" [transaction_store] in
  let* transactions := getattrs result ["data"; "attributes"; "transactions"] in
  let* txn_data := first_item transactions in
  let* description := getattr txn_data "description" in
  let* amount := getattr txn_data "amount" in
  let* amount := format_amount amount in
  let* currency_code := getattr txn_data "currency_code" in
  let* id := getattrs result ["data"; "id"] in
  let* E := ask in
  ret ("✅ Created deposit: " ++ py_str E description ++ nl
       ++ "Amount: " ++ amount ++ " " ++ py_str E currency_code ++ nl
       ++ "ID: " ++ py_str E id).

Definition create_deposit (description amount destination_account source_account
    date category budget tags notes : string) : M string :=
  try_except
    (create_deposit_body description amount destination_account source_account
       date category budget tags notes)
    on_error.

(** The split [update_transaction] sends: the supplied fields, and a
    supplied budget always under [budget_id]. *)
Definition update_split (description amount date category budget tags notes : string)
    : gmap string pyval :=
  let update_split : gmap string pyval := ∅ in
  let update_split := set_if (Py.nonempty date) "date" (VStr date) update_split in
  let update_split := set_if (Py.nonempty amount) "amount" (VStr amount) update_split in
  let update_split :=
    set_if (Py.nonempty description) "description" (VStr description) update_split in
  let update_split :=
    set_if (Py.nonempty category) "category_name" (VStr category) update_split in
  let update_split := set_if (Py.nonempty budget) "budget_id" (VStr budget) update_split in
  let update_split := set_if (Py.nonempty tags) "tags" (tag_list tags) update_split in
  set_if (Py.nonempty notes) "notes" (VStr notes) update_split.

(** The [TransactionUpdate] holding the one [TransactionSplitUpdate] built
    from the split's dict. *)
Definition TransactionUpdate (update_split : gmap string pyval) : pyval :=
  VObj "TransactionUpdate"
    (<["transactions" := VList [VObj "TransactionSplitUpdate" update_split]]> ∅).

Definition update_transaction_body (transaction_id description amount date category
    budget tags notes : string) : M string :=
  if negb (Py.nonempty (Py.strip transaction_id))
  then ret "❌ Error: transaction_id is required" else
  let* client := get_api_client in
  let* existing := api_call client "TransactionsApi" "get_transaction" [VStr transaction_id] in
  let* transactions := getattrs existing ["data"; "attributes"; "transactions"] in
  let* existing_txn := first_item transactions in
  let update_split := update_split description amount date category budget tags notes in
  let transaction_update := TransactionUpdate update_split in
  let* result :=
    api_call client "TransactionsApi" "update_transaction"
      [VStr transaction_id; transaction_update] in
  ret ("✅ Updated transaction ID: " ++ transaction_id).

Definition update_transaction (transaction_id description amount date category
    budget tags notes : string) : M string :=
  try_except
    (update_transaction_body transaction_id description amount date category
       budget tags notes)
    on_error.

(** ** Updates of budgets, categories, tags, bills, piggy banks, rule
    groups, rules, recurrences and webhooks *)

Definition update_budget_body (budget_id name active notes : string) : M string :=
  if negb (Py.nonempty (Py.strip budget_id)) then ret "❌ Error: budget_id is required" else
  let* client := get_api_client in
  let update_data : gmap string pyval := ∅ in
  let update_data := set_if (Py.nonempty name) "name" (VStr name) update_data in
  let update_data := set_if (Py.nonempty active) "active" (active_flag active) update_data in
  let update_data := set_if (Py.nonempty notes) "notes" (VStr notes) update_data in
  if negb (truthy (VDict update_data)) then ret no_update_fields else
  let budget_update := VObj "BudgetUpdate" update_data in
  let* budget :=
    api_call client "BudgetsApi" "update_budget" [VStr budget_id; budget_update] in
  let* name := getattrs budget ["data"; "attributes"; "name"] in
  let* E := ask in
  ret ("✅ Updated budget: " ++ py_str E name).

Definition update_budget (budget_id name active notes : string) : M string :=
  try_except (update_budget_body budget_id name active notes) on_error.

Definition update_category_body (category_id name notes : string) : M string :=
  if negb (Py.nonempty (Py.strip category_id)) then ret "❌ Error: category_id is required" else
  let* client := get_api_client in
  let update_data : gmap string pyval := ∅ in
  let update_data := set_if (Py.nonempty name) "name" (VStr name) update_data in
  let update_data := set_if (Py.nonempty notes) "notes" (VStr notes) update_data in
  if negb (truthy (VDict update_data)) then ret no_update_fields else
  let category_update := VObj "CategoryUpdate" update_data in
  let* category :=
    api_call client "CategoriesApi" "update_category" [VStr category_id; category_update] in
  let* name := getattrs category ["data"; "attributes"; "name"] in
  let* E := ask in
  ret ("✅ Updated category: " ++ py_str E name).

Definition update_category (category_id name notes : string) : M string :=
  try_except (update_category_body category_id name notes) on_error.

Definition update_tag_body (tag_id tag date description : string) : M string :=
  if negb (Py.nonempty (Py.strip tag_id)) then ret "❌ Error: tag_id is required" else
  let* client := get_api_client in
  let update_data : gmap string pyval := ∅ in
  let update_data := set_if (Py.nonempty tag) "tag" (VStr tag) update_data in
  let update_data := set_if (Py.nonempty date) "date" (VStr date) update_data in
  let update_data :=
    set_if (Py.nonempty description) "description" (VStr description) update_data in
  if negb (truthy (VDict update_data)) then ret no_update_fields else
  let tag_model_update := VObj "TagModelUpdate" update_data in
  let* tag_result :=
    api_call client "TagsApi" "update_tag" [VStr tag_id; tag_model_update] in
  let* tag := getattrs tag_result ["data"; "attributes"; "tag"] in
  let* E := ask in
  ret ("✅ Updated tag: " ++ py_str E tag).

Definition update_tag (tag_id tag date description : string) : M string :=
  try_except (update_tag_body tag_id tag date description) on_error.

Definition update_bill_body (bill_id name amount_min amount_max active notes date : string)
    : M string :=
  if negb (Py.nonempty (Py.strip bill_id)) then ret "❌ Error: bill_id is required" else
  let* client := get_api_client in
  let update_data : gmap string pyval := ∅ in
  let update_data := set_if (Py.nonempty name) "name" (VStr name) update_data in
  let update_data :=
    set_if (Py.nonempty amount_min) "amount_min" (VStr amount_min) update_data in
  let update_data :=
    set_if (Py.nonempty amount_max) "amount_max" (VStr amount_max) update_data in
  let update_data := set_if (Py.nonempty active) "active" (active_flag active) update_data in
  let update_data := set_if (Py.nonempty notes) "notes" (VStr notes) update_data in
  let update_data := set_if (Py.nonempty date) "date" (VStr (Py.strip date)) update_data in
  if negb (truthy (VDict update_data)) then ret no_update_fields else
  let bill_update := VObj "BillUpdate" update_data in
  let* bill := api_call client "BillsApi" "update_bill" [VStr bill_id; bill_update] in
  let* name := getattrs bill ["data"; "attributes"; "name"] in
  let* E := ask in
  ret ("✅ Updated bill: " ++ py_str E name).

Definition update_bill (bill_id name amount_min amount_max active notes date : string)
    : M string :=
  try_except (update_bill_body bill_id name amount_min amount_max active notes date) on_error.

Definition update_piggy_bank_body (piggy_bank_id name target_amount current_amount
    notes : string) : M string :=
  if negb (Py.nonempty (Py.strip piggy_bank_id))
  then ret "❌ Error: piggy_bank_id is required" else
  let* client := get_api_client in
  let update_data : gmap string pyval := ∅ in
  let update_data := set_if (Py.nonempty name) "name" (VStr name) update_data in
  let update_data :=
    set_if (Py.nonempty target_amount) "target_amount" (VStr target_amount) update_data in
  let update_data :=
    set_if (Py.nonempty current_amount) "current_amount" (VStr current_amount) update_data in
  let update_data := set_if (Py.nonempty notes) "notes" (VStr notes) update_data in
  if negb (truthy (VDict update_data)) then ret no_update_fields else
  let piggy_bank_update := VObj "PiggyBankUpdate" update_data in
  let* piggy_bank :=
    api_call client "PiggyBanksApi" "update_piggy_bank"
      [VStr piggy_bank_id; piggy_bank_update] in
  let* name := getattrs piggy_bank ["data"; "attributes"; "name"] in
  let* E := ask in
  ret ("✅ Updated piggy bank: " ++ py_str E name).

Definition update_piggy_bank (piggy_bank_id name target_amount current_amount
    notes : string) : M string :=
  try_except
    (update_piggy_bank_body piggy_bank_id name target_amount current_amount notes)
    on_error.

(** [int(order)], as a computation. *)
Definition int_of (s : string) : M Z :=
  fun E st => (py_int E s, st).

Definition update_rule_group_body (rule_group_id title description active order : string)
    : M string :=
  if negb (Py.nonempty (Py.strip rule_group_id))
  then ret "❌ Error: rule_group_id is required" else
  let* client := get_api_client in
  let update_data : gmap string pyval := ∅ in
  let update_data := set_if (Py.nonempty title) "title" (VStr title) update_data in
  let update_data :=
    set_if (Py.nonempty description) "description" (VStr description) update_data in
  let update_data := set_if (Py.nonempty active) "active" (active_flag active) update_data in
  let* update_data :=
    if Py.nonempty order then
      let* n := int_of order in ret (<["order" := VInt n]> update_data)
    else ret update_data in
  if negb (truthy (VDict update_data)) then ret no_update_fields else
  let rule_group_update := VObj "RuleGroupUpdate" update_data in
  let* rule_group :=
    api_call client "RuleGroupsApi" "update_rule_group"
      [VStr rule_group_id; rule_group_update] in
  let* title := getattrs rule_group ["data"; "attributes"; "title"] in
  let* E := ask in
  ret ("✅ Updated rule group: " ++ py_str E title).

Definition update_rule_group (rule_group_id title description active order : string)
    : M string :=
  try_except (update_rule_group_body rule_group_id title description active order) on_error.

Definition update_rule_body (rule_id title active triggers_json actions_json
    description : string) : M string :=
  if negb (Py.nonempty (Py.strip rule_id)) then ret "❌ Error: rule_id is required" else
  let* client := get_api_client in
  let* E := ask in
  let update_data : gmap string pyval := ∅ in
  let update_data := set_if (Py.nonempty title) "title" (VStr title) update_data in
  let update_data := set_if (Py.nonempty active) "active" (active_flag active) update_data in
  match (if Py.nonempty triggers_json
         then option_map (fun v => <["triggers" := v]> update_data)
                (json_loads E (VStr triggers_json))
         else Some update_data) with
  | None => ret "❌ Error: triggers_json must be valid JSON"
  | Some update_data =>
  match (if Py.nonempty actions_json
         then option_map (fun v => <["actions" := v]> update_data)
                (json_loads E (VStr actions_json))
         else Some update_data) with
  | None => ret "❌ Error: actions_json must be valid JSON"
  | Some update_data =>
  let update_data :=
    set_if (Py.nonempty description) "description" (VStr description) update_data in
  if negb (truthy (VDict update_data)) then ret no_update_fields else
  let rule_update := VObj "RuleUpdate" update_data in
  let* rule := api_call client "RulesApi" "update_rule" [VStr rule_id; rule_update] in
  let* title := getattrs rule ["data"; "attributes"; "title"] in
  ret ("✅ Updated rule: " ++ py_str E title)
  end end.

Definition update_rule (rule_id title active triggers_json actions_json
    description : string) : M string :=
  try_except
    (update_rule_body rule_id title active triggers_json actions_json description)
    on_error.

Definition update_recurrence_body (recurrence_id title active notes : string) : M string :=
  if negb (Py.nonempty (Py.strip recurrence_id))
  then ret "❌ Error: recurrence_id is required" else
  let* client := get_api_client in
  let update_data : gmap string pyval := ∅ in
  let update_data := set_if (Py.nonempty title) "title" (VStr title) update_data in
  let update_data := set_if (Py.nonempty active) "active" (active_flag active) update_data in
  let update_data := set_if (Py.nonempty notes) "notes" (VStr notes) update_data in
  if negb (truthy (VDict update_data)) then ret no_update_fields else
  let recurrence_update := VObj "RecurrenceUpdate" update_data in
  let* recurrence :=
    api_call client "RecurrencesApi" "update_recurrence"
      [VStr recurrence_id; recurrence_update] in
  let* title := getattrs recurrence ["data"; "attributes"; "title"] in
  let* E := ask in
  ret ("✅ Updated recurring transaction: " ++ py_str E title).

Definition update_recurrence (recurrence_id title active notes : string) : M string :=
  try_except (update_recurrence_body recurrence_id title active notes) on_error.

Definition update_webhook_body (webhook_id title active url : string) : M string :=
  if negb (Py.nonempty (Py.strip webhook_id)) then ret "❌ Error: webhook_id is required" else
  let* client := get_api_client in
  let update_data : gmap string pyval := ∅ in
  let update_data := set_if (Py.nonempty title) "title" (VStr title) update_data in
  let update_data := set_if (Py.nonempty active) "active" (active_flag active) update_data in
  let update_data := set_if (Py.nonempty url) "url" (VStr url) update_data in
  if negb (truthy (VDict update_data)) then ret no_update_fields else
  let webhook_update := VObj "WebhookUpdate" update_data in
  let* webhook :=
    api_call client "WebhooksApi" "update_webhook" [VStr webhook_id; webhook_update] in
  let* title := getattrs webhook ["data"; "attributes"; "title"] in
  let* E := ask in
  ret ("✅ Updated webhook: " ++ py_str E title).

Definition update_webhook (webhook_id title active url : string) : M string :=
  try_except (update_webhook_body webhook_id title active url) on_error.

(** ** Recurrences *)

Definition recurrence_transaction (recurrence_type title description amount source_account
    destination_account category budget : string) : option (gmap string pyval) :=
  let transaction_data : gmap string pyval :=
    <["type" := VStr recurrence_type]>
      (<["description" := VStr (if Py.nonempty description then description else title)]>
         (<["amount" := VStr amount]>
            (<["currency_code" := VStr "USD"]> ∅))) in
  let routed :=
    if String.eqb recurrence_type "withdrawal" then
      let transaction_data :=
        set_if (Py.nonempty source_account) "source_id" (VStr source_account)
          transaction_data in
      Some (if Py.nonempty destination_account
            then <["destination_name" := VStr destination_account]> transaction_data
            else <["destination_name" := VStr "Cash account"]> transaction_data)
    else if String.eqb recurrence_type "deposit" then
      let transaction_data :=
        set_if (Py.nonempty destination_account) "destination_id" (VStr destination_account)
          transaction_data in
      Some (if Py.nonempty source_account
            then <["source_name" := VStr source_account]> transaction_data
            else <["source_name" := VStr "Cash account"]> transaction_data)
    else if String.eqb recurrence_type "transfer" then
      if negb (Py.nonempty source_account) || negb (Py.nonempty destination_account)
      then None
      else Some (<["destination_id" := VStr destination_account]>
                   (<["source_id" := VStr source_account]> transaction_data))
    else Some transaction_data in
  match routed with
  | None => None
  | Some transaction_data =>
      let transaction_data :=
        set_if (Py.nonempty category) "category_name" (VStr category) transaction_data in
      Some (route_budget budget transaction_data)
  end.

(** The [RecurrenceStore] of [create_recurrence]: one
    repetition of the given frequency and the one transaction. *)
Definition recurrence_store (title first_date repeat_freq notes : string)
    (transaction_data : gmap string pyval) : pyval :=
  let repetition_data : gmap string pyval :=
    <["type" := VStr repeat_freq]>
      (<["moment" := VStr "1"]> (<["skip" := VInt 0]> ∅)) in
  let recurrence_data : gmap string pyval :=
    <["title" := VStr title]>
      (<["first_date" := VStr first_date]>
         (<["repeat_freq" := VStr repeat_freq]>
            (<["type" := VStr "recurrence"]>
               (<["repetitions" := VList [VDict repetition_data]]>
                  (<["transactions" :=
                       VList [VObj "RecurrenceTransactionStore" transaction_data]]>
                     (<["apply_rules" := VBool true]>
                        (<["active" := VBool true]> ∅))))))) in
  let recurrence_data :=
    set_if (Py.nonempty notes) "notes" (VStr notes) recurrence_data in
  VObj "RecurrenceStore" recurrence_data.

Definition create_recurrence_body (title first_date repeat_freq recurrence_type description
    amount source_account destination_account category budget notes : string) : M string :=
  if negb (Py.nonempty (Py.strip title) && Py.nonempty (Py.strip first_date)
           && Py.nonempty (Py.strip amount))
  then ret "❌ Error: title, first_date, and amount are required" else
  let* client := get_api_client in
  match recurrence_transaction recurrence_type title description amount source_account
          destination_account category budget with
  | None =>
      ret "❌ Error: Both source_account and destination_account required for transfers"
  | Some transaction_data =>
      let recurrence_store :=
        recurrence_store title first_date repeat_freq notes transaction_data in
      let* recurrence :=
        api_call client "RecurrencesApi" "store_recurrence" [recurrence_store] in
      let* title := getattrs recurrence ["data"; "attributes"; "title"] in
      let* id := getattrs recurrence ["data"; "id"] in
      let* E := ask in
      ret ("✅ Created recurring transaction: " ++ py_str E title
           ++ " (ID: " ++ py_str E id ++ ")")
  end.

Definition create_recurrence (title first_date repeat_freq recurrence_type description
    amount source_account destination_account category budget notes : string) : M string :=
  try_except
    (create_recurrence_body title first_date repeat_freq recurrence_type description
       amount source_account destination_account category budget notes)
    on_error.

(** ** Insights and summaries *)

Definition is_leap (year : nat) : bool :=
  ((year mod 4 =? 0)%nat && negb (year mod 100 =? 0)%nat) || (year mod 400 =? 0)%nat.

Definition days_in_month (year month : nat) : nat :=
  match month with
  | 2 => if is_leap year then 29 else 28
  | 4 | 6 | 9 | 11 => 30
  | _ => 31
  end.

(** The default period of the summaries: the current month, from its first
    to its last day ([start + relativedelta(months=1) - timedelta(days=1)],
    which leaves the calendar in December 9999). *)
Definition current_month : M (string * string) :=
  fun E st =>
    let start_date := pretty (now_year E) ++ "-" ++ pad2 (now_month E) ++ "-01" in
    if (now_year E =? 9999)%nat && (now_month E =? 12)%nat
    then (Raise (PyException "ValueError" "year 10000 is out of range"), st)
    else
      (Ret (start_date,
            pad4 (now_year E) ++ "-" ++ pad2 (now_month E) ++ "-"
              ++ pad2 (days_in_month (now_year E) (now_month E))),
       st).

(** [float(v)], as a computation. *)
Definition float_of (v : pyval) : M float :=
  fun E st => (py_float E v, st).

(** A group key: the names the client returns are a [str] or [None]. *)
Definition as_key (v : pyval) : M (option string) :=
  match v with
  | VNone => ret None
  | VStr s => ret (Some s)
  | _ => raise (PyException "TypeError" "group key is neither str nor None")
  end.

(** [if key not in grouped: grouped[key] = 0], then [grouped[key] += amount]:
    the dict keeps its keys in the order of their first insertion. *)
Fixpoint add_to_group (key : option string) (amount : float)
    (grouped : list (option string * float)) : list (option string * float) :=
  match grouped with
  | [] => [(key, (0 + amount)%float)]
  | (k, v) :: rest =>
      if bool_decide (k = key) then (k, (v + amount)%float) :: rest
      else (k, v) :: add_to_group key amount rest
  end.

(** [(amount / total * 100) if total > 0 else 0] *)
Definition percent_of (amount total : float) : float :=
  if (0 <? total)%float then (amount / total * 100)%float else 0%float.

(** [sorted(grouped.keys(), key=lambda k: grouped[k], reverse=True)]: the
    keys by descending sum, keys of equal sum in their order in the dict. *)
Fixpoint insert_desc (x : option string * float) (l : list (option string * float))
    : list (option string * float) :=
  match l with
  | [] => [x]
  | y :: rest =>
      if (snd x <? snd y)%float then y :: insert_desc x rest else x :: l
  end.

Definition sorted_desc (grouped : list (option string * float))
    : list (option string * float) :=
  fold_right insert_desc [] grouped.

(** The rows of the summary table: group, sum and share of the total. *)
Definition summary_rows (grouped : list (option string * float)) (total : float)
    : list (option string * float * float) :=
  map (fun kv => (fst kv, snd kv, percent_of (snd kv) total)) (sorted_desc grouped).

Definition key_str (key : option string) : string :=
  match key with
  | None => "None"
  | Some s => s
  end.

Definition render_rows (E : env) (rows : list (option string * float * float)) : string :=
  fold_left
    (fun result row =>
       match row with
       | (key, amount, pct) =>
           result ++ "| " ++ key_str key ++ " | " ++ format_float E 2 amount ++ " | "
             ++ format_float E 1 pct ++ "% |" ++ nl
       end)
    rows "".

(** What one turn of the loop over [transactions.data] reads from a
    transaction: the amount of its first split, then its group key.
    [party] is the name field grouped by for ["account"]: the source of a
    withdrawal, the destination of a deposit. *)
Definition read_entry (party group_by : string) (txn : pyval)
    : M (option string * float) :=
  let* transactions := getattrs txn ["attributes"; "transactions"] in
  let* txn_data := first_item transactions in
  let* amount := getattr txn_data "amount" in
  let* amount := float_of amount in
  let* key :=
    if String.eqb group_by "category" then
      let* name := getattr txn_data "category_name" in ret (py_or name (VStr "Uncategorized"))
    else if String.eqb group_by "budget" then
      let* name := getattr txn_data "budget_name" in ret (py_or name (VStr "No Budget"))
    else if String.eqb group_by "account" then getattr txn_data party
    else ret (VStr "Other") in
  let* key := as_key key in
  ret (key, amount).

(** What the turn does with it: [total += amount] and the group's sum. *)
Definition add_entry (acc : list (option string * float) * float)
    (entry : option string * float) : list (option string * float) * float :=
  (add_to_group (fst entry) (snd entry) (fst acc), (snd acc + snd entry)%float).

(** One turn of the loop. *)
Definition summary_step (party group_by : string)
    (acc : list (option string * float) * float) (txn : pyval)
    : M (list (option string * float) * float) :=
  let* entry := read_entry party group_by txn in
  ret (add_entry acc entry).

(** The loop over entries already read: the groups with their sums, and
    the total. *)
Definition aggregate (entries : list (option string * float))
    : list (option string * float) * float :=
  fold_left add_entry entries ([], 0%float).

(** A sum as the source accumulates it: from zero, adding in order. *)
Definition float_sum (amounts : list float) : float :=
  fold_left PrimFloat.add amounts 0%float.

(** The amounts of one group, in the order of the transactions. *)
Definition amounts_of (key : option string) (entries : list (option string * float))
    : list float :=
  map snd (filter (fun entry => fst entry = key) entries).

(** The text of a summary: heading, table and total. *)
Definition render_summary (E : env) (title total_label start_date end_date group_by : string)
    (rows : list (option string * float * float)) (total : float) : string :=
  let result :=
    title ++ " (" ++ start_date ++ " to " ++ end_date ++ ")" ++ nl
      ++ "Grouped by: " ++ Py.capitalize group_by ++ nl ++ nl in
  let result := result ++ "| Category | Amount | % of Total |" ++ nl in
  let result := result ++ "|----------|--------|------------|" ++ nl in
  let result := result ++ render_rows E rows in
  result ++ nl ++ total_label ++ format_float E 2 total.

(** What the spending and the income summary share: the period, the one
    listing call, the grouping loop and the table. *)
Definition summary_body (transaction_type party title total_label : string)
    (start_date end_date group_by : string) : M string :=
  let* period :=
    if negb (Py.nonempty start_date) || negb (Py.nonempty end_date)
    then current_month else ret (start_date, end_date) in
  let start_date := fst period in
  let end_date := snd period in
  let* client := get_api_client in
  let* transactions :=
    issue (Call client "TransactionsApi" "list_transaction" []
             (<["start" := VStr start_date]>
                (<["end" := VStr end_date]>
                   (<["type" := VStr transaction_type]> ∅)))) in
  let* data := getattr transactions "data" in
  let* items := iterate data in
  let* acc := foldM (summary_step party group_by) ([], 0%float) items in
  let grouped := fst acc in
  let total := snd acc in
  let* E := ask in
  ret (render_summary E title total_label start_date end_date group_by
         (summary_rows grouped total) total).

Definition spending_summary_body (start_date end_date group_by : string) : M string :=
  summary_body "withdrawal" "source_name" "💸 Spending Summary" "**Total Spending:** "
    start_date end_date group_by.

Definition spending_summary (start_date end_date group_by : string) : M string :=
  try_except (spending_summary_body start_date end_date group_by) on_error.

Definition income_summary_body (start_date end_date group_by : string) : M string :=
  summary_body "deposit" "destination_name" "💰 Income Summary" "**Total Income:** "
    start_date end_date group_by.

Definition income_summary (start_date end_date group_by : string) : M string :=
  try_except (income_summary_body start_date end_date group_by) on_error.

(** The two summaries side by side: the transactions they list, the name
    field they group by for ["account"], their heading and the label of
    their total. *)
Inductive summary_kind : Type := Spending | Income.

Definition summary_of (kind : summary_kind) : string -> string -> string -> M string :=
  match kind with
  | Spending => spending_summary
  | Income => income_summary
  end.

Definition listed_type (kind : summary_kind) : string :=
  match kind with Spending => "withdrawal" | Income => "deposit" end.

Definition party_of (kind : summary_kind) : string :=
  match kind with Spending => "source_name" | Income => "destination_name" end.

Definition title_of (kind : summary_kind) : string :=
  match kind with Spending => "💸 Spending Summary" | Income => "💰 Income Summary" end.

Definition total_label_of (kind : summary_kind) : string :=
  match kind with Spending => "**Total Spending:** " | Income => "**Total Income:** " end.

(** ** Deleting resources *)

(** The tools of the first generation test the identifier, then compare
    [confirm] with ["DELETE"], inside their [try] block. *)

Definition delete_transaction_body (transaction_id confirm : string) : M string :=
  if negb (Py.nonempty (Py.strip transaction_id)) then ret "❌ Error: transaction_id is required" else
  if negb (String.eqb confirm "DELETE") then
    ret "⚠️ Warning: This will permanently delete the transaction. Set confirm='DELETE' to proceed."
  else
  let* client := get_api_client in
  api_call client "TransactionsApi" "delete_transaction" [VStr transaction_id] ;;
  ret ("✅ Deleted transaction ID: " ++ transaction_id).

Definition delete_transaction (transaction_id confirm : string) : M string :=
  try_except (delete_transaction_body transaction_id confirm) on_error.

Definition delete_budget_body (budget_id confirm : string) : M string :=
  if negb (Py.nonempty (Py.strip budget_id)) then ret "❌ Error: budget_id is required" else
  if negb (String.eqb confirm "DELETE") then
    ret "⚠️ Warning: This will permanently delete the budget. Set confirm='DELETE' to proceed."
  else
  let* client := get_api_client in
  api_call client "BudgetsApi" "delete_budget" [VStr budget_id] ;;
  ret ("✅ Deleted budget ID: " ++ budget_id).

Definition delete_budget (budget_id confirm : string) : M string :=
  try_except (delete_budget_body budget_id confirm) on_error.

Definition delete_category_body (category_id confirm : string) : M string :=
  if negb (Py.nonempty (Py.strip category_id)) then ret "❌ Error: category_id is required" else
  if negb (String.eqb confirm "DELETE") then
    ret "⚠️ Warning: This will permanently delete the category. Set confirm='DELETE' to proceed."
  else
  let* client := get_api_client in
  api_call client "CategoriesApi" "delete_category" [VStr category_id] ;;
  ret ("✅ Deleted category ID: " ++ category_id).

Definition delete_category (category_id confirm : string) : M string :=
  try_except (delete_category_body category_id confirm) on_error.

Definition delete_tag_body (tag_id confirm : string) : M string :=
  if negb (Py.nonempty (Py.strip tag_id)) then ret "❌ Error: tag_id is required" else
  if negb (String.eqb confirm "DELETE") then
    ret "⚠️ Warning: This will permanently delete the tag. Set confirm='DELETE' to proceed."
  else
  let* client := get_api_client in
  api_call client "TagsApi" "delete_tag" [VStr tag_id] ;;
  ret ("✅ Deleted tag ID: " ++ tag_id).

Definition delete_tag (tag_id confirm : string) : M string :=
  try_except (delete_tag_body tag_id confirm) on_error.

Definition delete_bill_body (bill_id confirm : string) : M string :=
  if negb (Py.nonempty (Py.strip bill_id)) then ret "❌ Error: bill_id is required" else
  if negb (String.eqb confirm "DELETE") then
    ret "⚠️ Warning: This will permanently delete the bill. Set confirm='DELETE' to proceed."
  else
  let* client := get_api_client in
  api_call client "BillsApi" "delete_bill" [VStr bill_id] ;;
  ret ("✅ Deleted bill ID: " ++ bill_id).

Definition delete_bill (bill_id confirm : string) : M string :=
  try_except (delete_bill_body bill_id confirm) on_error.

Definition delete_piggy_bank_body (piggy_bank_id confirm : string) : M string :=
  if negb (Py.nonempty (Py.strip piggy_bank_id)) then ret "❌ Error: piggy_bank_id is required" else
  if negb (String.eqb confirm "DELETE") then
    ret "⚠️ Warning: This will permanently delete the piggy bank. Set confirm='DELETE' to proceed."
  else
  let* client := get_api_client in
  api_call client "PiggyBanksApi" "delete_piggy_bank" [VStr piggy_bank_id] ;;
  ret ("✅ Deleted piggy bank ID: " ++ piggy_bank_id).

Definition delete_piggy_bank (piggy_bank_id confirm : string) : M string :=
  try_except (delete_piggy_bank_body piggy_bank_id confirm) on_error.

Definition delete_rule_group_body (rule_group_id confirm : string) : M string :=
  if negb (Py.nonempty (Py.strip rule_group_id)) then ret "❌ Error: rule_group_id is required" else
  if negb (String.eqb confirm "DELETE") then
    ret "⚠️ Warning: This will permanently delete the rule group. Set confirm='DELETE' to proceed."
  else
  let* client := get_api_client in
  api_call client "RuleGroupsApi" "delete_rule_group" [VStr rule_group_id] ;;
  ret ("✅ Deleted rule group ID: " ++ rule_group_id).

Definition delete_rule_group (rule_group_id confirm : string) : M string :=
  try_except (delete_rule_group_body rule_group_id confirm) on_error.

Definition delete_rule_body (rule_id confirm : string) : M string :=
  if negb (Py.nonempty (Py.strip rule_id)) then ret "❌ Error: rule_id is required" else
  if negb (String.eqb confirm "DELETE") then
    ret "⚠️ Warning: This will permanently delete the rule. Set confirm='DELETE' to proceed."
  else
  let* client := get_api_client in
  api_call client "RulesApi" "delete_rule" [VStr rule_id] ;;
  ret ("✅ Deleted rule ID: " ++ rule_id).

Definition delete_rule (rule_id confirm : string) : M string :=
  try_except (delete_rule_body rule_id confirm) on_error.

Definition delete_recurrence_body (recurrence_id confirm : string) : M string :=
  if negb (Py.nonempty (Py.strip recurrence_id)) then ret "❌ Error: recurrence_id is required" else
  if negb (String.eqb confirm "DELETE") then
    ret "⚠️ Warning: This will permanently delete the recurring transaction. Set confirm='DELETE' to proceed."
  else
  let* client := get_api_client in
  api_call client "RecurrencesApi" "delete_recurrence" [VStr recurrence_id] ;;
  ret ("✅ Deleted recurring transaction ID: " ++ recurrence_id).

Definition delete_recurrence (recurrence_id confirm : string) : M string :=
  try_except (delete_recurrence_body recurrence_id confirm) on_error.

Definition delete_webhook_body (webhook_id confirm : string) : M string :=
  if negb (Py.nonempty (Py.strip webhook_id)) then ret "❌ Error: webhook_id is required" else
  if negb (String.eqb confirm "DELETE") then
    ret "⚠️ Warning: This will permanently delete the webhook. Set confirm='DELETE' to proceed."
  else
  let* client := get_api_client in
  api_call client "WebhooksApi" "delete_webhook" [VStr webhook_id] ;;
  ret ("✅ Deleted webhook ID: " ++ webhook_id).

Definition delete_webhook (webhook_id confirm : string) : M string :=
  try_except (delete_webhook_body webhook_id confirm) on_error.

Definition delete_attachment_body (attachment_id confirm : string) : M string :=
  if negb (Py.nonempty (Py.strip attachment_id)) then ret "❌ Error: attachment_id is required" else
  if negb (String.eqb confirm "DELETE") then
    ret "⚠️ Warning: This will permanently delete the attachment. Set confirm='DELETE' to proceed."
  else
  let* client := get_api_client in
  api_call client "AttachmentsApi" "delete_attachment" [VStr attachment_id] ;;
  ret ("✅ Deleted attachment ID: " ++ attachment_id).

Definition delete_attachment (attachment_id confirm : string) : M string :=
  try_except (delete_attachment_body attachment_id confirm) on_error.

Definition delete_available_budget_body (available_budget_id confirm : string) : M string :=
  if negb (Py.nonempty (Py.strip available_budget_id)) then ret "❌ Error: available_budget_id is required" else
  if negb (String.eqb confirm "DELETE") then
    ret "⚠️ Warning: This will permanently delete the available budget. Set confirm='DELETE' to proceed."
  else
  let* client := get_api_client in
  api_call client "AvailableBudgetsApi" "delete_available_budget" [VStr available_budget_id] ;;
  ret ("✅ Deleted available budget ID: " ++ available_budget_id).

Definition delete_available_budget (available_budget_id confirm : string) : M string :=
  try_except (delete_available_budget_body available_budget_id confirm) on_error.

Definition delete_transaction_link_body (link_id confirm : string) : M string :=
  if negb (Py.nonempty (Py.strip link_id)) then ret "❌ Error: link_id is required" else
  if negb (String.eqb confirm "DELETE") then
    ret "⚠️ Warning: This will permanently delete the transaction link. Set confirm='DELETE' to proceed."
  else
  let* client := get_api_client in
  api_call client "LinksApi" "delete_transaction_link" [VStr link_id] ;;
  ret ("✅ Deleted transaction link ID: " ++ link_id).

Definition delete_transaction_link (link_id confirm : string) : M string :=
  try_except (delete_transaction_link_body link_id confirm) on_error.

(** The tools of the second generation compare [confirm.lower()] with
    ["yes"] in front of their [try] block and do not test the identifier. *)

Definition delete_budget_limit_body (budget_id budget_limit_id : string) : M string :=
  let* client := get_api_client in
  api_call client "BudgetsApi" "delete_budget_limit" [VStr budget_id; VStr budget_limit_id] ;;
  ret ("✅ Budget limit " ++ budget_limit_id ++ " deleted").

Definition delete_budget_limit (budget_id budget_limit_id confirm : string) : M string :=
  if negb (String.eqb (Py.lower confirm) "yes") then ret "⚠️  Deletion requires confirm='yes'" else
  try_except (delete_budget_limit_body budget_id budget_limit_id) on_error.

Definition delete_currency_body (currency_code : string) : M string :=
  let* client := get_api_client in
  api_call client "CurrenciesApi" "delete_currency" [VStr currency_code] ;;
  ret ("✅ Currency " ++ currency_code ++ " deleted").

Definition delete_currency (currency_code confirm : string) : M string :=
  if negb (String.eqb (Py.lower confirm) "yes") then ret "⚠️  Deletion requires confirm='yes'" else
  try_except (delete_currency_body currency_code) on_error.

Definition delete_transaction_link_type_body (link_type_id : string) : M string :=
  let* client := get_api_client in
  api_call client "LinksApi" "delete_link_type" [VStr link_type_id] ;;
  ret ("✅ Link type " ++ link_type_id ++ " deleted").

Definition delete_transaction_link_type (link_type_id confirm : string) : M string :=
  if negb (String.eqb (Py.lower confirm) "yes") then ret "⚠️  Deletion requires confirm='yes'" else
  try_except (delete_transaction_link_type_body link_type_id) on_error.

Definition delete_transaction_journal_body (journal_id : string) : M string :=
  let* client := get_api_client in
  api_call client "TransactionsApi" "delete_transaction_journal" [VStr journal_id] ;;
  ret ("✅ Transaction journal " ++ journal_id ++ " deleted").

Definition delete_transaction_journal (journal_id confirm : string) : M string :=
  if negb (String.eqb (Py.lower confirm) "yes") then ret "⚠️  Deletion requires confirm='yes'" else
  try_except (delete_transaction_journal_body journal_id) on_error.

Definition delete_webhook_message_body (webhook_message_id : string) : M string :=
  let* client := get_api_client in
  api_call client "WebhooksApi" "delete_webhook_message" [VStr webhook_message_id] ;;
  ret ("✅ Webhook message " ++ webhook_message_id ++ " deleted").

Definition delete_webhook_message (webhook_message_id confirm : string) : M string :=
  if negb (String.eqb (Py.lower confirm) "yes") then ret "⚠️  Deletion requires confirm='yes'" else
  try_except (delete_webhook_message_body webhook_message_id) on_error.

Definition delete_webhook_message_attempt_body (webhook_message_attempt_id : string) : M string :=
  let* client := get_api_client in
  api_call client "WebhooksApi" "delete_webhook_message_attempt" [VStr webhook_message_attempt_id] ;;
  ret ("✅ Webhook message attempt " ++ webhook_message_attempt_id ++ " deleted").

Definition delete_webhook_message_attempt (webhook_message_attempt_id confirm : string) : M string :=
  if negb (String.eqb (Py.lower confirm) "yes") then ret "⚠️  Deletion requires confirm='yes'" else
  try_except (delete_webhook_message_attempt_body webhook_message_attempt_id) on_error.

Definition delete_exchange_rate_body (rate_id : string) : M string :=
  let* client := get_api_client in
  api_call client "CurrencyExchangeRatesApi" "delete_specific_currency_exchange_rate" [VStr rate_id] ;;
  ret ("✅ Exchange rate " ++ rate_id ++ " deleted").

Definition delete_exchange_rate (rate_id confirm : string) : M string :=
  if negb (String.eqb (Py.lower confirm) "yes") then ret "⚠️  Deletion requires confirm='yes'" else
  try_except (delete_exchange_rate_body rate_id) on_error.

Definition delete_exchange_rate_on_date_body (from_currency to_currency date : string) : M string :=
  let* client := get_api_client in
  api_call client "CurrencyExchangeRatesApi" "delete_specific_currency_exchange_rate_on_date" [VStr from_currency; VStr to_currency; VStr date] ;;
  ret ("✅ Exchange rate for " ++ from_currency ++ "/" ++ to_currency ++ " on " ++ date ++ " deleted").

Definition delete_exchange_rate_on_date (from_currency to_currency date confirm : string) : M string :=
  if negb (String.eqb (Py.lower confirm) "yes") then ret "⚠️  Deletion requires confirm='yes'" else
  try_except (delete_exchange_rate_on_date_body from_currency to_currency date) on_error.

Definition delete_exchange_rates_for_pair_body (from_currency to_currency start_date end_date : string) : M string :=
  let* client := get_api_client in
  api_call client "CurrencyExchangeRatesApi" "delete_specific_currency_exchange_rates" [VStr from_currency; VStr to_currency; VStr start_date; VStr end_date] ;;
  ret ("✅ Exchange rates for " ++ from_currency ++ "/" ++ to_currency ++ " deleted").

Definition delete_exchange_rates_for_pair (from_currency to_currency start_date end_date confirm : string) : M string :=
  if negb (String.eqb (Py.lower confirm) "yes") then ret "⚠️  Deletion requires confirm='yes'" else
  try_except (delete_exchange_rates_for_pair_body from_currency to_currency start_date end_date) on_error.

Definition delete_object_group_body (group_id : string) : M string :=
  let* client := get_api_client in
  api_call client "ObjectGroupsApi" "delete_object_group" [VStr group_id] ;;
  ret ("✅ Object group " ++ group_id ++ " deleted").

Definition delete_object_group (group_id confirm : string) : M string :=
  if negb (String.eqb (Py.lower confirm) "yes") then ret "⚠️  Deletion requires confirm='yes'" else
  try_except (delete_object_group_body group_id) on_error.

Definition delete_user_body (user_id : string) : M string :=
  let* client := get_api_client in
  api_call client "UsersApi" "delete_user" [VStr user_id] ;;
  ret ("✅ User " ++ user_id ++ " deleted").

Definition delete_user (user_id confirm : string) : M string :=
  if negb (String.eqb (Py.lower confirm) "yes") then ret "⚠️  Deletion requires confirm='yes'" else
  try_except (delete_user_body user_id) on_error.

(** [[x.strip() for x in objects.split(",") if x.strip()]] *)
Definition object_list (objects : string) : list string :=
  filter (fun x => Py.nonempty x = true) (map Py.strip (Py.split_comma objects)).

Definition destroy_data_body (objects : string) : M string :=
  let* client := get_api_client in
  let object_list := object_list objects in
  api_call client "DataApi" "destroy_data" [VList (map VStr object_list)] ;;
  ret ("✅ Data destroyed: " ++ Py.join ", " object_list).

Definition destroy_data (objects confirm : string) : M string :=
  if negb (String.eqb (Py.lower confirm) "yes") then ret "⚠️  Destruction requires confirm='yes'" else
  try_except (destroy_data_body objects) on_error.

Definition purge_data_body : M string :=
  let* client := get_api_client in
  api_call client "DataApi" "purge_data" [] ;;
  ret "✅ All data has been permanently purged from Firefly III".

Definition purge_data (confirm_purge confirm_yes : string) : M string :=
  if negb (String.eqb confirm_purge "PURGE") || negb (String.eqb (Py.lower confirm_yes) "yes")
  then ret "⚠️  Purge requires confirm_purge='PURGE' and confirm_yes='yes'. This action CANNOT be undone!"
  else try_except purge_data_body on_error.

(** ** Tools of the second generation without validation *)

(** [int(page) if page else None] *)
Definition page_number (page : string) : M pyval :=
  if Py.nonempty page then let* n := int_of page in ret (VInt n) else ret VNone.

Definition list_attachments_by_account_body (account_id page : string) : M string :=
  let* client := get_api_client in
  let* page := page_number page in
  let* response :=
    issue (Call client "AccountsApi" "list_attachment_by_account" [VStr account_id]
             (<["page" := page]> ∅)) in
  let* data := getattr response "data" in
  let* items := iterate data in
  let* attachments :=
    foldM (fun attachments att =>
             let* id := getattr att "id" in
             let* filename := getattrs att ["attributes"; "filename"] in
             let* title := getattrs att ["attributes"; "title"] in
             let* size := getattrs att ["attributes"; "size"] in
             ret (attachments ++
                    [VDict (<["id" := id]>
                              (<["filename" := filename]>
                                 (<["title" := title]>
                                    (<["size" := size]> ∅))))])%list)
          [] items in
  fun E st =>
    (json_dumps E (VDict (<["account_id" := VStr account_id]>
                            (<["attachments" := VList attachments]> ∅))),
     st).

Definition list_attachments_by_account (account_id page : string) : M string :=
  try_except (list_attachments_by_account_body account_id page) on_error.

Definition update_attachment_body (attachment_id filename title notes : string) : M string :=
  let* client := get_api_client in
  let attachment : gmap string pyval := ∅ in
  let attachment := set_if (Py.nonempty filename) "filename" (VStr filename) attachment in
  let attachment := set_if (Py.nonempty title) "title" (VStr title) attachment in
  let attachment := set_if (Py.nonempty notes) "notes" (VStr notes) attachment in
  let* response :=
    api_call client "AttachmentsApi" "update_attachment"
      [VStr attachment_id; VObj "AttachmentUpdate" attachment] in
  ret ("✅ Attachment " ++ attachment_id ++ " updated").

Definition update_attachment (attachment_id filename title notes : string) : M string :=
  try_except (update_attachment_body attachment_id filename title notes) on_error.

(** ** The catalogue of the modelled tools *)

Inductive tool : Type :=
| T_list_accounts
| T_get_account_details
| T_update_account
| T_delete_account
| T_create_withdrawal
| T_create_deposit
| T_update_transaction
| T_delete_transaction
| T_update_budget
| T_delete_budget
| T_update_category
| T_delete_category
| T_update_tag
| T_delete_tag
| T_update_bill
| T_delete_bill
| T_update_piggy_bank
| T_delete_piggy_bank
| T_spending_summary
| T_income_summary
| T_update_rule_group
| T_delete_rule_group
| T_update_rule
| T_delete_rule
| T_create_recurrence
| T_update_recurrence
| T_delete_recurrence
| T_update_webhook
| T_delete_webhook
| T_delete_attachment
| T_delete_available_budget
| T_delete_transaction_link
| T_list_attachments_by_account
| T_update_attachment
| T_delete_budget_limit
| T_delete_currency
| T_delete_transaction_link_type
| T_delete_transaction_journal
| T_delete_webhook_message
| T_delete_webhook_message_attempt
| T_delete_exchange_rate
| T_delete_exchange_rate_on_date
| T_delete_exchange_rates_for_pair
| T_destroy_data
| T_purge_data
| T_delete_object_group
| T_delete_user.

(** A tool call as the protocol makes it: by name, with keyword arguments;
    a parameter left out takes the default of the [def] line. *)
Definition invoke (t : tool) (kw : gmap string string) : M string :=
  match t with
  | T_list_accounts =>
      list_accounts (arg kw "account_type" "") (arg kw "name_filter" "")
  | T_get_account_details =>
      get_account_details (arg kw "account_id" "")
  | T_update_account =>
      update_account
        (arg kw "account_id" "") (arg kw "name" "") (arg kw "active" "") (arg kw "notes" "")
  | T_delete_account =>
      delete_account (arg kw "account_id" "") (arg kw "confirm" "")
  | T_create_withdrawal =>
      create_withdrawal
        (arg kw "description" "") (arg kw "amount" "") (arg kw "source_account" "")
        (arg kw "destination_account" "") (arg kw "date" "") (arg kw "category" "")
        (arg kw "budget" "") (arg kw "tags" "") (arg kw "notes" "")
  | T_create_deposit =>
      create_deposit
        (arg kw "description" "") (arg kw "amount" "") (arg kw "destination_account" "")
        (arg kw "source_account" "") (arg kw "date" "") (arg kw "category" "")
        (arg kw "budget" "") (arg kw "tags" "") (arg kw "notes" "")
  | T_update_transaction =>
      update_transaction
        (arg kw "transaction_id" "") (arg kw "description" "") (arg kw "amount" "")
        (arg kw "date" "") (arg kw "category" "") (arg kw "budget" "") (arg kw "tags" "")
        (arg kw "notes" "")
  | T_delete_transaction =>
      delete_transaction (arg kw "transaction_id" "") (arg kw "confirm" "")
  | T_update_budget =>
      update_budget
        (arg kw "budget_id" "") (arg kw "name" "") (arg kw "active" "") (arg kw "notes" "")
  | T_delete_budget =>
      delete_budget (arg kw "budget_id" "") (arg kw "confirm" "")
  | T_update_category =>
      update_category (arg kw "category_id" "") (arg kw "name" "") (arg kw "notes" "")
  | T_delete_category =>
      delete_category (arg kw "category_id" "") (arg kw "confirm" "")
  | T_update_tag =>
      update_tag
        (arg kw "tag_id" "") (arg kw "tag" "") (arg kw "date" "") (arg kw "description" "")
  | T_delete_tag =>
      delete_tag (arg kw "tag_id" "") (arg kw "confirm" "")
  | T_update_bill =>
      update_bill
        (arg kw "bill_id" "") (arg kw "name" "") (arg kw "amount_min" "")
        (arg kw "amount_max" "") (arg kw "active" "") (arg kw "notes" "") (arg kw "date" "")
  | T_delete_bill =>
      delete_bill (arg kw "bill_id" "") (arg kw "confirm" "")
  | T_update_piggy_bank =>
      update_piggy_bank
        (arg kw "piggy_bank_id" "") (arg kw "name" "") (arg kw "target_amount" "")
        (arg kw "current_amount" "") (arg kw "notes" "")
  | T_delete_piggy_bank =>
      delete_piggy_bank (arg kw "piggy_bank_id" "") (arg kw "confirm" "")
  | T_spending_summary =>
      spending_summary
        (arg kw "start_date" "") (arg kw "end_date" "") (arg kw "group_by" "category")
  | T_income_summary =>
      income_summary
        (arg kw "start_date" "") (arg kw "end_date" "") (arg kw "group_by" "category")
  | T_update_rule_group =>
      update_rule_group
        (arg kw "rule_group_id" "") (arg kw "title" "") (arg kw "description" "")
        (arg kw "active" "") (arg kw "order" "")
  | T_delete_rule_group =>
      delete_rule_group (arg kw "rule_group_id" "") (arg kw "confirm" "")
  | T_update_rule =>
      update_rule
        (arg kw "rule_id" "") (arg kw "title" "") (arg kw "active" "")
        (arg kw "triggers_json" "") (arg kw "actions_json" "") (arg kw "description" "")
  | T_delete_rule =>
      delete_rule (arg kw "rule_id" "") (arg kw "confirm" "")
  | T_create_recurrence =>
      create_recurrence
        (arg kw "title" "") (arg kw "first_date" "") (arg kw "repeat_freq" "monthly")
        (arg kw "recurrence_type" "withdrawal") (arg kw "description" "")
        (arg kw "amount" "") (arg kw "source_account" "") (arg kw "destination_account" "")
        (arg kw "category" "") (arg kw "budget" "") (arg kw "notes" "")
  | T_update_recurrence =>
      update_recurrence
        (arg kw "recurrence_id" "") (arg kw "title" "") (arg kw "active" "")
        (arg kw "notes" "")
  | T_delete_recurrence =>
      delete_recurrence (arg kw "recurrence_id" "") (arg kw "confirm" "")
  | T_update_webhook =>
      update_webhook
        (arg kw "webhook_id" "") (arg kw "title" "") (arg kw "active" "") (arg kw "url" "")
  | T_delete_webhook =>
      delete_webhook (arg kw "webhook_id" "") (arg kw "confirm" "")
  | T_delete_attachment =>
      delete_attachment (arg kw "attachment_id" "") (arg kw "confirm" "")
  | T_delete_available_budget =>
      delete_available_budget (arg kw "available_budget_id" "") (arg kw "confirm" "")
  | T_delete_transaction_link =>
      delete_transaction_link (arg kw "link_id" "") (arg kw "confirm" "")
  | T_list_attachments_by_account =>
      list_attachments_by_account (arg kw "account_id" "") (arg kw "page" "")
  | T_update_attachment =>
      update_attachment
        (arg kw "attachment_id" "") (arg kw "filename" "") (arg kw "title" "")
        (arg kw "notes" "")
  | T_delete_budget_limit =>
      delete_budget_limit
        (arg kw "budget_id" "") (arg kw "budget_limit_id" "") (arg kw "confirm" "")
  | T_delete_currency =>
      delete_currency (arg kw "currency_code" "") (arg kw "confirm" "")
  | T_delete_transaction_link_type =>
      delete_transaction_link_type (arg kw "link_type_id" "") (arg kw "confirm" "")
  | T_delete_transaction_journal =>
      delete_transaction_journal (arg kw "journal_id" "") (arg kw "confirm" "")
  | T_delete_webhook_message =>
      delete_webhook_message (arg kw "webhook_message_id" "") (arg kw "confirm" "")
  | T_delete_webhook_message_attempt =>
      delete_webhook_message_attempt
        (arg kw "webhook_message_attempt_id" "") (arg kw "confirm" "")
  | T_delete_exchange_rate =>
      delete_exchange_rate (arg kw "rate_id" "") (arg kw "confirm" "")
  | T_delete_exchange_rate_on_date =>
      delete_exchange_rate_on_date
        (arg kw "from_currency" "") (arg kw "to_currency" "") (arg kw "date" "")
        (arg kw "confirm" "")
  | T_delete_exchange_rates_for_pair =>
      delete_exchange_rates_for_pair
        (arg kw "from_currency" "") (arg kw "to_currency" "") (arg kw "start_date" "")
        (arg kw "end_date" "") (arg kw "confirm" "")
  | T_destroy_data =>
      destroy_data (arg kw "objects" "") (arg kw "confirm" "")
  | T_purge_data =>
      purge_data (arg kw "confirm_purge" "") (arg kw "confirm_yes" "")
  | T_delete_object_group =>
      delete_object_group (arg kw "group_id" "") (arg kw "confirm" "")
  | T_delete_user =>
      delete_user (arg kw "user_id" "") (arg kw "confirm" "")
  end.


(** How a destructive tool asks for confirmation. *)
Inductive confirmation : Type :=
| Exact_DELETE (id_param : string)
| Lower_yes
| PURGE_and_yes.

(** The destructive tools (delete, destroy, purge) with their test; for
    the tools that compare [confirm] with ["DELETE"], the identifier they
    test first. *)
Definition confirmation_of (t : tool) : option confirmation :=
  match t with
  | T_delete_account => Some (Exact_DELETE "account_id")
  | T_delete_transaction => Some (Exact_DELETE "transaction_id")
  | T_delete_budget => Some (Exact_DELETE "budget_id")
  | T_delete_category => Some (Exact_DELETE "category_id")
  | T_delete_tag => Some (Exact_DELETE "tag_id")
  | T_delete_bill => Some (Exact_DELETE "bill_id")
  | T_delete_piggy_bank => Some (Exact_DELETE "piggy_bank_id")
  | T_delete_rule_group => Some (Exact_DELETE "rule_group_id")
  | T_delete_rule => Some (Exact_DELETE "rule_id")
  | T_delete_recurrence => Some (Exact_DELETE "recurrence_id")
  | T_delete_webhook => Some (Exact_DELETE "webhook_id")
  | T_delete_attachment => Some (Exact_DELETE "attachment_id")
  | T_delete_available_budget => Some (Exact_DELETE "available_budget_id")
  | T_delete_transaction_link => Some (Exact_DELETE "link_id")
  | T_delete_budget_limit => Some Lower_yes
  | T_delete_currency => Some Lower_yes
  | T_delete_transaction_link_type => Some Lower_yes
  | T_delete_transaction_journal => Some Lower_yes
  | T_delete_webhook_message => Some Lower_yes
  | T_delete_webhook_message_attempt => Some Lower_yes
  | T_delete_exchange_rate => Some Lower_yes
  | T_delete_exchange_rate_on_date => Some Lower_yes
  | T_delete_exchange_rates_for_pair => Some Lower_yes
  | T_destroy_data => Some Lower_yes
  | T_purge_data => Some PURGE_and_yes
  | T_delete_object_group => Some Lower_yes
  | T_delete_user => Some Lower_yes
  | _ => None
  end.

(** The warning a destructive tool returns when it is not confirmed. *)
Definition warning_of (t : tool) : string :=
  match t with
  | T_delete_account =>
      "⚠️ Warning: This will permanently delete the account. Set confirm='DELETE' to proceed."
  | T_delete_transaction =>
      "⚠️ Warning: This will permanently delete the transaction. Set confirm='DELETE' to proceed."
  | T_delete_budget =>
      "⚠️ Warning: This will permanently delete the budget. Set confirm='DELETE' to proceed."
  | T_delete_category =>
      "⚠️ Warning: This will permanently delete the category. Set confirm='DELETE' to proceed."
  | T_delete_tag =>
      "⚠️ Warning: This will permanently delete the tag. Set confirm='DELETE' to proceed."
  | T_delete_bill =>
      "⚠️ Warning: This will permanently delete the bill. Set confirm='DELETE' to proceed."
  | T_delete_piggy_bank =>
      "⚠️ Warning: This will permanently delete the piggy bank. Set confirm='DELETE' to proceed."
  | T_delete_rule_group =>
      "⚠️ Warning: This will permanently delete the rule group. Set confirm='DELETE' to proceed."
  | T_delete_rule =>
      "⚠️ Warning: This will permanently delete the rule. Set confirm='DELETE' to proceed."
  | T_delete_recurrence =>
      "⚠️ Warning: This will permanently delete the recurring transaction. Set confirm='DELETE' to proceed."
  | T_delete_webhook =>
      "⚠️ Warning: This will permanently delete the webhook. Set confirm='DELETE' to proceed."
  | T_delete_attachment =>
      "⚠️ Warning: This will permanently delete the attachment. Set confirm='DELETE' to proceed."
  | T_delete_available_budget =>
      "⚠️ Warning: This will permanently delete the available budget. Set confirm='DELETE' to proceed."
  | T_delete_transaction_link =>
      "⚠️ Warning: This will permanently delete the transaction link. Set confirm='DELETE' to proceed."
  | T_delete_budget_limit =>
      "⚠️  Deletion requires confirm='yes'"
  | T_delete_currency =>
      "⚠️  Deletion requires confirm='yes'"
  | T_delete_transaction_link_type =>
      "⚠️  Deletion requires confirm='yes'"
  | T_delete_transaction_journal =>
      "⚠️  Deletion requires confirm='yes'"
  | T_delete_webhook_message =>
      "⚠️  Deletion requires confirm='yes'"
  | T_delete_webhook_message_attempt =>
      "⚠️  Deletion requires confirm='yes'"
  | T_delete_exchange_rate =>
      "⚠️  Deletion requires confirm='yes'"
  | T_delete_exchange_rate_on_date =>
      "⚠️  Deletion requires confirm='yes'"
  | T_delete_exchange_rates_for_pair =>
      "⚠️  Deletion requires confirm='yes'"
  | T_destroy_data =>
      "⚠️  Destruction requires confirm='yes'"
  | T_purge_data =>
      "⚠️  Purge requires confirm_purge='PURGE' and confirm_yes='yes'. This action CANNOT be undone!"
  | T_delete_object_group =>
      "⚠️  Deletion requires confirm='yes'"
  | T_delete_user =>
      "⚠️  Deletion requires confirm='yes'"
  | _ => ""
  end.










(** ** Repeated acquisition *)

(** [n] calls of [get_api_client] one after the other: what each returned
    or raised, and the state they leave. *)
Fixpoint acquire_times (n : nat) (E : env) (st : state)
    : list (outcome ApiClient) * state :=
  match n with
  | 0 => ([], st)
  | S k =>
      let r := get_api_client E st in
      let rest := acquire_times k E (snd r) in
      (fst r :: fst rest, snd rest)
  end.

(** A reference is routed in a request dict when the dict holds it under
    the ID key and nothing under the name key, or the other way round;
    which way is decided on the reference with its surrounding whitespace
    removed. *)
Definition routed (ref id_key name_key : string) (d : gmap string pyval) : Prop :=
  if Py.isdigit (Py.strip ref)
  then d !! id_key = Some (VStr ref) /\ d !! name_key = None
  else d !! name_key = Some (VStr ref) /\ d !! id_key = None.



Create HintDb tools.
Create HintDb stateless.
#[global] Hint Unfold
  list_accounts list_accounts_body get_account_details get_account_details_body
  update_account update_account_body delete_account delete_account_body
  create_withdrawal create_withdrawal_body create_deposit create_deposit_body
  update_transaction update_transaction_body delete_transaction
  delete_transaction_body update_budget update_budget_body delete_budget
  delete_budget_body update_category update_category_body delete_category
  delete_category_body update_tag update_tag_body delete_tag delete_tag_body
  update_bill update_bill_body delete_bill delete_bill_body update_piggy_bank
  update_piggy_bank_body delete_piggy_bank delete_piggy_bank_body spending_summary
  spending_summary_body income_summary income_summary_body update_rule_group
  update_rule_group_body delete_rule_group delete_rule_group_body update_rule
  update_rule_body delete_rule delete_rule_body create_recurrence
  create_recurrence_body update_recurrence update_recurrence_body delete_recurrence
  delete_recurrence_body update_webhook update_webhook_body delete_webhook
  delete_webhook_body delete_attachment delete_attachment_body delete_available_budget
  delete_available_budget_body delete_transaction_link delete_transaction_link_body
  list_attachments_by_account list_attachments_by_account_body update_attachment
  update_attachment_body delete_budget_limit delete_budget_limit_body delete_currency
  delete_currency_body delete_transaction_link_type delete_transaction_link_type_body
  delete_transaction_journal delete_transaction_journal_body delete_webhook_message
  delete_webhook_message_body delete_webhook_message_attempt
  delete_webhook_message_attempt_body delete_exchange_rate delete_exchange_rate_body
  delete_exchange_rate_on_date delete_exchange_rate_on_date_body
  delete_exchange_rates_for_pair delete_exchange_rates_for_pair_body destroy_data
  destroy_data_body purge_data purge_data_body delete_object_group
  delete_object_group_body delete_user delete_user_body summary_body
  : tools.

(** ** What a computation may do to the process state *)

(** The state [st'] continues [st]: the log of backend calls has only
    grown, and a client that was there is still there, with its
    configuration, no further reading of the secrets file and no further
    construction. *)
Definition continues (st st' : state) : Prop :=
  (exists issued, calls st' = (calls st ++ issued)%list)
  /\ forall client,
       _api_client st = Some client ->
       _api_client st' = Some client
       /\ _configuration st' = _configuration st
       /\ config_reads st' = config_reads st
       /\ clients_built st' = clients_built st.

(** A computation is tame when every state it leaves continues the state
    it started in. *)
Definition tame {A} (m : M A) : Prop :=
  forall E st, continues st (snd (m E st)).

(** A process without a secrets file. *)
Definition no_secrets (E : env) : Prop :=
  forall n, secrets_file E n = FileNotFound.

(** A computation stays offline when, started without a client, it leaves
    the log of backend calls as it was and still has no client. *)
Definition offline {A} (E : env) (m : M A) : Prop :=
  forall st,
    _api_client st = None ->
    calls (snd (m E st)) = calls st /\ _api_client (snd (m E st)) = None.

(** ** Accounts: creation and transactions *)

(** The dict [create_account] builds. The date of the opening balance is
    the day of the call; the clock is read only when the balance is sent. *)
Definition account_data (name account_type currency_code opening_balance notes
    liability_type liability_direction today : string) : gmap string pyval :=
  let account_data : gmap string pyval :=
    <["name" := VStr name]>
      (<["type" := VStr account_type]>
         (<["currency_code" := VStr currency_code]>
            (<["active" := VBool true]> ∅))) in
  let account_data :=
    if String.eqb account_type "asset"
    then <["include_net_worth" := VBool true]>
           (<["account_role" := VStr "defaultAsset"]> account_data)
    else account_data in
  let account_data :=
    if String.eqb account_type "liability"
    then <["liability_direction" := VStr liability_direction]>
           (<["liability_type" := VStr liability_type]> account_data)
    else account_data in
  let account_data :=
    if Py.nonempty opening_balance && negb (String.eqb opening_balance "0")
    then <["opening_balance_date" := VStr today]>
           (<["opening_balance" := VStr opening_balance]> account_data)
    else account_data in
  set_if (Py.nonempty notes) "notes" (VStr notes) account_data.

(** The test of the liability fields: the error it returns, if any. *)
Definition liability_error (account_type liability_type liability_direction : string)
    : option string :=
  if String.eqb account_type "liability" then
    if negb (Py.nonempty liability_type) then
      Some ("❌ Error: liability_type is required when account_type is 'liability'. "
            ++ "Use: 'loan', 'debt', 'mortgage', or 'credit-card'")
    else if negb (Py.nonempty liability_direction) then
      Some ("❌ Error: liability_direction is required when account_type is 'liability'. "
            ++ "Use: 'credit' (you owe) or 'debit' (they owe you)")
    else if negb (String.eqb liability_direction "credit"
                  || String.eqb liability_direction "debit") then
      Some ("❌ Error: liability_direction must be 'credit' or 'debit', got: '"
            ++ liability_direction ++ "'")
    else None
  else None.

Definition create_account_body (name account_type currency_code opening_balance notes
    liability_type liability_direction : string) : M string :=
  if negb (Py.nonempty (Py.strip name)) then ret "❌ Error: name is required" else
  match liability_error account_type liability_type liability_direction with
  | Some error => ret error
  | None =>
      let* client := get_api_client in
      let* E := ask in
      let account_data :=
        account_data name account_type currency_code opening_balance notes
          liability_type liability_direction (today_string E) in
      let account_store := VObj "AccountStore" account_data in
      let* account := api_call client "AccountsApi" "store_account" [account_store] in
      let* name := getattrs account ["data"; "attributes"; "name"] in
      let* id := getattrs account ["data"; "id"] in
      ret ("✅ Created account: " ++ py_str E name ++ " (ID: " ++ py_str E id ++ ")")
  end.

Definition create_account (name account_type currency_code opening_balance notes
    liability_type liability_direction : string) : M string :=
  try_except
    (create_account_body name account_type currency_code opening_balance notes
       liability_type liability_direction)
    on_error.

(** The filters of a listing: [start], [end] and [type], each sent only
    when supplied. *)
Definition listing_params (start_date end_date transaction_type : string)
    : gmap string pyval :=
  let params : gmap string pyval := ∅ in
  let params := set_if (Py.nonempty start_date) "start" (VStr start_date) params in
  let params := set_if (Py.nonempty end_date) "end" (VStr end_date) params in
  set_if (Py.nonempty transaction_type) "type" (VStr transaction_type) params.

(** [txn.attributes.transactions[0]] *)
Definition first_split (txn : pyval) : M pyval :=
  let* transactions := getattrs txn ["attributes"; "transactions"] in
  first_item transactions.

(** One row of the table of [list_account_transactions]. *)
Definition account_transaction_row (result : string) (txn : pyval) : M string :=
  let* attrs := first_split txn in
  let* var_date := getattr attrs "var_date" in
  let* description := getattr attrs "description" in
  let* amount := getattr attrs "amount" in
  let* amount := format_amount amount in
  let* currency_code := getattr attrs "currency_code" in
  let* type := getattr attrs "type" in
  let* E := ask in
  ret (result ++ "| " ++ py_str E var_date ++ " | " ++ py_str E description ++ " | "
         ++ amount ++ " " ++ py_str E currency_code ++ " | " ++ py_str E type ++ " |" ++ nl).

(** The text over the table of [list_account_transactions]. *)
Definition account_transactions_header (n : nat) : string :=
  "📝 Found " ++ pretty n ++ " transaction(s):" ++ nl ++ nl
    ++ "| Date | Description | Amount | Type |" ++ nl
    ++ "|------|-------------|--------|------|" ++ nl.

Definition list_account_transactions_body (account_id start_date end_date
    transaction_type : string) : M string :=
  if negb (Py.nonempty (Py.strip account_id)) then ret "❌ Error: account_id is required" else
  let* client := get_api_client in
  let params := listing_params start_date end_date transaction_type in
  let* transactions :=
    issue (Call client "AccountsApi" "list_transaction_by_account" [VStr account_id]
             params) in
  let* data := getattr transactions "data" in
  if negb (truthy data) then ret "📭 No transactions found" else
  let* n := py_len data in
  let result := account_transactions_header n in
  let* rows := slice_to 50 data in
  foldM account_transaction_row result rows.

Definition list_account_transactions (account_id start_date end_date
    transaction_type : string) : M string :=
  try_except
    (list_account_transactions_body account_id start_date end_date transaction_type)
    on_error.

(** ** Transactions: listing, transfers, periods *)

(** One row of the table of [list_transactions]. *)
Definition transaction_row (result : string) (txn : pyval) : M string :=
  let* attrs := first_split txn in
  let* id := getattr txn "id" in
  let* var_date := getattr attrs "var_date" in
  let* description := getattr attrs "description" in
  let* amount := getattr attrs "amount" in
  let* amount := format_amount amount in
  let* currency_code := getattr attrs "currency_code" in
  let* type := getattr attrs "type" in
  let* E := ask in
  ret (result ++ "| " ++ py_str E id ++ " | " ++ py_str E var_date ++ " | "
         ++ py_str E description ++ " | " ++ amount ++ " " ++ py_str E currency_code
         ++ " | " ++ py_str E type ++ " |" ++ nl).

(** [int(limit) if limit.strip() else 50] *)
Definition limit_of (limit : string) : M Z :=
  if Py.nonempty (Py.strip limit) then int_of limit else ret 50%Z.

Definition list_transactions_body (start_date end_date transaction_type limit : string)
    : M string :=
  let* client := get_api_client in
  let params := listing_params start_date end_date transaction_type in
  let* limit_int := limit_of limit in
  let params := <["limit" := VInt limit_int]> params in
  let* transactions :=
    issue (Call client "TransactionsApi" "list_transaction" [] params) in
  let* data := getattr transactions "data" in
  if negb (truthy data) then ret "📭 No transactions found" else
  let* n := py_len data in
  let result := "📝 Found " ++ pretty n ++ " transaction(s):" ++ nl ++ nl in
  let result := result ++ "| ID | Date | Description | Amount | Type |" ++ nl in
  let result := result ++ "|------|------|-------------|--------|------|" ++ nl in
  let* rows := iterate data in
  foldM transaction_row result rows.

Definition list_transactions (start_date end_date transaction_type limit : string)
    : M string :=
  try_except (list_transactions_body start_date end_date transaction_type limit) on_error.

(** The split [create_transfer] sends: both accounts under their ID keys. *)
Definition transfer_split (description amount source_account destination_account
    transaction_date notes : string) : gmap string pyval :=
  let transaction_split : gmap string pyval :=
    <["type" := VStr "transfer"]>
      (<["date" := VStr transaction_date]>
         (<["amount" := VStr amount]>
            (<["description" := VStr description]>
               (<["source_id" := VStr source_account]>
                  (<["destination_id" := VStr destination_account]> ∅))))) in
  set_if (Py.nonempty notes) "notes" (VStr notes) transaction_split.

Definition create_transfer_body (description amount source_account destination_account
    date notes : string) : M string :=
  if negb (Py.nonempty (Py.strip description) && Py.nonempty (Py.strip amount)
           && Py.nonempty (Py.strip source_account)
           && Py.nonempty (Py.strip destination_account))
  then ret ("❌ Error: description, amount, source_account, "
            ++ "and destination_account are required") else
  let* client := get_api_client in
  let* transaction_date := if Py.nonempty date then ret date else today in
  let transaction_split :=
    transfer_split description amount source_account destination_account
      transaction_date notes in
  let transaction_store := TransactionStore transaction_split in
  let* result :=
    api_call client "TransactionsApi" "store_transaction" [transaction_store] in
  let* transactions := getattrs result ["data"; "attributes"; "transactions"] in
  let* txn_data := first_item transactions in
  let* description := getattr txn_data "description" in
  let* amount := getattr txn_data "amount" in
  let* amount := format_amount amount in
  let* currency_code := getattr txn_data "currency_code" in
  let* source_name := getattr txn_data "source_name" in
  let* destination_name := getattr txn_data "destination_name" in
  let* id := getattrs result ["data"; "id"] in
  let* E := ask in
  ret ("✅ Created transfer: " ++ py_str E description ++ nl
       ++ "Amount: " ++ amount ++ " " ++ py_str E currency_code ++ nl
       ++ "From: " ++ py_str E source_name ++ " → To: " ++ py_str E destination_name ++ nl
       ++ "ID: " ++ py_str E id).

Definition create_transfer (description amount source_account destination_account
    date notes : string) : M string :=
  try_except
    (create_transfer_body description amount source_account destination_account
       date notes)
    on_error.

(** ** Calendar dates *)

(** [f"{n:02d}"] *)
Definition fmt_02d (n : Z) : string :=
  if ((0 <=? n) && (n <? 10))%Z then "0" ++ pretty n else pretty n.

(** A [datetime.date]: year, month and day. *)
Definition date : Type := (nat * nat * nat)%type.

Definition c_int (n : Z) : bool := ((-2147483648 <=? n) && (n <=? 2147483647))%Z.

(** [dt.date(year, month, day)]: the arguments are C ints, the year is in
    1..9999, the month in 1..12 and the day one of the month. *)
Definition make_date (year month day : Z) : M date :=
  if negb (c_int year && c_int month && c_int day)
  then raise (PyException "OverflowError" "Python int too large to convert to C int")
  else if negb ((1 <=? year) && (year <=? 9999))%Z
  then raise (ValueError ("year " ++ pretty year ++ " is out of range"))
  else if negb ((1 <=? month) && (month <=? 12))%Z
  then raise (ValueError "month must be in 1..12")
  else if negb ((1 <=? day)
                && (day <=? Z.of_nat (days_in_month (Z.to_nat year) (Z.to_nat month))))%Z
  then raise (ValueError "day is out of range for month")
  else ret (Z.to_nat year, Z.to_nat month, Z.to_nat day).

(** [d + relativedelta(months=1)]: the next month, in the next year after
    December, on the same day or on the last one the month has. *)
Definition add_month (d : date) : M date :=
  match d with
  | (year, month, day) =>
      let year' := if (month =? 12)%nat then S year else year in
      let month' := if (month =? 12)%nat then 1%nat else S month in
      if (9999 <? year')%nat
      then raise (ValueError ("year " ++ pretty year' ++ " is out of range"))
      else ret (year', month', Nat.min day (days_in_month year' month'))
  end.

(** [d - dt.timedelta(days=1)] *)
Definition minus_one_day (d : date) : M date :=
  match d with
  | (year, month, day) =>
      if (1 <? day)%nat then ret (year, month, (day - 1)%nat)
      else if (1 <? month)%nat
      then ret (year, (month - 1)%nat, days_in_month year (month - 1))
      else if (1 <? year)%nat then ret ((year - 1)%nat, 12%nat, 31%nat)
      else raise (PyException "OverflowError" "date value out of range")
  end.

Section Period.

(** The year as [strftime("%Y")] writes it. The C library decides whether
    a year below 1000 is padded to four digits. *)
Variable strftime_Y : nat -> string.

(** [d.strftime("%Y-%m-%d")] *)
Definition strftime_ymd (d : date) : string :=
  match d with
  | (year, month, day) => strftime_Y year ++ "-" ++ pad2 month ++ "-" ++ pad2 day
  end.

(** The last day of a month other than December:
    [start + relativedelta(months=1) - dt.timedelta(days=1)], where
    [start] is the first of the month. The two modules imported on that
    path, [dateutil] and [datetime], are taken to be installed. *)
Definition month_end (year_int month_int : Z) : M string :=
  let* start := make_date year_int month_int 1 in
  let* next := add_month start in
  let* last := minus_one_day next in
  ret (strftime_ymd last).

(** [int(s) if s.strip() else now] *)
Definition int_or (s : string) (now : nat) : M Z :=
  if Py.nonempty (Py.strip s) then int_of s else ret (Z.of_nat now).

(** The tool delegates to [list_transactions], which returns its own
    errors as strings. *)
Definition list_transactions_for_period_body (period year month : string) : M string :=
  let* E := ask in
  let* year_int := int_or year (now_year E) in
  let* month_int := int_or month (now_month E) in
  if String.eqb period "month" then
    let start_date := pretty year_int ++ "-" ++ fmt_02d month_int ++ "-01" in
    let* end_date :=
      if (month_int =? 12)%Z then ret (pretty year_int ++ "-12-31")
      else month_end year_int month_int in
    list_transactions start_date end_date "" "50"
  else if String.eqb period "year" then
    let start_date := pretty year_int ++ "-01-01" in
    let end_date := pretty year_int ++ "-12-31" in
    list_transactions start_date end_date "" "50"
  else ret "❌ Error: period must be 'month' or 'year'".

Definition list_transactions_for_period (period year month : string) : M string :=
  try_except (list_transactions_for_period_body period year month) on_error.

End Period.

(** ** Transactions without a budget *)

(** [not txn.attributes.transactions[0].budget_name] *)
Definition lacks_budget (txn : pyval) : M bool :=
  let* txn_data := first_split txn in
  let* budget_name := getattr txn_data "budget_name" in
  ret (negb (truthy budget_name)).

Definition unbudgeted_row (result : string) (txn : pyval) : M string :=
  let* txn_data := first_split txn in
  let* id := getattr txn "id" in
  let* var_date := getattr txn_data "var_date" in
  let* description := getattr txn_data "description" in
  let* amount := getattr txn_data "amount" in
  let* amount := format_amount amount in
  let* E := ask in
  ret (result ++ "| " ++ py_str E id ++ " | " ++ py_str E var_date ++ " | "
         ++ py_str E description ++ " | " ++ amount ++ " |" ++ nl).

(** The period of a report: the one given, or the current month when
    either end is missing. *)
Definition period_of (start_date end_date : string) : M (string * string) :=
  if negb (Py.nonempty start_date) || negb (Py.nonempty end_date)
  then current_month else ret (start_date, end_date).

(** The listing call of the reports. *)
Definition list_call (client : ApiClient) (start_date end_date transaction_type : string)
    : call :=
  Call client "TransactionsApi" "list_transaction" []
    (<["start" := VStr start_date]>
       (<["end" := VStr end_date]>
          (<["type" := VStr transaction_type]> ∅))).

(** The text over the table of the transactions without a budget. *)
Definition unbudgeted_header (n : nat) : string :=
  "⚠️ Found " ++ pretty n ++ " transaction(s) without budget:" ++ nl ++ nl
    ++ "| ID | Date | Description | Amount |" ++ nl
    ++ "|------|------|-------------|--------|" ++ nl.

Definition list_transactions_without_budget_body (start_date end_date : string)
    : M string :=
  let* period := period_of start_date end_date in
  let start_date := fst period in
  let end_date := snd period in
  let* client := get_api_client in
  let* transactions := issue (list_call client start_date end_date "withdrawal") in
  let* data := getattr transactions "data" in
  let* items := iterate data in
  let* no_budget := filterM lacks_budget items in
  match no_budget with
  | [] => ret "✅ All transactions have budgets assigned"
  | _ => foldM unbudgeted_row (unbudgeted_header (length no_budget)) (take 50 no_budget)
  end.

Definition list_transactions_without_budget (start_date end_date : string) : M string :=
  try_except (list_transactions_without_budget_body start_date end_date) on_error.

(** ** Net flow *)

(** A generator expression whose element may raise. *)
Fixpoint mapM {A} (f : pyval -> M A) (l : list pyval) : M (list A) :=
  match l with
  | [] => ret []
  | x :: r =>
      let* y := f x in
      let* ys := mapM f r in
      ret (y :: ys)
  end.

(** [float(txn.attributes.transactions[0].amount)] *)
Definition amount_of (txn : pyval) : M float :=
  let* txn_data := first_split txn in
  let* amount := getattr txn_data "amount" in
  float_of amount.

Section NetFlow.

(** The built-in [sum] over one float or more: plain addition from left
    to right, or compensated summation, as the interpreter has it. *)
Variable py_sum : list float -> float.

(** [sum(...)] from its start value [0]. *)
Definition sum_of (amounts : list float) : float :=
  match amounts with
  | [] => 0%float
  | _ => py_sum amounts
  end.

(** The text of the net flow summary. *)
Definition render_net_flow (E : env) (start_date end_date : string)
    (total_income total_expenses : float) : string :=
  let net_flow := (total_income - total_expenses)%float in
  "📊 Net Flow Summary (" ++ start_date ++ " to " ++ end_date ++ ")" ++ nl ++ nl
    ++ "**Total Income:** " ++ format_float E 2 total_income ++ nl
    ++ "**Total Expenses:** " ++ format_float E 2 total_expenses ++ nl
    ++ "**Net Flow:** " ++ format_float E 2 net_flow ++ nl ++ nl
    ++ "**Savings Rate:** " ++ format_float E 1 (percent_of net_flow total_income)
    ++ "%" ++ nl.

(** The total of one listing. *)
Definition listed_total (client : ApiClient) (start_date end_date transaction_type : string)
    : M float :=
  let* listing := issue (list_call client start_date end_date transaction_type) in
  let* data := getattr listing "data" in
  let* items := iterate data in
  let* amounts := mapM amount_of items in
  ret (sum_of amounts).

Definition net_flow_summary_body (start_date end_date : string) : M string :=
  let* period := period_of start_date end_date in
  let start_date := fst period in
  let end_date := snd period in
  let* client := get_api_client in
  let* total_income := listed_total client start_date end_date "deposit" in
  let* total_expenses := listed_total client start_date end_date "withdrawal" in
  let* E := ask in
  ret (render_net_flow E start_date end_date total_income total_expenses).

Definition net_flow_summary (start_date end_date : string) : M string :=
  try_except (net_flow_summary_body start_date end_date) on_error.

End NetFlow.

(** ** Search *)

(** The name shown for a result: its description, else its name, else
    ["N/A"]. *)
Definition search_row (result : string) (item : pyval) : M string :=
  let* attributes := getattr item "attributes" in
  let* desc :=
    if hasattr attributes "description" then getattr attributes "description"
    else if hasattr attributes "name" then getattr attributes "name"
    else ret (VStr "N/A") in
  let* id := getattr item "id" in
  let* E := ask in
  ret (result ++ "| Transaction | " ++ py_str E id ++ " | " ++ py_str E desc ++ " |" ++ nl).

(** The parameter [field] is accepted and not used. *)
Definition search_all_body (query field : string) : M string :=
  if negb (Py.nonempty (Py.strip query)) then ret "❌ Error: query is required" else
  let* client := get_api_client in
  let params : gmap string pyval := <["query" := VStr query]> ∅ in
  let* results := issue (Call client "SearchApi" "search_transactions" [] params) in
  let* data := getattr results "data" in
  if negb (truthy data) then ret "📭 No results found" else
  let result := "🔍 Search Results for '" ++ query ++ "':" ++ nl ++ nl in
  let result := result ++ "| Type | ID | Name/Description |" ++ nl in
  let result := result ++ "|------|------|------------------|" ++ nl in
  let* rows := slice_to 50 data in
  foldM search_row result rows.

Definition search_all (query field : string) : M string :=
  try_except (search_all_body query field) on_error.

(** ** Rules *)

(** [flag.lower() == "true"] *)
Definition flag_of (flag : string) : pyval := VBool (String.eqb (Py.lower flag) "true").

Definition rule_data (title rule_group_id : string) (triggers actions : pyval)
    (active strict stop_processing description : string) : gmap string pyval :=
  let rule_data : gmap string pyval :=
    <["title" := VStr title]>
      (<["rule_group_id" := VStr rule_group_id]>
         (<["trigger" := VStr "store-journal"]>
            (<["triggers" := triggers]>
               (<["actions" := actions]>
                  (<["active" := flag_of active]>
                     (<["strict" := flag_of strict]>
                        (<["stop_processing" := flag_of stop_processing]> ∅))))))) in
  set_if (Py.nonempty description) "description" (VStr description) rule_data.

(** The triggers and the actions are parsed before the client is asked
    for; whatever [json.loads] raises there gives the same error. *)
Definition create_rule_body (title rule_group_id triggers_json actions_json active strict
    stop_processing description : string) : M string :=
  if negb (Py.nonempty (Py.strip title) && Py.nonempty (Py.strip rule_group_id)
           && Py.nonempty (Py.strip triggers_json)
           && Py.nonempty (Py.strip actions_json))
  then ret "❌ Error: title, rule_group_id, triggers_json, and actions_json are required"
  else
  let* E := ask in
  match json_loads E (VStr triggers_json), json_loads E (VStr actions_json) with
  | Some triggers, Some actions =>
      let* client := get_api_client in
      let rule_data :=
        rule_data title rule_group_id triggers actions active strict stop_processing
          description in
      let rule_store := VObj "RuleStore" rule_data in
      let* rule := api_call client "RulesApi" "store_rule" [rule_store] in
      let* title := getattrs rule ["data"; "attributes"; "title"] in
      let* id := getattrs rule ["data"; "id"] in
      ret ("✅ Created rule: " ++ py_str E title ++ " (ID: " ++ py_str E id ++ ")")
  | _, _ => ret "❌ Error: triggers_json and actions_json must be valid JSON arrays"
  end.

Definition create_rule (title rule_group_id triggers_json actions_json active strict
    stop_processing description : string) : M string :=
  try_except
    (create_rule_body title rule_group_id triggers_json actions_json active strict
       stop_processing description)
    on_error.

(** ** Raw requests *)

(** [s.upper()] *)
Definition py_upper (s : string) : string := Py.map_chars Py.upper_char s.

Definition http_methods : list string := ["GET"; "POST"; "PUT"; "DELETE"; "PATCH"].

Definition body_methods : list string := ["POST"; "PUT"; "PATCH"].

(** [method in methods] *)
Definition among (methods : list string) (method : string) : bool :=
  existsb (String.eqb method) methods.

(** The headers of a raw request. *)
Definition raw_headers (request_body : pyval) : gmap string pyval :=
  let headers : gmap string pyval := ∅ in
  let headers :=
    set_if (truthy request_body) "Content-Type" (VStr "application/json") headers in
  <["Accept" := VStr "application/json"]> headers.

(** [client.rest_client.request(method=..., url=..., headers=..., body=...)],
    logged as a call of [request] on [rest_client]. *)
Definition raw_call (client : ApiClient) (method path : string) (request_body : pyval)
    : call :=
  Call client "rest_client" "request" []
    (<["method" := VStr method]>
       (<["url" := VStr (Py.rstrip_slash (host (configuration client)) ++ path)]>
          (<["headers" := VDict (raw_headers request_body)]>
             (<["body" := if among body_methods method then request_body else VNone]>
                ∅)))).

(** The answer rendered: as indented JSON when its data parse and print,
    as they are otherwise. *)
Definition render_response (E : env) (data : pyval) : string :=
  match json_loads E data with
  | Some parsed =>
      match json_dumps E parsed with
      | Ret formatted =>
          "✅ API Response:" ++ nl ++ "```json" ++ nl ++ formatted ++ nl ++ "```"
      | Raise _ => "✅ API Response:" ++ nl ++ py_str E data
      end
  | None => "✅ API Response:" ++ nl ++ py_str E data
  end.

Definition firefly_raw_request_body (method path body : string) : M string :=
  if negb (Py.nonempty (Py.strip path)) then ret "❌ Error: path is required" else
  let* client := get_api_client in
  let method := py_upper method in
  if negb (among http_methods method)
  then ret "❌ Error: method must be GET, POST, PUT, DELETE, or PATCH" else
  let* E := ask in
  match (if Py.nonempty (Py.strip body) then json_loads E (VStr body) else Some VNone) with
  | None => ret "❌ Error: body must be valid JSON"
  | Some request_body =>
      let* response := issue (raw_call client method path request_body) in
      let* data := getattr response "data" in
      ret (render_response E data)
  end.

Definition firefly_raw_request (method path body : string) : M string :=
  try_except (firefly_raw_request_body method path body) on_error.

(** ** The tools added to the catalogue *)

Inductive more_tool : Type :=
| T_create_account
| T_list_account_transactions
| T_list_transactions
| T_create_transfer
| T_list_transactions_for_period
| T_list_transactions_without_budget
| T_net_flow_summary
| T_search_all
| T_create_rule
| T_firefly_raw_request.

Section Catalogue.

Variable strftime_Y : nat -> string.
Variable py_sum : list float -> float.

(** A call of one of these tools, with the defaults of its signature. *)
Definition invoke_more (t : more_tool) (kw : gmap string string) : M string :=
  match t with
  | T_create_account =>
      create_account (arg kw "name" "") (arg kw "account_type" "asset")
        (arg kw "currency_code" "USD") (arg kw "opening_balance" "0") (arg kw "notes" "")
        (arg kw "liability_type" "") (arg kw "liability_direction" "")
  | T_list_account_transactions =>
      list_account_transactions (arg kw "account_id" "") (arg kw "start_date" "")
        (arg kw "end_date" "") (arg kw "transaction_type" "")
  | T_list_transactions =>
      list_transactions (arg kw "start_date" "") (arg kw "end_date" "")
        (arg kw "transaction_type" "") (arg kw "limit" "50")
  | T_create_transfer =>
      create_transfer (arg kw "description" "") (arg kw "amount" "")
        (arg kw "source_account" "") (arg kw "destination_account" "")
        (arg kw "date" "") (arg kw "notes" "")
  | T_list_transactions_for_period =>
      list_transactions_for_period strftime_Y (arg kw "period" "month")
        (arg kw "year" "") (arg kw "month" "")
  | T_list_transactions_without_budget =>
      list_transactions_without_budget (arg kw "start_date" "") (arg kw "end_date" "")
  | T_net_flow_summary =>
      net_flow_summary py_sum (arg kw "start_date" "") (arg kw "end_date" "")
  | T_search_all => search_all (arg kw "query" "") (arg kw "field" "all")
  | T_create_rule =>
      create_rule (arg kw "title" "") (arg kw "rule_group_id" "")
        (arg kw "triggers_json" "") (arg kw "actions_json" "") (arg kw "active" "true")
        (arg kw "strict" "true") (arg kw "stop_processing" "false")
        (arg kw "description" "")
  | T_firefly_raw_request =>
      firefly_raw_request (arg kw "method" "GET") (arg kw "path" "") (arg kw "body" "")
  end.

(** A call of any modelled tool. *)
Definition invoke_any (t : tool + more_tool) (kw : gmap string string) : M string :=
  match t with
  | inl t => invoke t kw
  | inr t => invoke_more t kw
  end.

End Catalogue.

Create HintDb more_tools.
#[global] Hint Unfold
  create_account create_account_body list_account_transactions
  list_account_transactions_body list_transactions list_transactions_body
  create_transfer create_transfer_body list_transactions_for_period
  list_transactions_for_period_body list_transactions_without_budget
  list_transactions_without_budget_body net_flow_summary net_flow_summary_body
  search_all search_all_body create_rule create_rule_body firefly_raw_request
  firefly_raw_request_body : more_tools.


(** The transactions a filter keeps, given what its condition gave for
    each. *)
Fixpoint kept (txns : list pyval) (flags : list bool) : list pyval :=
  match txns, flags with
  | txn :: txns, flag :: flags =>
      if flag then txn :: kept txns flags else kept txns flags
  | _, _ => []
  end.

(** The rows of a table, one after the other. *)
Fixpoint join_rows (rows : list string) : string :=
  match rows with
  | [] => ""
  | row :: rest => row ++ join_rows rest
  end.

(** ** Stub environments

    Concrete files, backends and library stand-ins, on which the tools are
    run in the examples below. *)

(** A secrets file with both fields: the base address has trailing slashes. *)
Definition good_secrets : pyval :=
  VDict (<["firefly" :=
             VDict (<["base_url" := VStr "https://money.example.org//"]>
                      (<["token" := VStr "s3cret"]> ∅))]> ∅).

(** A secrets file whose base address is present and empty. *)
Definition empty_url_secrets : pyval :=
  VDict (<["firefly" :=
             VDict (<["base_url" := VStr ""]> (<["token" := VStr "s3cret"]> ∅))]> ∅).

(** [float] on what the stub backends return: a float is itself, anything
    else is refused. *)
Definition stub_float (v : pyval) : outcome float :=
  match v with
  | VFloat f => Ret f
  | _ => Raise (PyException "TypeError" "float() argument must be a string or a real number")
  end.

(** An environment with the given secrets file and backend; the library
    stand-ins parse nothing and print placeholders. *)
Definition stub_env (file : nat -> file_result)
    (answer : list call -> call -> outcome pyval) : env :=
  {| secrets_file := file;
     backend := answer;
     json_loads := fun _ => None;
     json_dumps := fun _ => Ret "{}";
     py_repr := fun _ => "<object>";
     py_int := fun _ => Raise (ValueError "invalid literal for int() with base 10");
     py_float := stub_float;
     format_float := fun _ _ => "#.##";
     now_year := 2024; now_month := 3; now_day := 15 |}.

(** The usual stub: a complete secrets file and a backend that answers
    every call with [None]. *)
Definition quiet_env : env :=
  stub_env (fun _ => Loaded good_secrets) (fun _ _ => Ret VNone).

(** No secrets file at all. *)
Definition unconfigured_env : env :=
  stub_env (fun _ => FileNotFound) (fun _ _ => Ret VNone).

(** The client [get_api_client] builds from [good_secrets]. *)
Definition good_client : ApiClient :=
  {| configuration :=
       {| host := "https://money.example.org/api"; access_token := VStr "s3cret" |} |}.

(** The secrets file is missing at the first reading and complete from
    the second on. *)
Definition late_env : env :=
  stub_env (fun n => match n with 0 => FileNotFound | _ => Loaded good_secrets end)
           (fun _ _ => Ret VNone).

(** The secrets file holds an empty base address. *)
Definition empty_url_env : env :=
  stub_env (fun _ => Loaded empty_url_secrets) (fun _ _ => Ret VNone).



(** The state of a process that has acquired [good_client] and issued no
    call yet. *)
Definition ready_state : state :=
  {| _api_client := Some good_client;
     _configuration := Some (configuration good_client);
     calls := []; config_reads := 1; clients_built := 1 |}.


(** Number formatting on the few values of the examples. *)
Definition stub_format (digits : nat) (f : float) : string :=
  let whole :=
    if (f =? 0)%float then "0"
    else if (f =? 25)%float then "25"
    else if (f =? 75)%float then "75"
    else if (f =? 100)%float then "100"
    else if (f =? -5)%float then "-5"
    else "?" in
  whole ++ match digits with 1 => ".0" | 2 => ".00" | _ => "" end.

(** A withdrawal as the backend lists it: one split with an amount, a
    category and a source account. *)
Definition listed_withdrawal (amount : float) (category : string) : pyval :=
  VObj "TransactionRead"
    (<["attributes" :=
         VObj "Transaction"
           (<["transactions" :=
                VList [VObj "TransactionSplit"
                         (<["amount" := VFloat amount]>
                            (<["category_name" := VStr category]>
                               (<["budget_name" := VNone]>
                                  (<["source_name" := VStr "Checking"]> ∅))))]]> ∅)]> ∅).

Definition transaction_array (transactions : list pyval) : pyval :=
  VObj "TransactionArray" (<["data" := VList transactions]> ∅).

(** A backend that lists the given transactions, whatever is asked. *)
Definition listing_env (transactions : list pyval) : env :=
  {| secrets_file := fun _ => Loaded good_secrets;
     backend := fun _ _ => Ret (transaction_array transactions);
     json_loads := fun _ => None;
     json_dumps := fun _ => Ret "{}";
     py_repr := fun _ => "<object>";
     py_int := fun _ => Raise (ValueError "invalid literal for int() with base 10");
     py_float := stub_float;
     format_float := stub_format;
     now_year := 2024; now_month := 3; now_day := 15 |}.

(** Three withdrawals of March, in two categories. *)
Definition march_withdrawals : list pyval :=
  [listed_withdrawal 15 "Food"; listed_withdrawal 75 "Rent"; listed_withdrawal 10 "Food"].

Definition march_entries : list (option string * float) :=
  [(Some "Food", 15%float); (Some "Rent", 75%float); (Some "Food", 10%float)].

(** One withdrawal with a negative amount. *)
Definition refund_only : list pyval := [listed_withdrawal (-5) "Refunds"].


(** ** Further stub environments *)

(** The year as four digits. *)
Definition four_digits (year : nat) : string := pad4 year.

(** Plain addition from left to right, as [sum] did before compensated
    summation. *)
Definition plain_sum (amounts : list float) : float :=
  fold_left PrimFloat.add amounts 0%float.

(** [int] on a run of decimal digits; anything else is refused. *)
Fixpoint digits_value (s : string) (acc : Z) : Z :=
  match s with
  | EmptyString => acc
  | String c r => digits_value r (10 * acc + Z.of_nat (nat_of_ascii c - 48))
  end.

Definition decimal_int (s : string) : outcome Z :=
  if Py.isdigit s then Ret (digits_value s 0)
  else Raise (ValueError ("invalid literal for int() with base 10: '" ++ s ++ "'")).

(** A complete secrets file, a backend that answers every call with
    [None], and [int] on decimal digits. *)
Definition decimal_env : env :=
  {| secrets_file := fun _ => Loaded good_secrets;
     backend := fun _ _ => Ret VNone;
     json_loads := fun _ => None;
     json_dumps := fun _ => Ret "{}";
     py_repr := fun _ => "<object>";
     py_int := decimal_int;
     py_float := stub_float;
     format_float := stub_format;
     now_year := 2024; now_month := 3; now_day := 15 |}.

(** A withdrawal as the backend lists it, with what the tables show. *)
Definition listed_expense (id description : string) (amount : float) (budget_name : pyval)
    : pyval :=
  VObj "TransactionRead"
    (<["id" := VStr id]>
       (<["attributes" :=
            VObj "Transaction"
              (<["transactions" :=
                   VList [VObj "TransactionSplit"
                            (<["var_date" := VStr "2024-03-02"]>
                               (<["description" := VStr description]>
                                  (<["amount" := VFloat amount]>
                                     (<["currency_code" := VStr "EUR"]>
                                        (<["type" := VStr "withdrawal"]>
                                           (<["budget_name" := budget_name]> ∅))))))]]>
                 ∅)]> ∅)).

(** Two withdrawals of March: the first in a budget, the second in none. *)
Definition march_expenses : list pyval :=
  [listed_expense "11" "Groceries" 25 (VStr "Food"); listed_expense "12" "Cinema" 75 VNone].



(** * Properties *)

(** ** Strings *)

Lemma rstrip_with_empty (p : ascii -> bool) (s : string) :
  Py.rstrip_with p s = "" <-> Py.all_chars p s = true.
Proof.
  induction s as [|c r IH]; cbn; [tauto|].
  destruct (Py.rstrip_with p r) eqn:Hr.
  - destruct (p c); cbn.
    + split; [intros _; apply IH; reflexivity | reflexivity].
    + split; discriminate.
  - split; [discriminate|].
    intros H. apply andb_true_iff in H as [_ H]. apply IH in H. discriminate.
Qed.

Lemma lstrip_with_empty (p : ascii -> bool) (s : string) :
  Py.lstrip_with p s = "" <-> Py.all_chars p s = true.
Proof.
  induction s as [|c r IH]; cbn; [tauto|].
  destruct (p c); cbn; [exact IH|]. split; discriminate.
Qed.

Lemma all_chars_rstrip (p : ascii -> bool) (s : string) :
  Py.all_chars p (Py.rstrip_with p s) = Py.all_chars p s.
Proof.
  induction s as [|c r IH]; cbn; [reflexivity|].
  destruct (Py.rstrip_with p r) eqn:Hr.
  - assert (Hall : Py.all_chars p r = true) by (apply rstrip_with_empty; exact Hr).
    rewrite Hall. destruct (p c) eqn:Hc; cbn; rewrite ?Hc; reflexivity.
  - cbn in *. rewrite IH. reflexivity.
Qed.

(** [not s.strip()] holds exactly for the blank strings. *)
Lemma strip_nonempty (s : string) :
  Py.nonempty (Py.strip s) = negb (Py.blank s).
Proof.
  unfold Py.strip, Py.blank.
  destruct (Py.lstrip_with Py.isspace (Py.rstrip_with Py.isspace s)) eqn:H; cbn.
  - apply lstrip_with_empty in H. rewrite all_chars_rstrip in H. rewrite H. reflexivity.
  - destruct (Py.all_chars Py.isspace s) eqn:Hall; [|reflexivity].
    rewrite <- all_chars_rstrip in Hall. apply lstrip_with_empty in Hall.
    rewrite Hall in H. discriminate.
Qed.

Lemma strip_blank (s : string) : Py.blank s = true -> Py.nonempty (Py.strip s) = false.
Proof. intros H. rewrite strip_nonempty, H. reflexivity. Qed.


Lemma nonempty_true (s : string) : Py.nonempty s = true <-> s <> "".
Proof. destruct s; cbn; split; congruence. Qed.

Lemma append_nil_l (s : string) : "" ++ s = s.
Proof. reflexivity. Qed.

Lemma append_cons (c : ascii) (s t : string) : String c s ++ t = String c (s ++ t).
Proof. reflexivity. Qed.

Lemma append_assoc (a b c : string) : a ++ (b ++ c) = (a ++ b) ++ c.
Proof. induction a as [|x a IH]; [reflexivity|]. rewrite !append_cons, IH. reflexivity. Qed.

Lemma endswith_refl (s : string) : Py.endswith s s = true.
Proof. destruct s; cbn; [reflexivity|]. rewrite Ascii.eqb_refl, String.eqb_refl. reflexivity. Qed.

Lemma endswith_app (s suffix : string) : Py.endswith (s ++ suffix) suffix = true.
Proof.
  induction s as [|c r IH]; [apply endswith_refl|].
  rewrite append_cons. cbn [Py.endswith]. rewrite IH. apply orb_true_r.
Qed.

(** A string ends with [c] exactly when [c] is its last character. *)
Lemma endswith_char (s : string) (c : ascii) :
  Py.endswith s (String c "") = true <-> exists r, s = r ++ String c "".
Proof.
  induction s as [|d r IH]; cbn [Py.endswith].
  - cbn. split; [discriminate|]. intros [[|? ?] H]; discriminate.
  - rewrite orb_true_iff, IH. split.
    + intros [H | [r' ->]].
      * apply String.eqb_eq in H. exists "". exact H.
      * exists (String d r'). reflexivity.
    + intros [[|e r'] H].
      * rewrite append_nil_l in H. left. rewrite H. apply String.eqb_refl.
      * rewrite append_cons in H. injection H as -> ->. right. eexists. reflexivity.
Qed.

Lemma rstrip_with_last (p : ascii -> bool) (s r : string) (c : ascii) :
  Py.rstrip_with p s = r ++ String c "" -> p c = false.
Proof.
  revert r. induction s as [|d t IH]; intros r; cbn [Py.rstrip_with].
  - destruct r; discriminate.
  - destruct (Py.rstrip_with p t) eqn:Ht.
    + destruct (p d) eqn:Hd.
      * destruct r; discriminate.
      * destruct r as [|e r'].
        -- rewrite append_nil_l. intros H. injection H as ->. exact Hd.
        -- rewrite append_cons. intros H. injection H as _ H. destruct r'; discriminate.
    + destruct r as [|e r'].
      * rewrite append_nil_l. discriminate.
      * rewrite append_cons. intros H. injection H as _ H. eapply IH. exact H.
Qed.

(** [rstrip] removes a run of stripped characters from the end, and
    nothing else. *)
Lemma rstrip_with_app (p : ascii -> bool) (s : string) :
  exists t, s = Py.rstrip_with p s ++ t /\ Py.all_chars p t = true.
Proof.
  induction s as [|c r (t & Ht & Hall)]; cbn [Py.rstrip_with].
  - exists "". split; reflexivity.
  - destruct (Py.rstrip_with p r) eqn:Hr.
    + rewrite append_nil_l in Ht. subst t. destruct (p c) eqn:Hc.
      * exists (String c r). split; [reflexivity|]. cbn. rewrite Hc. exact Hall.
      * exists r. split; [reflexivity | exact Hall].
    + exists t. rewrite append_cons. split; [congruence | exact Hall].
Qed.

Lemma append_last_eq (a b : string) (c d : ascii) :
  a ++ String c "" = b ++ String d "" -> c = d.
Proof.
  revert b. induction a as [|x a IH]; intros [|y b]; rewrite ?append_nil_l, ?append_cons.
  - congruence.
  - intros H. injection H as _ H. destruct b; discriminate.
  - intros H. injection H as _ H. destruct a; discriminate.
  - intros H. injection H as _ H. eapply IH. exact H.
Qed.

Lemma api_host_endswith (base_url : string) :
  Py.endswith (api_host base_url) "/api" = true.
Proof.
  unfold api_host. destruct (Py.endswith (Py.rstrip_slash base_url) "/api") eqn:H; cbn [negb].
  - exact H.
  - apply endswith_app.
Qed.

Lemma api_host_no_trailing_slash (base_url : string) :
  Py.endswith (api_host base_url) "/" = false.
Proof.
  destruct (Py.endswith (api_host base_url) "/") eqn:H; [|reflexivity].
  apply endswith_char in H as [r Hr]. exfalso.
  unfold api_host in Hr.
  destruct (Py.endswith (Py.rstrip_slash base_url) "/api"); cbn [negb] in Hr.
  - apply rstrip_with_last in Hr. discriminate.
  - change "/api" with ("/ap" ++ "i") in Hr.
    rewrite append_assoc in Hr. apply append_last_eq in Hr. discriminate.
Qed.


(** ** The client manager *)

(** Case analysis on an innermost scrutinee of the goal. *)
Ltac break_match :=
  match goal with
  | |- context [match ?x with _ => _ end] =>
      lazymatch x with
      | context [match _ with _ => _ end] => fail
      | _ => destruct x eqn:?
      end
  end.

(** [load_config] never raises: it reads the file once and returns a value. *)
Lemma load_config_returns (E : env) (st : state) :
  exists v, load_config E st = (Ret v, count_read st).
Proof.
  unfold load_config, try_except, bind, read_secrets, ret.
  destruct (secrets_file E (config_reads st)) as [| text | secrets]; cbn; eauto.
  destruct secrets; cbn; eauto.
Qed.

(** The section it returns, read off the file. *)
Lemma load_config_file (E : env) (st : state) (secrets : gmap string pyval) :
  secrets_file E (config_reads st) = Loaded (VDict secrets) ->
  load_config E st =
    (Ret (match secrets !! "firefly" with Some v => v | None => VDict ∅ end), count_read st).
Proof.
  intros H. unfold load_config, try_except, bind, read_secrets, ret. rewrite H. reflexivity.
Qed.

Lemma load_config_no_file (E : env) (st : state) :
  secrets_file E (config_reads st) = FileNotFound ->
  load_config E st = (Ret (VDict ∅), count_read st).
Proof.
  intros H. unfold load_config, try_except, bind, read_secrets, ret. rewrite H. reflexivity.
Qed.

(** Once the client exists, [get_api_client] returns it and changes nothing. *)
Lemma get_api_client_cached (E : env) (st : state) (client : ApiClient) :
  _api_client st = Some client -> get_api_client E st = (Ret client, st).
Proof. intros H. unfold get_api_client. rewrite H. reflexivity. Qed.

(** What a call of [get_api_client] leaves behind. *)
Lemma get_api_client_effect (E : env) (st : state) :
  let r := get_api_client E st in
  calls (snd r) = calls st /\
  match fst r with
  | Ret client =>
      _api_client (snd r) = Some client /\
      (_api_client st = Some client /\ snd r = st \/
       _api_client st = None /\ clients_built (snd r) = S (clients_built st)
         /\ config_reads (snd r) = S (config_reads st))
  | Raise _ =>
      _api_client st = None /\ _api_client (snd r) = None
      /\ clients_built (snd r) = clients_built st
      /\ config_reads (snd r) = S (config_reads st)
  end.
Proof.
  unfold get_api_client. destruct (_api_client st) as [client|] eqn:Hc; cbn.
  - rewrite Hc. auto.
  - destruct (load_config_returns E st) as [v Hv].
    unfold bind. rewrite Hv.
    unfold dict_get, dict_item, str_rstrip_slash, store_client, raise, ret.
    destruct v; cbn; rewrite ?Hc; auto.
    repeat (break_match; cbn; rewrite ?Hc; auto 10).
Qed.

Lemma get_api_client_calls (E : env) (st : state) :
  calls (snd (get_api_client E st)) = calls st.
Proof. apply get_api_client_effect. Qed.

Lemma get_api_client_stored (E : env) (st st1 : state) (client : ApiClient) :
  get_api_client E st = (Ret client, st1) -> _api_client st1 = Some client.
Proof.
  intros H. pose proof (get_api_client_effect E st) as [_ He].
  rewrite H in He. cbn in He. apply He.
Qed.


(** C5 (as amended). On a call that finds no client yet, [get_api_client]
    raises the configuration error when [base_url] or [token] is absent
    from the configuration or is the empty string, and when both are
    non-empty strings it builds the client, stores it and returns it: its
    host is the base address without its trailing slashes, with [/api]
    appended unless it already ends with it, and its token is the
    configured one. *)
Theorem get_api_client_first_call (E : env) (st st1 : state)
    (config : gmap string pyval) :
  _api_client st = None ->
  load_config E st = (Ret (VDict config), st1) ->
  ((config !! "base_url" = None \/ config !! "base_url" = Some (VStr "")
    \/ config !! "token" = None \/ config !! "token" = Some (VStr "")) ->
   get_api_client E st = (Raise missing_config, st1))
  /\
  (forall base_url token : string,
     config !! "base_url" = Some (VStr base_url) -> base_url <> "" ->
     config !! "token" = Some (VStr token) -> token <> "" ->
     let cfg := {| host := api_host base_url; access_token := VStr token |} in
     let client := {| configuration := cfg |} in
     get_api_client E st =
       (Ret client,
        {| _api_client := Some client; _configuration := Some cfg;
           calls := calls st1; config_reads := config_reads st1;
           clients_built := S (clients_built st1) |})
     /\ Py.endswith (host cfg) "/api" = true
     /\ Py.endswith (host cfg) "/" = false
     /\ (Py.endswith (Py.rstrip_slash base_url) "/api" = true ->
         host cfg = Py.rstrip_slash base_url)
     /\ (Py.endswith (Py.rstrip_slash base_url) "/api" = false ->
         host cfg = Py.rstrip_slash base_url ++ "/api")
     /\ exists slashes,
          base_url = Py.rstrip_slash base_url ++ slashes
          /\ Py.all_chars Py.is_slash slashes = true).
Proof.
  intros Hnone Hload. split.
  - intros Hmissing. unfold get_api_client. rewrite Hnone.
    unfold bind. rewrite Hload. cbn [dict_get ret].
    destruct (config !! "base_url") as [b|] eqn:Hb; cbn [truthy negb raise].
    + destruct (truthy b) eqn:Htb; cbn [negb]; [|reflexivity].
      destruct Hmissing as [H | [H | [H | H]]].
      * discriminate.
      * injection H as ->. discriminate.
      * rewrite H. reflexivity.
      * rewrite H. reflexivity.
    + reflexivity.
  - intros base_url token Hb Hbne Ht Htne cfg client. repeat split.
    + unfold get_api_client. rewrite Hnone.
      unfold bind. rewrite Hload. cbn [dict_get dict_item ret].
      rewrite Hb, Ht. cbn [truthy negb str_rstrip_slash ret store_client].
      apply nonempty_true in Hbne, Htne. rewrite Hbne, Htne. cbn [negb]. reflexivity.
    + apply api_host_endswith.
    + apply api_host_no_trailing_slash.
    + intros H. cbn. unfold api_host. rewrite H. reflexivity.
    + intros H. cbn. unfold api_host. rewrite H. reflexivity.
    + apply rstrip_with_app.
Qed.

Lemma get_api_client_first_call_witness :
  _api_client initial_state = None /\
  fst (get_api_client quiet_env initial_state) = Ret good_client /\
  Py.endswith (host (configuration good_client)) "/api" = true.
Proof.
  pose proof (get_api_client_first_call quiet_env initial_state (count_read initial_state)
                (<["base_url" := VStr "https://money.example.org//"]>
                   (<["token" := VStr "s3cret"]> ∅))
                eq_refl eq_refl) as [_ H].
  specialize (H "https://money.example.org//" "s3cret" eq_refl ltac:(discriminate)
                eq_refl ltac:(discriminate)).
  destruct H as (Hrun & Hends & _).
  split; [reflexivity|]. split.
  - rewrite Hrun. reflexivity.
  - exact Hends.
Defined.

(** C5, the claim as it stands: with both fields present in the file, the
    base address being the empty string, no handle is constructed. *)
Lemma get_api_client_empty_base_url :
  load_config empty_url_env initial_state =
    (Ret (VDict (<["base_url" := VStr ""]> (<["token" := VStr "s3cret"]> ∅))),
     count_read initial_state)
  /\ get_api_client empty_url_env initial_state =
       (Raise missing_config, count_read initial_state).
Proof. split; reflexivity. Qed.

(** Without a secrets file the first call raises the configuration error. *)
Lemma get_api_client_no_file (E : env) (st : state) :
  _api_client st = None ->
  secrets_file E (config_reads st) = FileNotFound ->
  get_api_client E st = (Raise missing_config, count_read st).
Proof.
  intros Hnone Hfile. unfold get_api_client. rewrite Hnone.
  unfold bind at 1. rewrite (load_config_no_file E st Hfile). reflexivity.
Qed.

Lemma acquire_times_cached (E : env) (st : state) (client : ApiClient) (n : nat) :
  _api_client st = Some client ->
  acquire_times n E st = (replicate n (Ret client), st).
Proof.
  intros H. induction n as [|k IH]; cbn; [reflexivity|].
  rewrite (get_api_client_cached E st client H). cbn. rewrite IH. reflexivity.
Qed.

(** C6 (as amended). Over any number of calls of [get_api_client] one
    after the other, from any state: a client is constructed at most once;
    once a call has returned a handle, every later call returns that same
    handle; the secrets file is read by the calls up to the first one that
    returns a handle and by none after it; and when the handle exists
    beforehand, every call returns it and the state does not change. *)
Theorem acquire_client_once (E : env) (st : state) (n : nat) :
  let results := fst (acquire_times n E st) in
  let st' := snd (acquire_times n E st) in
  (clients_built st' <= S (clients_built st))%nat
  /\ (forall i j client, (i <= j < n)%nat ->
        results !! i = Some (Ret client) -> results !! j = Some (Ret client))
  /\ (forall i client,
        results !! i = Some (Ret client) ->
        (config_reads st' <= config_reads st + S i)%nat)
  /\ (forall client,
        _api_client st = Some client ->
        results = replicate n (Ret client) /\ st' = st).
Proof.
  revert st. induction n as [|k IH]; intros st; cbn zeta.
  - cbn. repeat split; try lia; try discriminate; intros; lia.
  - cbn [acquire_times fst snd].
    pose proof (get_api_client_effect E st) as [_ Heff]. cbn zeta in Heff.
    destruct (get_api_client E st) as [[client|e] st1] eqn:Hrun; cbn [fst snd] in *.
    + destruct Heff as [Hstored Hcase].
      rewrite (acquire_times_cached E st1 client k Hstored). cbn [fst snd].
      assert (Hall : forall j c, (Ret client :: replicate k (Ret client)) !! j = Some c ->
                                 c = Ret client).
      { intros [|j] c; cbn; [congruence|].
        intros H. apply lookup_replicate in H as [-> _]. reflexivity. }
      repeat split.
      * destruct Hcase as [[_ ->] | (_ & -> & _)]; lia.
      * intros i j c [Hij Hj] Hi. apply Hall in Hi. injection Hi as ->.
        destruct j as [|j]; [reflexivity|]. cbn.
        apply lookup_replicate. split; [reflexivity | lia].
      * intros i c _. destruct Hcase as [[_ ->] | (_ & _ & ->)]; lia.
      * destruct Hcase as [[Hx ->] | (Hx & _)]; cbn; congruence.
      * destruct Hcase as [[Hx ->] | (Hx & _)]; cbn; congruence.
    + destruct Heff as (Hnone & Hnone1 & Hbuilt & Hreads).
      specialize (IH st1) as (IHb & IHm & IHr & _).
      repeat split.
      * lia.
      * intros [|i] [|j] c [Hij Hj]; cbn; try discriminate; try lia.
        apply IHm. lia.
      * intros [|i] c; cbn; [discriminate|].
        intros H. apply IHr in H. lia.
      * congruence.
      * congruence.
Qed.

(** C6, the claim as it stands: the first call fails for want of a secrets
    file, the second one reads the configuration again and only then
    constructs the handle. *)
Lemma acquire_after_failure_reads_again :
  acquire_times 2 late_env initial_state =
    ([Raise missing_config; Ret good_client],
     {| _api_client := Some good_client;
        _configuration := Some (configuration good_client);
        calls := []; config_reads := 2; clients_built := 1 |}).
Proof. reflexivity. Qed.


(** ** The tool boundary *)

(** Every rendered error starts with the marker. *)
Lemma format_error_marker (E : env) (e : exn) :
  String.prefix error_marker (format_error E e) = true.
Proof.
  destruct e as [status reason body text | cls text]; unfold format_error.
  - destruct (json_loads E body) as [[]|]; reflexivity.
  - reflexivity.
Qed.

(** A guarded block returns what the block returns, and the rendered
    error when the block raises. *)
Lemma try_except_on_error (body : M string) (E : env) (st : state) :
  try_except body on_error E st =
    (Ret (match fst (body E st) with
          | Ret s => s
          | Raise e => format_error E e
          end),
     snd (body E st)).
Proof. unfold try_except, on_error. destruct (body E st) as [[s|e] st']; reflexivity. Qed.



(** Two ways for the block of [list_accounts] to raise: no configuration,
    and a backend that answers with an API exception. *)
Example list_accounts_unconfigured :
  list_accounts "" "" unconfigured_env initial_state =
    (Ret "❌ Error: Missing base_url or token in ~/.config/mcp-secrets.json",
     count_read initial_state).
Proof. reflexivity. Qed.

Example list_accounts_api_error :
  fst (list_accounts "asset" ""
         (stub_env (fun _ => Loaded good_secrets)
            (fun _ _ => Raise (ApiException (VInt 401) (VStr "Unauthorized") VNone "")))
         initial_state)
  = Ret "❌ API Error (401): Unauthorized".
Proof. vm_compute. reflexivity. Qed.

(** ** Required parameters *)






(** ** Destructive tools *)

(** Every warning starts with the warning sign. *)
Lemma warning_marker (t : tool) (c : confirmation) :
  confirmation_of t = Some c -> String.prefix "⚠️" (warning_of t) = true.
Proof. destruct t; cbn; intros H; try discriminate H; reflexivity. Qed.





(** ** Running a computation step by step *)

Lemma snd_bind {A B} (m : M A) (k : A -> M B) (E : env) (st : state) :
  snd (bind m k E st) =
    match fst (m E st) with
    | Ret a => snd (k a E (snd (m E st)))
    | Raise _ => snd (m E st)
    end.
Proof. unfold bind. destruct (m E st) as [[a|e] st']; reflexivity. Qed.

Lemma snd_bind_stateless {A B} (m : M A) (k : A -> M B) (E : env) (st : state) :
  (forall a, stateless (k a)) -> snd (bind m k E st) = snd (m E st).
Proof.
  intros Hk. rewrite snd_bind. destruct (m E st) as [[a|e] st']; cbn; [apply Hk | reflexivity].
Qed.


Lemma stateless_ret {A} (a : A) : stateless (ret a).
Proof. intros E st. reflexivity. Qed.

Lemma stateless_raise {A} (e : exn) : stateless (@raise A e).
Proof. intros E st. reflexivity. Qed.

Lemma stateless_ask : stateless ask.
Proof. intros E st. reflexivity. Qed.

Lemma stateless_bind {A B} (m : M A) (k : A -> M B) :
  stateless m -> (forall a, stateless (k a)) -> stateless (bind m k).
Proof.
  intros Hm Hk E st. rewrite snd_bind. specialize (Hm E st).
  destruct (m E st) as [[a|e] st']; cbn in *; [rewrite Hk|]; exact Hm.
Qed.

Lemma stateless_getattr (v : pyval) (name : string) : stateless (getattr v name).
Proof.
  intros E st. destruct v as [| | | | | | |cls attrs]; try reflexivity.
  cbn. destruct (attrs !! name); reflexivity.
Qed.

Lemma stateless_getattrs (v : pyval) (path : list string) : stateless (getattrs v path).
Proof.
  revert v. induction path as [|name rest IH]; intros v; cbn.
  - apply stateless_ret.
  - apply stateless_bind; [apply stateless_getattr | intros a; apply IH].
Qed.

Lemma stateless_first_item (v : pyval) : stateless (first_item v).
Proof. intros E st. destruct v as [| | | | [|] | [|] | |]; reflexivity. Qed.

Lemma stateless_format_amount (v : pyval) : stateless (format_amount v).
Proof.
  intros E st. unfold format_amount.
  destruct (py_float E v) as [f|[|cls text]]; try reflexivity.
  destruct (String.eqb cls "ValueError" || String.eqb cls "TypeError"); reflexivity.
Qed.

Lemma stateless_on_error (e : exn) : stateless (on_error e).
Proof. intros E st. reflexivity. Qed.

#[global] Hint Resolve stateless_ret stateless_raise stateless_ask stateless_bind
  stateless_getattr stateless_getattrs stateless_first_item stateless_format_amount
  stateless_on_error : stateless.

(** The state a guarded block leaves is the state its body leaves. *)
Lemma snd_try_except_on_error (body : M string) (E : env) (st : state) :
  snd (try_except body on_error E st) = snd (body E st).
Proof. rewrite try_except_on_error. reflexivity. Qed.



(** ** Update tools *)













(** ** Request dicts *)










(** ** Creating transactions: routing of references *)














(** Digits only go to the ID key, a name goes to the name key. *)
Example routing_examples :
  withdrawal_split "Lunch" "12.50" "1" "42" "2024-03-02" "" "Food" "" ""
    !! "destination_id" = Some (VStr "42")
  /\ withdrawal_split "Lunch" "12.50" "1" "Corner shop" "2024-03-02" "" "Food" "" ""
       !! "destination_name" = Some (VStr "Corner shop")
  /\ withdrawal_split "Lunch" "12.50" "1" "Corner shop" "2024-03-02" "" "Food" "" ""
       !! "budget_name" = Some (VStr "Food")
  /\ withdrawal_split "Lunch" "12.50" "1" "Corner shop" "2024-03-02" "" "" "" ""
       !! "budget_name" = None.
Proof. repeat split; vm_compute; reflexivity. Qed.

(** ** The default destination of a withdrawal *)




(** ** Summaries *)

Lemma float_sum_snoc (amounts : list float) (a : float) :
  float_sum (amounts ++ [a]) = (float_sum amounts + a)%float.
Proof. unfold float_sum. rewrite fold_left_app. reflexivity. Qed.

Lemma float_sum_snoc_if (amounts : list float) (c : Prop) `{Decision c} (a : float) :
  float_sum (amounts ++ (if decide c then [a] else []))
  = if decide c then (float_sum amounts + a)%float else float_sum amounts.
Proof. destruct (decide c); [apply float_sum_snoc | rewrite app_nil_r; reflexivity]. Qed.

Lemma amounts_of_snoc (key : option string) (entries : list (option string * float))
    (entry : option string * float) :
  amounts_of key (entries ++ [entry])
  = (amounts_of key entries ++ (if decide (fst entry = key) then [snd entry] else []))%list.
Proof.
  unfold amounts_of. rewrite filter_app, map_app. apply (f_equal (app _)).
  rewrite filter_cons, filter_nil. destruct (decide (fst entry = key)); reflexivity.
Qed.

Lemma amounts_of_absent (key : option string) (entries : list (option string * float)) :
  ~ In key (map fst entries) -> amounts_of key entries = [].
Proof.
  induction entries as [|e rest IH]; [reflexivity|].
  intros H. cbn [map In] in H. unfold amounts_of in *. rewrite filter_cons.
  destruct (decide (fst e = key)) as [Heq|Hne]; [tauto|]. apply IH. tauto.
Qed.

Lemma aggregate_snoc (entries : list (option string * float))
    (entry : option string * float) :
  aggregate (entries ++ [entry]) = add_entry (aggregate entries) entry.
Proof. unfold aggregate. rewrite fold_left_app. reflexivity. Qed.

(** The keys after one turn: the key is appended when it is new. *)
Lemma add_to_group_keys (key : option string) (amount : float)
    (grouped : list (option string * float)) :
  map fst (add_to_group key amount grouped)
  = if bool_decide (key ∈ map fst grouped) then map fst grouped
    else (map fst grouped ++ [key])%list.
Proof.
  induction grouped as [|[k v] rest IH]; cbn [add_to_group map fst].
  - rewrite bool_decide_eq_false_2; [reflexivity | apply not_elem_of_nil].
  - destruct (decide (k = key)) as [->|Hne].
    + rewrite bool_decide_eq_true_2 by reflexivity. cbn [map fst].
      rewrite bool_decide_eq_true_2; [reflexivity | apply list_elem_of_here].
    + rewrite bool_decide_eq_false_2 by exact Hne. cbn [map fst]. rewrite IH.
      destruct (decide (key ∈ map fst rest)) as [Hin|Hnin].
      * rewrite !bool_decide_eq_true_2;
          [reflexivity | apply list_elem_of_further; exact Hin | exact Hin].
      * rewrite !bool_decide_eq_false_2; [reflexivity | | exact Hnin].
        intros H. apply elem_of_cons in H as [H|H]; [exact (Hne (eq_sym H)) | exact (Hnin H)].
Qed.

(** The sums after one turn, when no key occurs twice. *)
Lemma add_to_group_In (key : option string) (amount : float)
    (grouped : list (option string * float)) (k : option string) (v : float) :
  NoDup (map fst grouped) ->
  In (k, v) (add_to_group key amount grouped) <->
    (k <> key /\ In (k, v) grouped)
    \/ (k = key /\ exists v0, In (key, v0) grouped /\ v = (v0 + amount)%float)
    \/ (k = key /\ ~ In key (map fst grouped) /\ v = (0 + amount)%float).
Proof.
  induction grouped as [|[k0 v0] rest IH]; intros Hnd; cbn [add_to_group].
  - cbn. split.
    + intros [H|[]]. injection H as <- <-. right. right. auto.
    + intros [[_ []] | [(_ & v1 & [] & _) | (-> & _ & ->)]]. left. reflexivity.
  - cbn [map fst] in Hnd. apply NoDup_cons in Hnd as [Hk0 Hnd].
    rewrite list_elem_of_In in Hk0.
    destruct (decide (k0 = key)) as [->|Hne].
    + rewrite bool_decide_eq_true_2 by reflexivity. cbn [In]. split.
      * intros [H|H].
        -- injection H as <- <-. right. left. split; [reflexivity|].
           exists v0. split; [left; reflexivity | reflexivity].
        -- left. split; [|right; exact H].
           intros ->. apply Hk0. apply in_map_iff. exists (key, v). auto.
      * intros [[Hk [H|H]] | [(-> & v1 & [H|H] & ->) | (-> & Hnin & _)]].
        -- injection H as -> _. contradiction.
        -- right. exact H.
        -- injection H as <-. left. reflexivity.
        -- exfalso. apply Hk0. apply in_map_iff. exists (key, v1). auto.
        -- exfalso. apply Hnin. left. reflexivity.
    + rewrite bool_decide_eq_false_2 by exact Hne. cbn [In map fst]. rewrite (IH Hnd).
      split.
      * intros [H | [[Hk H] | [(-> & v1 & H & ->) | (-> & Hnin & ->)]]].
        -- injection H as <- <-. left. split; [exact Hne | left; reflexivity].
        -- left. split; [exact Hk | right; exact H].
        -- right. left. split; [reflexivity|]. exists v1. split; [right; exact H | reflexivity].
        -- right. right. split; [reflexivity|]. split; [|reflexivity].
           intros [H|H]; [exact (Hne H) | exact (Hnin H)].
      * intros [[Hk [H|H]] | [(-> & v1 & [H|H] & ->) | (-> & Hnin & ->)]].
        -- left. exact H.
        -- right. left. split; assumption.
        -- injection H as -> _. contradiction.
        -- right. right. left. split; [reflexivity|]. exists v1. split; [exact H | reflexivity].
        -- right. right. right. split; [reflexivity|]. split; [|reflexivity].
           intros H. apply Hnin. right. exact H.
Qed.

(** The groups of [aggregate]: one per key, each with the sum of the
    amounts of its entries, and the total of all amounts. *)
Lemma aggregate_spec (entries : list (option string * float)) :
  NoDup (map fst (fst (aggregate entries)))
  /\ (forall key, In key (map fst (fst (aggregate entries))) <-> In key (map fst entries))
  /\ (forall key v, In (key, v) (fst (aggregate entries)) ->
        v = float_sum (amounts_of key entries))
  /\ snd (aggregate entries) = float_sum (map snd entries).
Proof.
  induction entries as [|[k a] entries (Hnd & Hkeys & Hsum & Htotal)] using rev_ind.
  - cbn. repeat split; try tauto; try constructor.
  - rewrite aggregate_snoc. unfold add_entry. cbn [fst snd].
    assert (Hnd' : NoDup (map fst (add_to_group k a (fst (aggregate entries))))).
    { rewrite add_to_group_keys. case_bool_decide as Hin; [exact Hnd|].
      apply NoDup_app. split; [exact Hnd|]. split; [|apply NoDup_singleton].
      intros x Hx Hx'. apply list_elem_of_singleton in Hx'. subst x.
      exact (Hin Hx). }
    split; [exact Hnd'|]. split; [|split].
    + intros key. rewrite add_to_group_keys, map_app, in_app_iff. cbn [map fst In].
      case_bool_decide as Hin.
      * rewrite Hkeys. split; [tauto|]. intros [H|[<-|[]]]; [exact H|].
        apply Hkeys. apply list_elem_of_In. exact Hin.
      * rewrite in_app_iff, Hkeys. cbn [In]. tauto.
    + intros key v Hin. rewrite amounts_of_snoc, float_sum_snoc_if. cbn [fst snd].
      apply (add_to_group_In _ _ _ _ _ Hnd) in Hin
        as [[Hne Hin] | [(-> & v0 & Hin & ->) | (-> & Hnin & ->)]].
      * rewrite decide_False by congruence. apply Hsum. exact Hin.
      * rewrite decide_True by reflexivity. rewrite (Hsum _ _ Hin). reflexivity.
      * rewrite decide_True by reflexivity.
        rewrite amounts_of_absent; [reflexivity|]. rewrite <- Hkeys. exact Hnin.
    + rewrite Htotal, map_app. cbn [map snd]. rewrite float_sum_snoc. reflexivity.
Qed.


Lemma insert_desc_In (x y : option string * float) (l : list (option string * float)) :
  In y (insert_desc x l) <-> y = x \/ In y l.
Proof.
  induction l as [|z rest IH]; cbn [insert_desc].
  - cbn. intuition congruence.
  - destruct (snd x <? snd z)%float; cbn [In]; [rewrite IH|]; intuition congruence.
Qed.

(** Sorting reorders the groups and does nothing else. *)
Lemma sorted_desc_In (y : option string * float) (l : list (option string * float)) :
  In y (sorted_desc l) <-> In y l.
Proof.
  unfold sorted_desc. induction l as [|x rest IH]; cbn [fold_right]; [tauto|].
  rewrite insert_desc_In, IH. cbn. intuition congruence.
Qed.

Lemma summary_rows_In (grouped : list (option string * float)) (total : float)
    (key : option string) (amount pct : float) :
  In (key, amount, pct) (summary_rows grouped total) <->
  In (key, amount) grouped /\ pct = percent_of amount total.
Proof.
  unfold summary_rows. rewrite in_map_iff. split.
  - intros ([k v] & Heq & Hin). cbn in Heq. injection Heq as -> -> <-.
    apply (proj1 (sorted_desc_In _ _)) in Hin. split; [exact Hin | reflexivity].
  - intros [Hin ->]. exists (key, amount). split; [reflexivity|].
    apply sorted_desc_In. exact Hin.
Qed.

Lemma insert_desc_perm (x : option string * float) (l : list (option string * float)) :
  Permutation (insert_desc x l) (x :: l).
Proof.
  induction l as [|z rest IH]; cbn [insert_desc]; [reflexivity|].
  destruct (snd x <? snd z)%float; [|reflexivity].
  rewrite IH. apply perm_swap.
Qed.

Lemma sorted_desc_perm (l : list (option string * float)) : Permutation (sorted_desc l) l.
Proof.
  unfold sorted_desc. induction l as [|x rest IH]; cbn [fold_right]; [reflexivity|].
  rewrite insert_desc_perm, IH. reflexivity.
Qed.

(** The loop of the summaries over transactions that can all be read. *)
Lemma summary_loop (party group_by : string) (E : env)
    (txns : list pyval) (entries : list (option string * float)) :
  Forall2 (fun txn entry => forall s, read_entry party group_by txn E s = (Ret entry, s))
    txns entries ->
  forall acc st,
    foldM (summary_step party group_by) acc txns E st
    = (Ret (fold_left add_entry entries acc), st).
Proof.
  induction 1 as [|txn entry txns entries Hread _ IH]; intros acc st; [reflexivity|].
  cbn [foldM fold_left]. unfold bind at 1. unfold summary_step at 1.
  unfold bind at 1. rewrite Hread. cbn [ret]. apply IH.
Qed.

(** What a summary returns over transactions that can all be read, for a
    given period. *)
Lemma summary_body_run (transaction_type party title total_label : string)
    (start_date end_date group_by : string) (E : env) (st st1 : state)
    (client : ApiClient) (response : pyval) (txns : list pyval)
    (entries : list (option string * float)) :
  start_date <> "" -> end_date <> "" ->
  get_api_client E st = (Ret client, st1) ->
  backend E (calls st)
    (Call client "TransactionsApi" "list_transaction" []
       (<["start" := VStr start_date]>
          (<["end" := VStr end_date]> (<["type" := VStr transaction_type]> ∅))))
  = Ret response ->
  (forall s, getattr response "data" E s = (Ret (VList txns), s)) ->
  Forall2 (fun txn entry => forall s, read_entry party group_by txn E s = (Ret entry, s))
    txns entries ->
  fst (summary_body transaction_type party title total_label
         start_date end_date group_by E st)
  = Ret (render_summary E title total_label start_date end_date group_by
           (summary_rows (fst (aggregate entries)) (snd (aggregate entries)))
           (snd (aggregate entries))).
Proof.
  intros Hs He Hclient Hlist Hdata Hread.
  pose proof (get_api_client_calls E st) as Hcalls. rewrite Hclient in Hcalls.
  cbn [snd] in Hcalls.
  apply nonempty_true in Hs, He.
  unfold summary_body. rewrite Hs, He. cbn [negb orb].
  unfold bind at 1. cbn [ret fst snd].
  unfold bind at 1. rewrite Hclient.
  unfold bind at 1. unfold issue at 1. rewrite Hcalls, Hlist.
  unfold bind at 1. rewrite Hdata.
  unfold bind at 1. cbn [iterate ret].
  unfold bind at 1. rewrite (summary_loop party group_by E txns entries Hread).
  reflexivity.
Qed.

(** C7 (as amended). For [spending_summary] and [income_summary], called
    for a given period with a client that can be acquired, over any list
    of transactions the backend returns whose amounts and group keys can
    be read: the text returned is the table of one row per group and the
    total; the amount of a row is the sum of the amounts of the group's
    transactions, added in their order in double precision starting from
    zero, and the total is the sum of all amounts; the percentage of a
    row is [amount / total * 100] when the total is greater than zero, and
    zero whenever it is not (a total of zero, a negative total), so that
    no division by zero is made. *)
Theorem summaries_aggregate (kind : summary_kind) (start_date end_date group_by : string)
    (E : env) (st st1 : state) (client : ApiClient) (response : pyval)
    (txns : list pyval) (entries : list (option string * float)) :
  start_date <> "" -> end_date <> "" ->
  get_api_client E st = (Ret client, st1) ->
  backend E (calls st)
    (Call client "TransactionsApi" "list_transaction" []
       (<["start" := VStr start_date]>
          (<["end" := VStr end_date]> (<["type" := VStr (listed_type kind)]> ∅))))
  = Ret response ->
  (forall s, getattr response "data" E s = (Ret (VList txns), s)) ->
  Forall2 (fun txn entry =>
             forall s, read_entry (party_of kind) group_by txn E s = (Ret entry, s))
    txns entries ->
  let total := float_sum (map snd entries) in
  exists rows : list (option string * float * float),
    fst (summary_of kind start_date end_date group_by E st)
    = Ret (render_summary E (title_of kind) (total_label_of kind)
             start_date end_date group_by rows total)
    /\ (forall key amount pct,
          In (key, amount, pct) rows ->
          amount = float_sum (amounts_of key entries)
          /\ pct = (if (0 <? total)%float then (amount / total * 100)%float
                    else 0%float))
    /\ (forall key, In key (map fst entries) ->
          exists amount pct, In (key, amount, pct) rows)
    /\ NoDup (map (fun row => fst (fst row)) rows).
Proof.
  intros Hs He Hclient Hlist Hdata Hread total.
  destruct (aggregate_spec entries) as (Hnd & Hkeys & Hsum & Htotal).
  exists (summary_rows (fst (aggregate entries)) (snd (aggregate entries))).
  split; [|split; [|split]].
  - unfold total. rewrite <- Htotal.
    destruct kind; cbn [summary_of listed_type party_of title_of total_label_of] in *;
      [unfold spending_summary, spending_summary_body
      |unfold income_summary, income_summary_body];
      rewrite try_except_on_error;
      rewrite (summary_body_run _ _ _ _ _ _ _ E st st1 client response txns entries
                 Hs He Hclient Hlist Hdata Hread);
      reflexivity.
  - intros key amount pct Hin. apply summary_rows_In in Hin as [Hin ->].
    split; [apply Hsum; exact Hin|]. unfold total. rewrite <- Htotal. reflexivity.
  - intros key Hin. apply Hkeys in Hin. apply in_map_iff in Hin as ([k v] & Heq & Hin).
    cbn in Heq. subst k. exists v, (percent_of v (snd (aggregate entries))).
    apply summary_rows_In. auto.
  - unfold summary_rows. rewrite map_map. cbn [fst].
    rewrite sorted_desc_perm. exact Hnd.
Qed.

Lemma summaries_aggregate_witness :
  get_api_client (listing_env march_withdrawals) initial_state
  = (Ret good_client, ready_state)
  /\ exists rows,
       fst (spending_summary "2024-03-01" "2024-03-31" "category"
              (listing_env march_withdrawals) initial_state)
       = Ret (render_summary (listing_env march_withdrawals) "💸 Spending Summary"
                "**Total Spending:** " "2024-03-01" "2024-03-31" "category" rows
                (float_sum [15; 75; 10]%float))
       /\ (forall key amount pct,
             In (key, amount, pct) rows ->
             amount = float_sum (amounts_of key march_entries)
             /\ pct = (if (0 <? float_sum [15; 75; 10])%float
                       then (amount / float_sum [15; 75; 10] * 100)%float
                       else 0%float)).
Proof.
  split; [reflexivity|].
  assert (Hread : Forall2
            (fun txn entry =>
               forall s, read_entry (party_of Spending) "category" txn
                           (listing_env march_withdrawals) s = (Ret entry, s))
            march_withdrawals march_entries)
    by (repeat constructor; intros s; reflexivity).
  destruct (summaries_aggregate Spending "2024-03-01" "2024-03-31" "category"
              (listing_env march_withdrawals) initial_state ready_state good_client
              (transaction_array march_withdrawals) march_withdrawals march_entries
              ltac:(discriminate) ltac:(discriminate) eq_refl eq_refl
              (fun s => eq_refl) Hread)
    as (rows & Htext & Hrows & _).
  exists rows. split; [exact Htext | exact Hrows].
Defined.

(** The text of that summary: the groups by descending sum. *)
Example spending_summary_march :
  fst (spending_summary "2024-03-01" "2024-03-31" "category"
         (listing_env march_withdrawals) initial_state)
  = Ret ("💸 Spending Summary (2024-03-01 to 2024-03-31)" ++ nl
         ++ "Grouped by: Category" ++ nl ++ nl
         ++ "| Category | Amount | % of Total |" ++ nl
         ++ "|----------|--------|------------|" ++ nl
         ++ "| Rent | 75.00 | 75.0% |" ++ nl
         ++ "| Food | 25.00 | 25.0% |" ++ nl
         ++ nl ++ "**Total Spending:** 100.00").
Proof. vm_compute. reflexivity. Qed.

(** C7, the claim as it stands: over one withdrawal of -5 the total is -5,
    not zero, the group's share [-5 / -5 * 100] is 100, and the summary
    shows 0.0%. *)
Lemma negative_total_shows_zero :
  fst (spending_summary "2024-03-01" "2024-03-31" "category"
         (listing_env refund_only) initial_state)
  = Ret ("💸 Spending Summary (2024-03-01 to 2024-03-31)" ++ nl
         ++ "Grouped by: Category" ++ nl ++ nl
         ++ "| Category | Amount | % of Total |" ++ nl
         ++ "|----------|--------|------------|" ++ nl
         ++ "| Refunds | -5.00 | 0.0% |" ++ nl
         ++ nl ++ "**Total Spending:** -5.00")
  /\ summary_rows (fst (aggregate [(Some "Refunds", (-5)%float)]))
       (snd (aggregate [(Some "Refunds", (-5)%float)]))
     = [(Some "Refunds", (-5)%float, 0%float)]
  /\ ((-5) / (-5) * 100 =? 100)%float = true
  /\ ((-5) =? 0)%float = false.
Proof. repeat split; vm_compute; reflexivity. Qed.

(** ** What a tool call does to the process state *)

Lemma continues_refl (st : state) : continues st st.
Proof.
  split; [exists []; rewrite app_nil_r; reflexivity | intros client H; auto].
Qed.

Lemma continues_trans (st1 st2 st3 : state) :
  continues st1 st2 -> continues st2 st3 -> continues st1 st3.
Proof.
  intros [[l1 H1] K1] [[l2 H2] K2]. split.
  - exists (l1 ++ l2)%list. rewrite H2, H1, app_assoc. reflexivity.
  - intros client Hc. destruct (K1 client Hc) as (Ha & Hb & Hd & He).
    destruct (K2 client Ha) as (Ha' & Hb' & Hd' & He').
    repeat split; congruence.
Qed.

Lemma tame_stateless {A} (m : M A) : stateless m -> tame m.
Proof. intros H E st. rewrite H. apply continues_refl. Qed.

Lemma tame_bind {A B} (m : M A) (k : A -> M B) :
  tame m -> (forall a, tame (k a)) -> tame (bind m k).
Proof.
  intros Hm Hk E st. rewrite snd_bind. specialize (Hm E st).
  destruct (m E st) as [[a|e] st']; cbn [fst snd] in *; [|exact Hm].
  eapply continues_trans; [exact Hm | apply Hk].
Qed.

Lemma tame_try_except {A} (body : M A) (handler : exn -> M A) :
  tame body -> (forall e, tame (handler e)) -> tame (try_except body handler).
Proof.
  intros Hb Hh E st. unfold try_except. specialize (Hb E st).
  destruct (body E st) as [[a|e] st']; cbn [fst snd] in *; [exact Hb|].
  eapply continues_trans; [exact Hb | apply Hh].
Qed.

Lemma tame_issue (c : call) : tame (issue c).
Proof.
  intros E st. split; cbn.
  - exists [c]. reflexivity.
  - intros client H. auto.
Qed.

Lemma tame_get_api_client : tame get_api_client.
Proof.
  intros E st. split.
  - exists []. rewrite app_nil_r. apply get_api_client_calls.
  - intros client H. rewrite (get_api_client_cached E st client H). cbn. auto.
Qed.

Lemma tame_foldM {A} (f : A -> pyval -> M A) (acc : A) (l : list pyval) :
  (forall a x, tame (f a x)) -> tame (foldM f acc l).
Proof.
  intros Hf. revert acc. induction l as [|x r IH]; intros acc; cbn.
  - apply tame_stateless, stateless_ret.
  - apply tame_bind; [apply Hf | intros a; apply IH].
Qed.

Lemma tame_filterM (p : pyval -> M bool) (l : list pyval) :
  (forall x, tame (p x)) -> tame (filterM p l).
Proof.
  intros Hp. induction l as [|x r IH]; cbn.
  - apply tame_stateless, stateless_ret.
  - apply tame_bind; [apply Hp | intros keep].
    apply tame_bind; [exact IH | intros r']. apply tame_stateless, stateless_ret.
Qed.

(** A computation built from a value alone leaves the state as it is. *)
Ltac by_cases_stateless :=
  intros E st;
  repeat match goal with
         | |- context [match ?x with _ => _ end] =>
             lazymatch x with
             | context [match _ with _ => _ end] => fail
             | _ => destruct x
             end
         end;
  reflexivity.

Lemma stateless_py_len (v : pyval) : stateless (py_len v).
Proof. unfold py_len. by_cases_stateless. Qed.

Lemma stateless_slice_to (n : nat) (v : pyval) : stateless (slice_to n v).
Proof. unfold slice_to. by_cases_stateless. Qed.

Lemma stateless_iterate (v : pyval) : stateless (iterate v).
Proof. unfold iterate. by_cases_stateless. Qed.

Lemma stateless_str_lower (v : pyval) : stateless (str_lower v).
Proof. unfold str_lower. by_cases_stateless. Qed.

Lemma stateless_as_key (v : pyval) : stateless (as_key v).
Proof. unfold as_key. by_cases_stateless. Qed.

Lemma stateless_int_of (s : string) : stateless (int_of s).
Proof. intros E st. reflexivity. Qed.

Lemma stateless_float_of (v : pyval) : stateless (float_of v).
Proof. intros E st. reflexivity. Qed.

Lemma stateless_today : stateless today.
Proof. intros E st. reflexivity. Qed.

Lemma stateless_current_month : stateless current_month.
Proof. unfold current_month. by_cases_stateless. Qed.

Lemma stateless_page_number (page : string) : stateless (page_number page).
Proof.
  unfold page_number. destruct (Py.nonempty page); [|apply stateless_ret].
  apply stateless_bind; [apply stateless_int_of | intros n; apply stateless_ret].
Qed.

#[global] Hint Resolve stateless_py_len stateless_slice_to stateless_iterate
  stateless_str_lower stateless_as_key stateless_int_of stateless_float_of
  stateless_today stateless_current_month stateless_page_number : stateless.

(** A computation is stateless when its parts are. *)
Ltac stateless_step :=
  lazymatch goal with
  | |- stateless (bind _ _) => apply stateless_bind; [|intros ?]
  | |- stateless (if ?b then _ else _) => destruct b
  | |- stateless (match ?x with _ => _ end) => destruct x
  | |- stateless (fun _ _ => _) => intros ? ?; reflexivity
  | |- stateless _ => solve [auto with stateless]
  end.

Lemma stateless_read_entry (party group_by : string) (txn : pyval) :
  stateless (read_entry party group_by txn).
Proof. unfold read_entry. repeat stateless_step. Qed.

Lemma stateless_summary_step (party group_by : string)
    (acc : list (option string * float) * float) (txn : pyval) :
  stateless (summary_step party group_by acc txn).
Proof.
  unfold summary_step. apply stateless_bind; [apply stateless_read_entry|].
  intros entry. apply stateless_ret.
Qed.

#[global] Hint Resolve stateless_read_entry stateless_summary_step : stateless.

(** One step of showing a computation tame, by its outermost construct. *)
Ltac tame_step :=
  lazymatch goal with
  | |- tame (bind _ _) => apply tame_bind; [|intros ?]
  | |- tame (try_except _ _) => apply tame_try_except; [|intros ?]
  | |- tame get_api_client => apply tame_get_api_client
  | |- tame (issue _) => apply tame_issue
  | |- tame (api_call _ _ _ _) => apply tame_issue
  | |- tame (foldM _ _ _) => apply tame_foldM; intros ? ?
  | |- tame (filterM _ _) => apply tame_filterM; intros ?
  | |- tame (if ?b then _ else _) => destruct b
  | |- tame (match ?x with _ => _ end) => destruct x
  | |- tame (fun _ _ => _) => apply tame_stateless; intros ? ?; reflexivity
  | |- tame _ => apply tame_stateless; solve [auto with stateless]
  end.

(** Every tool of the catalogue is tame. *)
Lemma invoke_tame (t : tool) (kw : gmap string string) : tame (invoke t kw).
Proof.
  destruct t; unfold invoke; autounfold with tools; cbv zeta; repeat tame_step.
Qed.

Lemma stateless_first_split (txn : pyval) : stateless (first_split txn).
Proof. unfold first_split. repeat stateless_step. Qed.

Lemma stateless_make_date (year month day : Z) : stateless (make_date year month day).
Proof. unfold make_date. repeat stateless_step. Qed.

Lemma stateless_add_month (d : date) : stateless (add_month d).
Proof. destruct d as [[year month] day]. unfold add_month. repeat stateless_step. Qed.

Lemma stateless_minus_one_day (d : date) : stateless (minus_one_day d).
Proof. destruct d as [[year month] day]. unfold minus_one_day. repeat stateless_step. Qed.

#[global] Hint Resolve stateless_first_split stateless_make_date stateless_add_month
  stateless_minus_one_day : stateless.

Lemma stateless_month_end (strftime_Y : nat -> string) (year_int month_int : Z) :
  stateless (month_end strftime_Y year_int month_int).
Proof. unfold month_end. repeat stateless_step. Qed.

Lemma stateless_int_or (s : string) (now : nat) : stateless (int_or s now).
Proof. unfold int_or. repeat stateless_step. Qed.

Lemma stateless_limit_of (limit : string) : stateless (limit_of limit).
Proof. unfold limit_of. repeat stateless_step. Qed.

Lemma stateless_period_of (start_date end_date : string) :
  stateless (period_of start_date end_date).
Proof. unfold period_of. repeat stateless_step. Qed.

Lemma stateless_lacks_budget (txn : pyval) : stateless (lacks_budget txn).
Proof. unfold lacks_budget. repeat stateless_step. Qed.

Lemma stateless_amount_of (txn : pyval) : stateless (amount_of txn).
Proof. unfold amount_of. repeat stateless_step. Qed.

Lemma stateless_mapM {A} (f : pyval -> M A) (l : list pyval) :
  (forall x, stateless (f x)) -> stateless (mapM f l).
Proof.
  intros Hf. induction l as [|x r IH]; cbn; [apply stateless_ret|].
  apply stateless_bind; [apply Hf | intros y].
  apply stateless_bind; [exact IH | intros ys; apply stateless_ret].
Qed.

Lemma stateless_foldM {A} (f : A -> pyval -> M A) (acc : A) (l : list pyval) :
  (forall a x, stateless (f a x)) -> stateless (foldM f acc l).
Proof.
  intros Hf. revert acc. induction l as [|x r IH]; intros acc; cbn; [apply stateless_ret|].
  apply stateless_bind; [apply Hf | intros a; apply IH].
Qed.

Lemma stateless_filterM (p : pyval -> M bool) (l : list pyval) :
  (forall x, stateless (p x)) -> stateless (filterM p l).
Proof.
  intros Hp. induction l as [|x r IH]; cbn; [apply stateless_ret|].
  apply stateless_bind; [apply Hp | intros keep].
  apply stateless_bind; [exact IH | intros r'; apply stateless_ret].
Qed.

Lemma stateless_account_transaction_row (result : string) (txn : pyval) :
  stateless (account_transaction_row result txn).
Proof. unfold account_transaction_row. repeat stateless_step. Qed.

Lemma stateless_transaction_row (result : string) (txn : pyval) :
  stateless (transaction_row result txn).
Proof. unfold transaction_row. repeat stateless_step. Qed.

Lemma stateless_unbudgeted_row (result : string) (txn : pyval) :
  stateless (unbudgeted_row result txn).
Proof. unfold unbudgeted_row. repeat stateless_step. Qed.

Lemma stateless_search_row (result : string) (item : pyval) :
  stateless (search_row result item).
Proof. unfold search_row. repeat stateless_step. Qed.

#[global] Hint Resolve stateless_month_end stateless_int_or stateless_limit_of
  stateless_period_of stateless_lacks_budget stateless_amount_of
  stateless_account_transaction_row stateless_transaction_row stateless_unbudgeted_row
  stateless_search_row : stateless.

Lemma tame_listed_total (py_sum : list float -> float) (client : ApiClient)
    (start_date end_date transaction_type : string) :
  tame (listed_total py_sum client start_date end_date transaction_type).
Proof.
  unfold listed_total. repeat tame_step.
  apply tame_stateless, stateless_mapM. auto with stateless.
Qed.

(** So is every tool added to it. *)
Lemma invoke_more_tame (strftime_Y : nat -> string) (py_sum : list float -> float)
    (t : more_tool) (kw : gmap string string) :
  tame (invoke_more strftime_Y py_sum t kw).
Proof.
  destruct t; unfold invoke_more; autounfold with more_tools; cbv zeta;
    repeat first [apply tame_listed_total | tame_step].
Qed.

(** ** A tool call and the client cache *)

(** X1. A call of any modelled tool, in a process that has its client,
    keeps that client and its configuration, does not read the secrets
    file again and builds no other client; the calls it issues are added
    at the end of the log of backend calls. *)
Theorem tool_call_keeps_client (strftime_Y : nat -> string) (py_sum : list float -> float)
    (t : tool + more_tool) (kw : gmap string string) (E : env) (st : state)
    (client : ApiClient) :
  _api_client st = Some client ->
  let st' := snd (invoke_any strftime_Y py_sum t kw E st) in
  _api_client st' = Some client
  /\ _configuration st' = _configuration st
  /\ config_reads st' = config_reads st
  /\ clients_built st' = clients_built st
  /\ exists issued, calls st' = (calls st ++ issued)%list.
Proof.
  intros Hclient st'.
  assert (Ht : continues st st').
  { unfold st'. destruct t as [t|t]; cbn [invoke_any];
      [apply invoke_tame | apply invoke_more_tame]. }
  destruct Ht as [Hcalls Hkeep].
  destruct (Hkeep client Hclient) as (Ha & Hb & Hc & Hd). auto.
Qed.

Lemma tool_call_keeps_client_witness :
  _api_client ready_state = Some good_client
  /\ _api_client
       (snd (invoke_any four_digits plain_sum (inr T_list_transactions)
               (<["limit" := "5"]> ∅) quiet_env ready_state))
     = Some good_client
  /\ config_reads
       (snd (invoke_any four_digits plain_sum (inr T_list_transactions)
               (<["limit" := "5"]> ∅) quiet_env ready_state))
     = config_reads ready_state.
Proof.
  split; [reflexivity|].
  pose proof (tool_call_keeps_client four_digits plain_sum (inr T_list_transactions)
                (<["limit" := "5"]> ∅) quiet_env ready_state good_client eq_refl) as H.
  cbv zeta in H. destruct H as (Ha & _ & Hc & _). split; [exact Ha | exact Hc].
Defined.

(** ** Without configuration *)

Lemma offline_stateless {A} (E : env) (m : M A) : stateless m -> offline E m.
Proof. intros H st Hnone. rewrite H. auto. Qed.

Lemma offline_bind {A B} (E : env) (m : M A) (k : A -> M B) :
  offline E m -> (forall a, offline E (k a)) -> offline E (bind m k).
Proof.
  intros Hm Hk st Hnone. rewrite snd_bind. destruct (Hm st Hnone) as [Hc Hn].
  destruct (m E st) as [[a|e] st']; cbn [fst snd] in *; [|auto].
  destruct (Hk a st' Hn) as [Hc' Hn']. split; congruence.
Qed.

Lemma offline_try_except {A} (E : env) (body : M A) (handler : exn -> M A) :
  offline E body -> (forall e, offline E (handler e)) -> offline E (try_except body handler).
Proof.
  intros Hb Hh st Hnone. unfold try_except. destruct (Hb st Hnone) as [Hc Hn].
  destruct (body E st) as [[a|e] st']; cbn [fst snd] in *; [auto|].
  destruct (Hh e st' Hn) as [Hc' Hn']. split; congruence.
Qed.

(** Without a secrets file, whatever follows the acquisition of the
    client is not reached. *)
Lemma offline_client {B} (E : env) (k : ApiClient -> M B) :
  no_secrets E -> offline E (bind get_api_client k).
Proof.
  intros Hno st Hnone. unfold bind.
  rewrite (get_api_client_no_file E st Hnone (Hno _)). cbn. auto.
Qed.

Ltac offline_step H :=
  lazymatch goal with
  | |- offline _ (bind get_api_client _) => apply (offline_client _ _ H)
  | |- offline _ (bind _ _) => apply offline_bind; [|intros ?]
  | |- offline _ (try_except _ _) => apply offline_try_except; [|intros ?]
  | |- offline _ (if ?b then _ else _) => destruct b
  | |- offline _ (match ?x with _ => _ end) => destruct x
  | |- offline _ (fun _ _ => _) => apply offline_stateless; intros ? ?; reflexivity
  | |- offline _ _ => apply offline_stateless; solve [auto with stateless]
  end.

Lemma invoke_offline (E : env) (t : tool) (kw : gmap string string) :
  no_secrets E -> offline E (invoke t kw).
Proof.
  intros H. destruct t; unfold invoke; autounfold with tools; cbv zeta;
    repeat offline_step H.
Qed.

Lemma invoke_more_offline (strftime_Y : nat -> string) (py_sum : list float -> float)
    (E : env) (t : more_tool) (kw : gmap string string) :
  no_secrets E -> offline E (invoke_more strftime_Y py_sum t kw).
Proof.
  intros H. destruct t; unfold invoke_more; autounfold with more_tools; cbv zeta;
    repeat offline_step H.
Qed.

(** X2. In a process without a secrets file and without a client, a call
    of any modelled tool issues no backend call and leaves the process
    without a client: every tool asks for the client before its first
    backend call. *)
Theorem tool_call_without_secrets (strftime_Y : nat -> string)
    (py_sum : list float -> float) (t : tool + more_tool) (kw : gmap string string)
    (E : env) (st : state) :
  no_secrets E ->
  _api_client st = None ->
  calls (snd (invoke_any strftime_Y py_sum t kw E st)) = calls st
  /\ _api_client (snd (invoke_any strftime_Y py_sum t kw E st)) = None.
Proof.
  intros Hno Hnone. destruct t as [t|t]; cbn [invoke_any].
  - apply (invoke_offline E t kw Hno st Hnone).
  - apply (invoke_more_offline strftime_Y py_sum E t kw Hno st Hnone).
Qed.

Lemma tool_call_without_secrets_witness :
  no_secrets unconfigured_env
  /\ calls (snd (invoke_any four_digits plain_sum (inl T_delete_account)
                   (<["account_id" := "7"]> (<["confirm" := "DELETE"]> ∅))
                   unconfigured_env initial_state))
     = [].
Proof.
  split; [intros n; reflexivity|].
  apply (tool_call_without_secrets four_digits plain_sum (inl T_delete_account)
           (<["account_id" := "7"]> (<["confirm" := "DELETE"]> ∅))
           unconfigured_env initial_state (fun n => eq_refl) eq_refl).
Defined.

(** ** The host of the client *)

Lemma endswith_suffix (s suffix : string) :
  Py.endswith s suffix = true <-> exists r, s = r ++ suffix.
Proof.
  induction s as [|d r IH]; cbn [Py.endswith].
  - rewrite orb_false_r, String.eqb_eq. split.
    + intros <-. exists "". reflexivity.
    + intros [[|? ?] H]; [rewrite append_nil_l in H; exact H | discriminate].
  - rewrite orb_true_iff, IH, String.eqb_eq. split.
    + intros [<- | [r' ->]]; [exists ""; reflexivity | exists (String d r'); reflexivity].
    + intros [[|e r'] H].
      * left. rewrite append_nil_l in H. exact H.
      * rewrite append_cons in H. injection H as -> ->. right. eexists. reflexivity.
Qed.

(** [rstrip] changes nothing in a string whose last character stays. *)
Lemma rstrip_with_noop (p : ascii -> bool) (s : string) :
  (forall r c, s = r ++ String c "" -> p c = false) -> Py.rstrip_with p s = s.
Proof.
  induction s as [|d t IH]; intros H; cbn [Py.rstrip_with]; [reflexivity|].
  rewrite IH.
  - destruct t as [|e t']; [|reflexivity].
    rewrite (H "" d); reflexivity.
  - intros r c ->. apply (H (String d r) c). reflexivity.
Qed.

Lemma rstrip_with_snoc (p : ascii -> bool) (s : string) (c : ascii) :
  p c = true -> Py.rstrip_with p (s ++ String c "") = Py.rstrip_with p s.
Proof.
  intros Hc. induction s as [|d t IH].
  - rewrite append_nil_l. cbn. rewrite Hc. reflexivity.
  - rewrite append_cons. cbn [Py.rstrip_with]. rewrite IH. reflexivity.
Qed.

Lemma rstrip_slash_api (s : string) :
  Py.endswith s "/api" = true -> Py.rstrip_slash s = s.
Proof.
  intros H. apply endswith_suffix in H as [r ->].
  apply rstrip_with_noop. intros r' c Hr.
  change "/api" with ("/ap" ++ "i") in Hr. rewrite append_assoc in Hr.
  apply append_last_eq in Hr. subst c. reflexivity.
Qed.

(** X3. The host [get_api_client] gives the client is in normal form: it
    ends with [/api]; normalising it again changes nothing; a base address
    that already ends with [/api] is taken as it is; and a slash more at
    the end of the base address makes no difference. *)
Theorem api_host_normal_form (base_url : string) :
  Py.endswith (api_host base_url) "/api" = true
  /\ api_host (api_host base_url) = api_host base_url
  /\ (Py.endswith base_url "/api" = true -> api_host base_url = base_url)
  /\ api_host (base_url ++ "/") = api_host base_url.
Proof.
  assert (Hfix : forall s, Py.endswith s "/api" = true -> api_host s = s).
  { intros s Hs. unfold api_host. rewrite (rstrip_slash_api s Hs), Hs. reflexivity. }
  split; [apply api_host_endswith|]. split; [|split].
  - apply Hfix, api_host_endswith.
  - apply Hfix.
  - unfold api_host, Py.rstrip_slash. rewrite rstrip_with_snoc; reflexivity.
Qed.

(** ** Reading the configuration *)

(** X4. [load_config] never raises and opens the secrets file exactly
    once: it returns the ["firefly"] section when the file holds a JSON
    object that has one, and the empty dict in every other case (no file,
    a file that cannot be read or parsed, a document that is no object, an
    object without the section). *)
Theorem load_config_total (E : env) (st : state) :
  load_config E st =
    (Ret (match secrets_file E (config_reads st) with
          | Loaded (VDict secrets) =>
              match secrets !! "firefly" with
              | Some section => section
              | None => VDict ∅
              end
          | _ => VDict ∅
          end),
     count_read st)
  /\ config_reads (count_read st) = S (config_reads st)
  /\ calls (count_read st) = calls st.
Proof.
  split; [|split; reflexivity].
  unfold load_config, try_except, bind, read_secrets, ret.
  destruct (secrets_file E (config_reads st)) as [| text | secrets]; cbn; try reflexivity.
  destruct secrets; reflexivity.
Qed.

(** ** Tags *)




Lemma append_snoc_last (a b r : string) (c : ascii) :
  a ++ b = r -> forall r', b = r' ++ String c "" -> exists r'', r = r'' ++ String c "".
Proof.
  intros <- r' ->. exists (a ++ r'). rewrite append_assoc. reflexivity.
Qed.



(** ** Creating accounts *)





(** ** Transfers *)

(** X8. [create_transfer] needs its description, amount, source and
    destination: when one of them is empty or holds whitespace only, the
    tool returns its validation error and leaves the state as it was.
    Unlike [create_withdrawal], it fills in no destination. *)
Theorem create_transfer_required
    (description amount source_account destination_account date notes : string)
    (E : env) (st : state) :
  Py.blank description = true \/ Py.blank amount = true
  \/ Py.blank source_account = true \/ Py.blank destination_account = true ->
  create_transfer description amount source_account destination_account date notes E st
  = (Ret ("❌ Error: description, amount, source_account, "
          ++ "and destination_account are required"), st).
Proof.
  intros H. unfold create_transfer, create_transfer_body.
  destruct H as [H | [H | [H | H]]]; rewrite (strip_blank _ H);
    rewrite ?andb_false_r, ?andb_false_l; reflexivity.
Qed.

Lemma create_transfer_required_witness :
  create_transfer "To savings" "100" "1" "  " "" "" quiet_env initial_state
  = (Ret ("❌ Error: description, amount, source_account, "
          ++ "and destination_account are required"), initial_state).
Proof.
  apply (create_transfer_required "To savings" "100" "1" "  " "" "" quiet_env initial_state).
  right. right. right. reflexivity.
Defined.



(** ** Listing transactions *)

Ltac stateless_all :=
  repeat first
    [ apply stateless_foldM; intros ? ?
    | apply stateless_filterM; intros ?
    | apply stateless_mapM; intros ?
    | stateless_step ].


Lemma calls_issue (c : call) (E : env) (st : state) :
  calls (snd (issue c E st)) = (calls st ++ [c])%list.
Proof. reflexivity. Qed.

(** A guarded block that returns is the block. *)
Lemma try_except_returns {A} (body : M A) (handler : exn -> M A) (E : env) (st : state)
    (a : A) :
  fst (body E st) = Ret a -> try_except body handler E st = body E st.
Proof. unfold try_except. destruct (body E st) as [[b|e] st']; [reflexivity | discriminate]. Qed.




(** ** Periods *)

Lemma pretty_Z_of_nat (n : nat) : pretty (Z.of_nat n) = pretty n.
Proof. destruct n; reflexivity. Qed.

Lemma fmt_02d_of_nat (n : nat) : fmt_02d (Z.of_nat n) = pad2 n.
Proof.
  unfold fmt_02d, pad2. rewrite pretty_Z_of_nat.
  replace (0 <=? Z.of_nat n)%Z with true by (symmetry; apply Z.leb_le; lia).
  cbn [andb].
  destruct (n <? 10)%nat eqn:H.
  - apply Nat.ltb_lt in H.
    replace (Z.of_nat n <? 10)%Z with true by (symmetry; apply Z.ltb_lt; lia). reflexivity.
  - apply Nat.ltb_ge in H.
    replace (Z.of_nat n <? 10)%Z with false by (symmetry; apply Z.ltb_ge; lia). reflexivity.
Qed.

Lemma days_in_month_bounds (year month : nat) :
  (28 <= days_in_month year month <= 31)%nat.
Proof.
  unfold days_in_month.
  do 12 (destruct month as [|month]; [try destruct (is_leap year); lia|]). lia.
Qed.

Lemma year_bound (y : nat) : (Z.of_nat y <= 9999)%Z -> (9999 <? y)%nat = false.
Proof.
  intros H. apply Nat.ltb_ge, Nat2Z.inj_le.
  replace (Z.of_nat 9999) with 9999%Z by reflexivity. exact H.
Qed.

Lemma make_date_first (y m : nat) (E : env) (st : state) :
  (1 <= Z.of_nat y <= 9999)%Z -> (1 <= m <= 12)%nat ->
  make_date (Z.of_nat y) (Z.of_nat m) 1 E st = (Ret (y, m, 1%nat), st).
Proof.
  intros Hy Hm. pose proof (days_in_month_bounds y m) as Hd.
  unfold make_date, c_int. rewrite !Nat2Z.id.
  repeat match goal with
         | |- context [(?a <=? ?b)%Z] =>
             replace (a <=? b)%Z with true by (symmetry; apply Z.leb_le; lia)
         end.
  reflexivity.
Qed.

(** The day before the first of the next month is the last day of the
    month. *)
Lemma month_end_run (strftime_Y : nat -> string) (y m : nat) (E : env) (st : state) :
  (1 <= Z.of_nat y <= 9999)%Z -> (1 <= m <= 11)%nat ->
  month_end strftime_Y (Z.of_nat y) (Z.of_nat m) E st
  = (Ret (strftime_Y y ++ "-" ++ pad2 m ++ "-" ++ pad2 (days_in_month y m)), st).
Proof.
  intros Hy Hm. pose proof (days_in_month_bounds y (S m)) as Hd.
  unfold month_end. unfold bind at 1. rewrite make_date_first by lia.
  unfold bind at 1. unfold add_month.
  replace (m =? 12)%nat with false by (symmetry; apply Nat.eqb_neq; lia).
  rewrite year_bound by lia.
  cbn [ret]. rewrite Nat.min_l by lia.
  unfold bind at 1. unfold minus_one_day.
  cbn [Nat.ltb Nat.leb]. replace (S m - 1)%nat with m by lia.
  destruct m as [|m']; [lia | reflexivity].
Qed.

Lemma int_or_run (s : string) (now : nat) (E : env) (st : state) (n : Z) :
  fst (int_or s now E st) = Ret n -> int_or s now E st = (Ret n, st).
Proof.
  intros H. pose proof (stateless_int_or s now E st) as Hs.
  destruct (int_or s now E st) as [r st']. cbn in *. congruence.
Qed.

Lemma list_transactions_returns (start_date end_date transaction_type limit : string)
    (E : env) (st : state) :
  exists text,
    fst (list_transactions start_date end_date transaction_type limit E st) = Ret text.
Proof. unfold list_transactions. rewrite try_except_on_error. eexists. reflexivity. Qed.

(** X11. [list_transactions_for_period] for a month: with a year in
    1..9999 and a month in 1..12 (each the one given, or the current one
    when the parameter is blank), the tool answers what [list_transactions]
    answers for the period from the first of the month to its last day,
    the 28th to the 31st by the calendar, leap years included, with no
    type filter and the limit of 50. *)
Theorem period_month_range (strftime_Y : nat -> string) (year month : string)
    (E : env) (st : state) (y m : nat) :
  fst (int_or year (now_year E) E st) = Ret (Z.of_nat y) ->
  fst (int_or month (now_month E) E st) = Ret (Z.of_nat m) ->
  (1 <= Z.of_nat y <= 9999)%Z -> (1 <= m <= 12)%nat ->
  list_transactions_for_period strftime_Y "month" year month E st
  = list_transactions
      (pretty y ++ "-" ++ pad2 m ++ "-01")
      (if (m =? 12)%nat then pretty y ++ "-12-31"
       else strftime_Y y ++ "-" ++ pad2 m ++ "-" ++ pad2 (days_in_month y m))
      "" "50" E st.
Proof.
  intros Hyear Hmonth Hy Hm.
  apply int_or_run in Hyear, Hmonth.
  assert (Hbody : list_transactions_for_period_body strftime_Y "month" year month E st
                  = list_transactions
                      (pretty y ++ "-" ++ pad2 m ++ "-01")
                      (if (m =? 12)%nat then pretty y ++ "-12-31"
                       else strftime_Y y ++ "-" ++ pad2 m ++ "-"
                              ++ pad2 (days_in_month y m))
                      "" "50" E st).
  { unfold list_transactions_for_period_body.
    unfold bind at 1. cbn [ask].
    unfold bind at 1. rewrite Hyear.
    unfold bind at 1. rewrite Hmonth.
    cbn [String.eqb Ascii.eqb Bool.eqb].
    rewrite pretty_Z_of_nat, fmt_02d_of_nat.
    destruct (m =? 12)%nat eqn:H12.
    - apply Nat.eqb_eq in H12. subst m. reflexivity.
    - apply Nat.eqb_neq in H12.
      replace (Z.of_nat m =? 12)%Z with false by (symmetry; apply Z.eqb_neq; lia).
      unfold bind at 1. rewrite month_end_run by lia. reflexivity. }
  unfold list_transactions_for_period.
  destruct (list_transactions_returns
              (pretty y ++ "-" ++ pad2 m ++ "-01")
              (if (m =? 12)%nat then pretty y ++ "-12-31"
               else strftime_Y y ++ "-" ++ pad2 m ++ "-" ++ pad2 (days_in_month y m))
              "" "50" E st) as [text Htext].
  rewrite (try_except_returns _ _ E st text); rewrite Hbody; [reflexivity | exact Htext].
Qed.

Lemma period_month_range_witness :
  list_transactions_for_period four_digits "month" "2024" "2" decimal_env initial_state
  = list_transactions "2024-02-01" "2024-02-29" "" "50" decimal_env initial_state.
Proof.
  apply (period_month_range four_digits "2024" "2" decimal_env initial_state 2024 2
           eq_refl eq_refl); lia.
Defined.

(** X12. [list_transactions_for_period] for a year: whatever number the
    year is (the one given, or the current one), the tool answers what
    [list_transactions] answers for the first of January to the 31st of
    December of that year; the year is not checked against the calendar.
    The month is converted all the same: the call presupposes that [int]
    accepts it. *)
Theorem period_year_range (strftime_Y : nat -> string) (year month : string)
    (E : env) (st : state) (y m : Z) :
  fst (int_or year (now_year E) E st) = Ret y ->
  fst (int_or month (now_month E) E st) = Ret m ->
  list_transactions_for_period strftime_Y "year" year month E st
  = list_transactions (pretty y ++ "-01-01") (pretty y ++ "-12-31") "" "50" E st.
Proof.
  intros Hyear Hmonth. apply int_or_run in Hyear, Hmonth.
  assert (Hbody : list_transactions_for_period_body strftime_Y "year" year month E st
                  = list_transactions (pretty y ++ "-01-01") (pretty y ++ "-12-31")
                      "" "50" E st).
  { unfold list_transactions_for_period_body.
    unfold bind at 1. cbn [ask].
    unfold bind at 1. rewrite Hyear.
    unfold bind at 1. rewrite Hmonth. reflexivity. }
  unfold list_transactions_for_period.
  destruct (list_transactions_returns (pretty y ++ "-01-01") (pretty y ++ "-12-31")
              "" "50" E st) as [text Htext].
  rewrite (try_except_returns _ _ E st text); rewrite Hbody; [reflexivity | exact Htext].
Qed.

Lemma period_year_range_witness :
  list_transactions_for_period four_digits "year" "0" "" decimal_env initial_state
  = list_transactions "0-01-01" "0-12-31" "" "50" decimal_env initial_state.
Proof.
  apply (period_year_range four_digits "0" "" decimal_env initial_state 0 3 eq_refl eq_refl).
Defined.

Lemma make_date_month_refused (y m : Z) (E : env) (st : state) :
  (m < 1 \/ 12 < m)%Z -> exists e, make_date y m 1 E st = (Raise e, st).
Proof.
  intros Hm. unfold make_date.
  destruct (c_int y && c_int m && c_int 1); cbn [negb]; [|eexists; reflexivity].
  destruct ((1 <=? y) && (y <=? 9999))%Z; cbn [negb]; [|eexists; reflexivity].
  replace ((1 <=? m) && (m <=? 12))%Z with false; [eexists; reflexivity|].
  symmetry. apply andb_false_iff. rewrite Z.leb_gt, Z.leb_gt. lia.
Qed.

Lemma make_date_year_refused (y m : Z) (E : env) (st : state) :
  (y < 1 \/ 9999 < y)%Z -> exists e, make_date y m 1 E st = (Raise e, st).
Proof.
  intros Hy. unfold make_date.
  destruct (c_int y && c_int m && c_int 1); cbn [negb]; [|eexists; reflexivity].
  replace ((1 <=? y) && (y <=? 9999))%Z with false; [eexists; reflexivity|].
  symmetry. apply andb_false_iff. rewrite Z.leb_gt, Z.leb_gt. lia.
Qed.

(** X13. [list_transactions_for_period] refuses what is no period: for a
    [period] other than ["month"] and ["year"] it returns its error about
    the period; for a month outside 1..12, and for a month other than
    December in a year outside 1..9999, an error rendered from the
    exception of the date. In each case the state is left as it was, so
    that no client is asked for and nothing is sent. *)
Theorem period_refused (strftime_Y : nat -> string) (period year month : string)
    (E : env) (st : state) (y m : Z) :
  fst (int_or year (now_year E) E st) = Ret y ->
  fst (int_or month (now_month E) E st) = Ret m ->
  (period <> "month" /\ period <> "year")
  \/ (period = "month" /\ (m < 1 \/ 12 < m)%Z)
  \/ (period = "month" /\ m <> 12%Z /\ (y < 1 \/ 9999 < y)%Z) ->
  exists error : string,
    list_transactions_for_period strftime_Y period year month E st = (Ret error, st)
    /\ String.prefix error_marker error = true
    /\ (period <> "month" -> error = "❌ Error: period must be 'month' or 'year'").
Proof.
  intros Hyear Hmonth Hbad. apply int_or_run in Hyear, Hmonth.
  unfold list_transactions_for_period, list_transactions_for_period_body, try_except.
  unfold bind at 1. cbn [ask].
  unfold bind at 1. rewrite Hyear.
  unfold bind at 1. rewrite Hmonth.
  destruct Hbad as [[Hm Hy] | Hbad].
  - apply String.eqb_neq in Hm, Hy. rewrite Hm, Hy. cbn [ret].
    eexists. split; [reflexivity|]. split; reflexivity.
  - assert (Hdate : period = "month" /\ m <> 12%Z
                    /\ exists e, make_date y m 1 E st = (Raise e, st)).
    { destruct Hbad as [[-> Hrange] | (-> & H12 & Hrange)].
      - split; [reflexivity|]. split; [lia|]. apply make_date_month_refused, Hrange.
      - split; [reflexivity|]. split; [exact H12|]. apply make_date_year_refused, Hrange. }
    destruct Hdate as (-> & H12 & e & He).
    cbn [String.eqb Ascii.eqb Bool.eqb].
    replace (m =? 12)%Z with false by (symmetry; apply Z.eqb_neq; exact H12).
    unfold bind at 1. unfold month_end. unfold bind at 1. rewrite He.
    unfold on_error. eexists. split; [reflexivity|].
    split; [apply format_error_marker | congruence].
Qed.

Lemma period_refused_witness :
  exists error : string,
    list_transactions_for_period four_digits "month" "2024" "13" decimal_env initial_state
    = (Ret error, initial_state)
    /\ String.prefix error_marker error = true.
Proof.
  destruct (period_refused four_digits "month" "2024" "13" decimal_env initial_state
              2024 13 eq_refl eq_refl) as (error & Hrun & Hmark & _).
  - right. left. split; [reflexivity | lia].
  - exists error. split; [exact Hrun | exact Hmark].
Defined.

(** ** Tables *)

Lemma append_nil_r (s : string) : s ++ "" = s.
Proof. induction s as [|c r IH]; [reflexivity|]. rewrite append_cons, IH. reflexivity. Qed.

(** A loop that adds one row per item gives the rows in order. *)
Lemma foldM_rows (f : string -> pyval -> M string) (E : env) (items : list pyval)
    (rows : list string) :
  Forall2 (fun item row => forall result s, f result item E s = (Ret (result ++ row), s))
    items rows ->
  forall result s, foldM f result items E s = (Ret (result ++ join_rows rows), s).
Proof.
  induction 1 as [|item row items rows Hrow _ IH]; intros result s; cbn [foldM join_rows].
  - rewrite append_nil_r. reflexivity.
  - unfold bind. rewrite Hrow, IH, <- append_assoc. reflexivity.
Qed.

Lemma filterM_kept (p : pyval -> M bool) (E : env) (items : list pyval)
    (flags : list bool) :
  Forall2 (fun item flag => forall s, p item E s = (Ret flag, s)) items flags ->
  forall s, filterM p items E s = (Ret (kept items flags), s).
Proof.
  induction 1 as [|item flag items flags Hflag _ IH]; intros s; cbn [filterM kept].
  - reflexivity.
  - unfold bind. rewrite Hflag, IH. reflexivity.
Qed.


Lemma period_of_given (start_date end_date : string) :
  start_date <> "" -> end_date <> "" ->
  period_of start_date end_date = ret (start_date, end_date).
Proof.
  intros Hs He. apply nonempty_true in Hs, He. unfold period_of. rewrite Hs, He. reflexivity.
Qed.

(** X14. [list_transactions_without_budget] for a given period, with a
    client, over any list of withdrawals the backend returns whose budget
    names can be read: it asks for the withdrawals of the period by one
    backend call and keeps those whose budget name is empty or missing.
    When none is kept it reports that all have a budget; otherwise the
    heading gives the number of all kept transactions, and the table
    shows the first 50 of them, in the order of the listing. *)
Theorem transactions_without_budget (start_date end_date : string) (E : env)
    (st st1 : state) (client : ApiClient) (response : pyval) (txns : list pyval)
    (flags : list bool) (rows : list string) :
  start_date <> "" -> end_date <> "" ->
  get_api_client E st = (Ret client, st1) ->
  backend E (calls st) (list_call client start_date end_date "withdrawal") = Ret response ->
  (forall s, getattr response "data" E s = (Ret (VList txns), s)) ->
  Forall2 (fun txn flag => forall s, lacks_budget txn E s = (Ret flag, s)) txns flags ->
  Forall2 (fun txn row =>
             forall result s, unbudgeted_row result txn E s = (Ret (result ++ row), s))
    (take 50 (kept txns flags)) rows ->
  fst (list_transactions_without_budget start_date end_date E st)
  = Ret (match kept txns flags with
         | [] => "✅ All transactions have budgets assigned"
         | _ => unbudgeted_header (length (kept txns flags)) ++ join_rows rows
         end)
  /\ calls (snd (list_transactions_without_budget start_date end_date E st))
     = (calls st ++ [list_call client start_date end_date "withdrawal"])%list.
Proof.
  intros Hs He Hclient Hlist Hdata Hflags Hrows.
  pose proof (get_api_client_calls E st) as Hcalls. rewrite Hclient in Hcalls.
  cbn [snd] in Hcalls.
  split.
  - unfold list_transactions_without_budget, list_transactions_without_budget_body.
    rewrite try_except_on_error. cbn [fst].
    rewrite (period_of_given _ _ Hs He).
    unfold bind at 1. cbn [ret fst snd].
    unfold bind at 1. rewrite Hclient.
    unfold bind at 1. unfold issue at 1. rewrite Hcalls, Hlist.
    unfold bind at 1. rewrite Hdata.
    unfold bind at 1. cbn [iterate ret].
    unfold bind at 1. rewrite (filterM_kept _ E txns flags Hflags).
    destruct (kept txns flags) as [|txn rest] eqn:Hkept; [reflexivity|].
    rewrite (foldM_rows _ E _ rows Hrows). reflexivity.
  - unfold list_transactions_without_budget, list_transactions_without_budget_body.
    rewrite snd_try_except_on_error.
    rewrite (period_of_given _ _ Hs He).
    rewrite snd_bind. cbn [ret fst snd].
    rewrite snd_bind, Hclient. cbn [fst snd].
    rewrite snd_bind_stateless by (intros; stateless_all).
    rewrite calls_issue, Hcalls. reflexivity.
Qed.

Lemma transactions_without_budget_witness :
  fst (list_transactions_without_budget "2024-03-01" "2024-03-31"
         (listing_env march_expenses) initial_state)
  = Ret (unbudgeted_header 1 ++ "| 12 | 2024-03-02 | Cinema | 75.00 |" ++ nl).
Proof.
  assert (Hflags : Forall2
            (fun txn flag =>
               forall s, lacks_budget txn (listing_env march_expenses) s = (Ret flag, s))
            march_expenses [false; true])
    by (repeat constructor; intros s; reflexivity).
  assert (Hrows : Forall2
            (fun txn row =>
               forall result s,
                 unbudgeted_row result txn (listing_env march_expenses) s
                 = (Ret (result ++ row), s))
            (take 50 (kept march_expenses [false; true]))
            ["| 12 | 2024-03-02 | Cinema | 75.00 |" ++ nl])
    by (repeat constructor).
  destruct (transactions_without_budget "2024-03-01" "2024-03-31"
              (listing_env march_expenses) initial_state ready_state good_client
              (transaction_array march_expenses) march_expenses [false; true]
              ["| 12 | 2024-03-02 | Cinema | 75.00 |" ++ nl]
              ltac:(discriminate) ltac:(discriminate) eq_refl eq_refl
              (fun s => eq_refl) Hflags Hrows) as [Htext _].
  exact Htext.
Defined.



(** ** Net flow *)




(** ** Search *)



(** ** Creating rules *)





(** ** Raw requests *)





(** ** The default period *)

(** X22. The reports take the current month as their period as soon as
    one of the two dates is missing: [list_transactions_without_budget]
    called with at most one date, with a client, asks for the withdrawals
    from the first to the last day of the current month, and the date that
    was given is not used. *)
Theorem default_period_is_current_month (start_date end_date : string) (E : env)
    (st st1 : state) (client : ApiClient) :
  start_date = "" \/ end_date = "" ->
  (now_year E =? 9999)%nat && (now_month E =? 12)%nat = false ->
  get_api_client E st = (Ret client, st1) ->
  calls (snd (list_transactions_without_budget start_date end_date E st))
  = (calls st ++
       [list_call client
          (pretty (now_year E) ++ "-" ++ pad2 (now_month E) ++ "-01")
          (pad4 (now_year E) ++ "-" ++ pad2 (now_month E) ++ "-"
             ++ pad2 (days_in_month (now_year E) (now_month E)))
          "withdrawal"])%list.
Proof.
  intros Hmissing Hcalendar Hclient.
  pose proof (get_api_client_calls E st) as Hcalls. rewrite Hclient in Hcalls.
  cbn [snd] in Hcalls.
  assert (Hperiod : period_of start_date end_date = current_month).
  { unfold period_of. destruct Hmissing as [-> | ->]; cbn [Py.nonempty negb orb];
      rewrite ?orb_true_r; reflexivity. }
  unfold list_transactions_without_budget, list_transactions_without_budget_body.
  rewrite snd_try_except_on_error, Hperiod.
  rewrite snd_bind. unfold current_month at 1 2. rewrite Hcalendar. cbn [fst snd].
  rewrite snd_bind, Hclient. cbn [fst snd].
  rewrite snd_bind_stateless by (intros; stateless_all).
  rewrite calls_issue, Hcalls. reflexivity.
Qed.

Lemma default_period_is_current_month_witness :
  calls (snd (list_transactions_without_budget "2023-11-05" "" quiet_env initial_state))
  = [list_call good_client "2024-03-01" "2024-03-31" "withdrawal"].
Proof.
  apply (default_period_is_current_month "2023-11-05" "" quiet_env initial_state
           ready_state good_client).
  - right. reflexivity.
  - reflexivity.
  - reflexivity.
Defined.

(** ** Pages *)

(** X23. [list_attachments_by_account] converts its page only when one
    is given: with an empty page and a client it asks for the attachments
    with the page [None]; with a page [int] accepts, with that number; with
    a page [int] refuses, a space for one, it returns the rendered error
    and issues no backend call. *)
Theorem attachments_page (account_id page : string) (E : env) (st st1 : state)
    (client : ApiClient) :
  get_api_client E st = (Ret client, st1) ->
  match (if Py.nonempty page then py_int E page else Ret 0%Z) with
  | Ret n =>
      calls (snd (list_attachments_by_account account_id page E st))
      = (calls st ++
           [Call client "AccountsApi" "list_attachment_by_account" [VStr account_id]
              (<["page" := if Py.nonempty page then VInt n else VNone]> ∅)])%list
  | Raise e =>
      list_attachments_by_account account_id page E st = (Ret (format_error E e), st1)
  end.
Proof.
  intros Hclient.
  pose proof (get_api_client_calls E st) as Hcalls. rewrite Hclient in Hcalls.
  cbn [snd] in Hcalls.
  assert (Hpage : page_number page E st1
                  = (match (if Py.nonempty page then py_int E page else Ret 0%Z) with
                     | Ret n => Ret (if Py.nonempty page then VInt n else VNone)
                     | Raise e => Raise e
                     end, st1)).
  { unfold page_number. destruct (Py.nonempty page); [|reflexivity].
    unfold bind, int_of. destruct (py_int E page); reflexivity. }
  destruct (if Py.nonempty page then py_int E page else Ret 0%Z) as [n|e].
  - unfold list_attachments_by_account, list_attachments_by_account_body.
    rewrite snd_try_except_on_error.
    rewrite snd_bind, Hclient. cbn [fst snd].
    rewrite snd_bind, Hpage. cbn [fst snd].
    rewrite snd_bind_stateless by (intros; stateless_all).
    rewrite calls_issue, Hcalls. reflexivity.
  - unfold list_attachments_by_account, list_attachments_by_account_body, try_except.
    unfold bind at 1. rewrite Hclient.
    unfold bind at 1. rewrite Hpage. reflexivity.
Qed.

Lemma attachments_page_witness :
  list_attachments_by_account "7" " " decimal_env initial_state
  = (Ret "❌ Error: invalid literal for int() with base 10: ' '", ready_state).
Proof.
  exact (attachments_page "7" " " decimal_env initial_state ready_state good_client
           eq_refl).
Defined.

(** ** Destroying data *)





(** ** Deposits *)



(** ** Recurrences *)





(** ** Summaries grouped by anything else *)

Lemma read_entry_other (party group_by : string) (txn : pyval) (E : env) (amount : float) :
  group_by <> "category" -> group_by <> "budget" -> group_by <> "account" ->
  (forall s, amount_of txn E s = (Ret amount, s)) ->
  forall s, read_entry party group_by txn E s = (Ret (Some "Other", amount), s).
Proof.
  intros Hc Hb Ha Hamount s. specialize (Hamount s).
  apply String.eqb_neq in Hc, Hb, Ha.
  unfold amount_of, first_split in Hamount. unfold read_entry. rewrite Hc, Hb, Ha.
  unfold bind in *.
  destruct (getattrs txn ["attributes"; "transactions"] E s) as [[v|e] s1];
    [|discriminate Hamount].
  destruct (first_item v E s1) as [[txn_data|e] s2]; [|discriminate Hamount].
  destruct (getattr txn_data "amount" E s2) as [[a|e] s3]; [|discriminate Hamount].
  destruct (float_of a E s3) as [[f|e] s4]; [|discriminate Hamount].
  injection Hamount as -> ->. reflexivity.
Qed.

Lemma read_entries_other (party group_by : string) (E : env) (txns : list pyval)
    (amounts : list float) :
  group_by <> "category" -> group_by <> "budget" -> group_by <> "account" ->
  Forall2 (fun txn amount => forall s, amount_of txn E s = (Ret amount, s)) txns amounts ->
  Forall2 (fun txn entry => forall s, read_entry party group_by txn E s = (Ret entry, s))
    txns (map (fun amount => (Some "Other", amount)) amounts).
Proof.
  intros Hc Hb Ha. induction 1 as [|x a xs rest Hx _ IH]; cbn [map]; constructor.
  - apply read_entry_other; assumption.
  - exact IH.
Qed.

Lemma aggregate_one_group (key : option string) (amounts : list float) (v t : float) :
  fold_left add_entry (map (fun amount => (key, amount)) amounts) ([(key, v)], t)
  = ([(key, fold_left PrimFloat.add amounts v)], fold_left PrimFloat.add amounts t).
Proof.
  revert v t. induction amounts as [|a rest IH]; intros v t; cbn [map fold_left].
  - reflexivity.
  - unfold add_entry at 2. cbn [fst snd add_to_group].
    rewrite bool_decide_eq_true_2 by reflexivity. apply IH.
Qed.

(** X28. The summaries group by category, budget and account only: for
    any other [group_by], ["tag"] for one, [spending_summary] and
    [income_summary], called for a given period with a client and
    transactions whose amounts can be read, show one single row, named
    ["Other"], whose amount is the total. *)
Theorem summary_other_grouping (kind : summary_kind) (start_date end_date group_by : string)
    (E : env) (st st1 : state) (client : ApiClient) (response : pyval)
    (txn : pyval) (txns : list pyval) (amount : float) (amounts : list float) :
  group_by <> "category" -> group_by <> "budget" -> group_by <> "account" ->
  start_date <> "" -> end_date <> "" ->
  get_api_client E st = (Ret client, st1) ->
  backend E (calls st)
    (Call client "TransactionsApi" "list_transaction" []
       (<["start" := VStr start_date]>
          (<["end" := VStr end_date]> (<["type" := VStr (listed_type kind)]> ∅))))
  = Ret response ->
  (forall s, getattr response "data" E s = (Ret (VList (txn :: txns)), s)) ->
  Forall2 (fun txn amount => forall s, amount_of txn E s = (Ret amount, s))
    (txn :: txns) (amount :: amounts) ->
  let total := float_sum (amount :: amounts) in
  fst (summary_of kind start_date end_date group_by E st)
  = Ret (render_summary E (title_of kind) (total_label_of kind)
           start_date end_date group_by
           [(Some "Other", total, percent_of total total)] total).
Proof.
  intros Hc Hb Ha Hs He Hclient Hlist Hdata Hamounts total.
  assert (Hread : forall party,
            Forall2 (fun txn entry =>
                       forall s, read_entry party group_by txn E s = (Ret entry, s))
              (txn :: txns) (map (fun amount => (Some "Other", amount)) (amount :: amounts))).
  { intros party. apply read_entries_other; assumption. }
  assert (Hagg : aggregate (map (fun amount => (Some "Other", amount)) (amount :: amounts))
                 = ([(Some "Other", total)], total)).
  { unfold aggregate. cbn [map fold_left]. unfold add_entry at 2.
    cbn [fst snd add_to_group]. rewrite aggregate_one_group. reflexivity. }
  destruct kind; cbn [summary_of listed_type title_of total_label_of] in *;
    [unfold spending_summary, spending_summary_body
    |unfold income_summary, income_summary_body];
    rewrite try_except_on_error;
    rewrite (summary_body_run _ _ _ _ _ _ _ E st st1 client response (txn :: txns) _
               Hs He Hclient Hlist Hdata (Hread _));
    rewrite Hagg; reflexivity.
Qed.

Lemma summary_other_grouping_witness :
  fst (spending_summary "2024-03-01" "2024-03-31" "tag"
         (listing_env march_withdrawals) initial_state)
  = Ret (render_summary (listing_env march_withdrawals) "💸 Spending Summary"
           "**Total Spending:** " "2024-03-01" "2024-03-31" "tag"
           [(Some "Other", float_sum [15; 75; 10]%float,
             percent_of (float_sum [15; 75; 10]%float) (float_sum [15; 75; 10]%float))]
           (float_sum [15; 75; 10]%float)).
Proof.
  assert (Hamounts : Forall2
            (fun txn amount =>
               forall s, amount_of txn (listing_env march_withdrawals) s = (Ret amount, s))
            march_withdrawals [15; 75; 10]%float)
    by (repeat constructor).
  exact (summary_other_grouping Spending "2024-03-01" "2024-03-31" "tag"
           (listing_env march_withdrawals) initial_state ready_state good_client
           (transaction_array march_withdrawals) _ _ _ _
           ltac:(discriminate) ltac:(discriminate) ltac:(discriminate)
           ltac:(discriminate) ltac:(discriminate) eq_refl eq_refl
           (fun s => eq_refl) Hamounts).
Defined.

(** ** December *)

(** X29. For December [list_transactions_for_period] builds both dates
    from the number of the year as it is, without going through the
    calendar: whatever integer the year is, the tool answers what
    [list_transactions] answers for [<year>-12-01] to [<year>-12-31]. *)
Theorem period_december (strftime_Y : nat -> string) (year month : string)
    (E : env) (st : state) (y : Z) :
  fst (int_or year (now_year E) E st) = Ret y ->
  fst (int_or month (now_month E) E st) = Ret 12%Z ->
  list_transactions_for_period strftime_Y "month" year month E st
  = list_transactions (pretty y ++ "-12-01") (pretty y ++ "-12-31") "" "50" E st.
Proof.
  intros Hyear Hmonth. apply int_or_run in Hyear, Hmonth.
  assert (Hbody : list_transactions_for_period_body strftime_Y "month" year month E st
                  = list_transactions (pretty y ++ "-12-01") (pretty y ++ "-12-31")
                      "" "50" E st).
  { unfold list_transactions_for_period_body.
    unfold bind at 1. cbn [ask].
    unfold bind at 1. rewrite Hyear.
    unfold bind at 1. rewrite Hmonth. reflexivity. }
  unfold list_transactions_for_period.
  destruct (list_transactions_returns (pretty y ++ "-12-01") (pretty y ++ "-12-31")
              "" "50" E st) as [text Htext].
  rewrite (try_except_returns _ _ E st text); rewrite Hbody; [reflexivity | exact Htext].
Qed.

Lemma period_december_witness :
  list_transactions_for_period four_digits "month" "0" "12" decimal_env initial_state
  = list_transactions "0-12-01" "0-12-31" "" "50" decimal_env initial_state.
Proof.
  apply (period_december four_digits "0" "12" decimal_env initial_state 0 eq_refl eq_refl).
Defined.
